(** * Statement-to-Reality pipeline: a shallow embedding and its properties

    The development follows the service layer of the repository:

    - [src/core/models.py]                      (module [Models])
    - [src/services/conversation_service.py]    (module [ConversationService])
    - [src/services/architecture_service.py]    (module [ArchitectureService])
    - [src/services/code_generation_service.py] (module [CodeGeneration])
    - [cloud_deployment.py]                     (section [CloudDeployment])

    Python strings are modelled as Rocq strings whose characters are read as
    code points below 256; dictionaries are stdpp finite maps; Python sets are
    stdpp finite sets, and [list(set(...))] is [elements], whose order is as
    unspecified as Python's (no statement below depends on it).  Exceptions
    are values of type [exception] carried by [result].  Components are
    values in the lists of an architecture; where an assignment to a
    component object matters (auto-fix), the objects are also given as
    references into a heap (module [Objects]). *)

From Stdlib Require Import Ascii ZArith QArith Lia Bool.
From Stdlib Require String DecimalString.
From stdpp Require Import base gmap strings list fin_maps.

Close Scope Q_scope.

(** ** Python string primitives *)

Module PyStr.

Definition code (a : ascii) : nat := nat_of_ascii a.

(** [str.isspace] on one character (code points below 256). *)
Definition is_space (a : ascii) : bool :=
  let n := code a in
  ((9 <=? n) && (n <=? 13)) || ((28 <=? n) && (n <=? 32))
  || (n =? 133) || (n =? 160).

Definition is_upper (a : ascii) : bool :=
  let n := code a in
  ((65 <=? n) && (n <=? 90))
  || ((192 <=? n) && (n <=? 222) && negb (n =? 215)).

Definition lower_char (a : ascii) : ascii :=
  if is_upper a then ascii_of_nat (code a + 32) else a.

(** [str.lower()] *)
Fixpoint lower (s : string) : string :=
  match s with
  | EmptyString => EmptyString
  | String a s' => String (lower_char a) (lower s')
  end.

(** [needle in hay] for strings: substring test. *)
Fixpoint contains (needle hay : string) : bool :=
  String.prefix needle hay ||
  match hay with
  | EmptyString => false
  | String _ hay' => contains needle hay'
  end.

(** [any(k in text for k in keywords)] *)
Definition any_in (keywords : list string) (text : string) : bool :=
  existsb (fun k => contains k text) keywords.

Fixpoint lstrip (s : string) : string :=
  match s with
  | EmptyString => EmptyString
  | String a s' => if is_space a then lstrip s' else s
  end.

(** [str.strip()] *)
Definition strip (s : string) : string :=
  String.rev (lstrip (String.rev (lstrip s))).

(** Truthiness of a string: non-empty. *)
Definition truthy (s : string) : bool :=
  match s with EmptyString => false | _ => true end.

(** [sep.join(parts)] *)
Fixpoint join (sep : string) (parts : list string) : string :=
  match parts with
  | [] => ""
  | [p] => p
  | p :: rest => p +:+ sep +:+ join sep rest
  end.

(** [s.split(c)] for a one-character separator: empty pieces are kept. *)
Fixpoint split_char_go (c : ascii) (cur : string) (s : string) : list string :=
  match s with
  | EmptyString => [String.rev cur]
  | String a s' =>
      if Ascii.eqb a c then String.rev cur :: split_char_go c "" s'
      else split_char_go c (String a cur) s'
  end.

Definition split_char (c : ascii) (s : string) : list string :=
  split_char_go c "" s.

(** [s.split()]: the maximal runs of non-whitespace characters.  [cur] is
    the run being read, most recent character first. *)
Fixpoint split_go (cur : string) (s : string) : list string :=
  match s with
  | EmptyString =>
      if truthy cur then [String.rev cur] else []
  | String a s' =>
      if is_space a then
        (if truthy cur then String.rev cur :: split_go "" s'
         else split_go "" s')
      else split_go (String a cur) s'
  end.

Definition split (s : string) : list string := split_go "" s.

Definition is_lower_ascii (a : ascii) : bool :=
  let n := code a in (97 <=? n) && (n <=? 122).

Definition is_alpha_ascii (a : ascii) : bool :=
  let n := code a in
  ((65 <=? n) && (n <=? 90)) || ((97 <=? n) && (n <=? 122)).

Definition upper_char (a : ascii) : ascii :=
  if is_lower_ascii a then ascii_of_nat (code a - 32) else a.

(** [str.title()] on ASCII text: a letter is upper-cased when it follows a
    non-letter and lower-cased otherwise.  It is only ever applied to the
    literal quality keywords of the parser. *)
Fixpoint title_go (after_letter : bool) (s : string) : string :=
  match s with
  | EmptyString => EmptyString
  | String a s' =>
      String (if after_letter then lower_char a else upper_char a)
             (title_go (is_alpha_ascii a) s')
  end.

Definition title (s : string) : string := title_go false s.

(** [str(n)] for a natural number. *)
Definition of_nat (n : nat) : string :=
  DecimalString.NilZero.string_of_uint (Nat.to_uint n).

End PyStr.

(** ** Exceptions and results *)

Inductive exception : Type :=
| ValueError (msg : string)
| ConversationProcessingError (msg : string)
| StatementParsingError (msg : string)
| UnsupportedLanguageError (msg : string)
| ArchitectureInferenceError (msg : string)
| IndexError (msg : string)
| OtherException (msg : string).

(** [str(e)] *)
Definition exc_message (e : exception) : string :=
  match e with
  | ValueError m | ConversationProcessingError m | StatementParsingError m
  | UnsupportedLanguageError m | ArchitectureInferenceError m
  | IndexError m | OtherException m => m
  end.

Inductive result (A : Type) : Type :=
| Ok (a : A)
| Raise (e : exception).
Arguments Ok {A} a.
Arguments Raise {A} e.

#[global] Instance result_ret : MRet result := fun A a => Ok a.
#[global] Instance result_bind : MBind result := fun A B k r =>
  match r with
  | Ok a => k a
  | Raise e => Raise e
  end.

Definition is_ok {A} (r : result A) : bool :=
  match r with Ok _ => true | Raise _ => false end.

(** ** Core data models ([src/core/models.py])

    Each dataclass is a record [t] in a module of the class's name, so that
    the fields keep their Python names.  A [__post_init__] validator is the
    function [post_init] of that module; the smart constructor [make] runs it
    the way the dataclass constructor does. *)

Inductive StatementType : Type :=
| FUNCTIONAL | NON_FUNCTIONAL | CONSTRAINT | BUSINESS_RULE | EVOLUTION.

#[global] Instance StatementType_eq_dec : EqDecision StatementType.
Proof. solve_decision. Defined.

Module Statement.

(** Fields other than [content] may hold [None]; [confidence] is a float,
    read here as a rational. *)
Record t : Type := mk {
  content : string;
  context : option (gmap string string);
  timestamp : option Z;
  speaker : option string;
  statement_type : option StatementType;
  confidence : Q
}.

Definition post_init (s : t) : result unit :=
  if negb (PyStr.truthy (PyStr.strip (content s))) then
    Raise (ValueError "Statement content cannot be empty")
  else if negb (Qle_bool 0 (confidence s) && Qle_bool (confidence s) 1) then
    Raise (ValueError "Confidence must be between 0 and 1")
  else Ok ().

End Statement.

Module Conversation.

Record t : Type := mk {
  statements : list Statement.t;
  metadata : gmap string string;
  conversation_id : string
}.

Definition post_init (c : t) : result unit :=
  match statements c with
  | [] => Raise (ValueError "Conversation must contain at least one statement")
  | _ :: _ =>
      if negb (PyStr.truthy (conversation_id c)) then
        Raise (ValueError "Conversation ID cannot be empty")
      else Ok ()
  end.

(** [self.statements.append(statement)]; the time stamp [updated_at] is not
    part of the model. *)
Definition add_statement (s : Statement.t) (c : t) : t :=
  mk (statements c ++ [s]) (metadata c) (conversation_id c).

Definition get_statements_by_type (ty : StatementType) (c : t)
  : list Statement.t :=
  List.filter (fun s => bool_decide (Statement.statement_type s = Some ty))
    (statements c).

End Conversation.

Module SystemRequirements.

Record t : Type := mk {
  functional_requirements : list string;
  non_functional_requirements : list string;
  constraints : list string;
  business_rules : list string;
  quality_attributes : gmap string bool;
  extracted_entities : list string;
  confidence_score : Q
}.

Definition post_init (r : t) : result unit :=
  if negb (Qle_bool 0 (confidence_score r) && Qle_bool (confidence_score r) 1)
  then Raise (ValueError "Confidence score must be between 0 and 1")
  else Ok ().

Definition make (r : t) : result t := post_init r ;; Ok r.

End SystemRequirements.

Module SystemComponent.

(** [properties] and [metadata] default to empty dictionaries and are never
    read or written by the services; they are left out. *)
Record t : Type := mk {
  name : string;
  component_type : string;
  responsibilities : list string;
  interfaces : list string;
  dependencies : list string
}.

Definition post_init (c : t) : result unit :=
  if negb (PyStr.truthy (PyStr.strip (name c))) then
    Raise (ValueError "Component name cannot be empty")
  else if negb (PyStr.truthy (PyStr.strip (component_type c))) then
    Raise (ValueError "Component type cannot be empty")
  else Ok ().

Definition make (c : t) : result t := post_init c ;; Ok c.

(** Attribute assignment on a component object. *)
Definition set_responsibilities (r : list string) (c : t) : t :=
  mk (name c) (component_type c) r (interfaces c) (dependencies c).

Definition set_component_type (ty : string) (c : t) : t :=
  mk (name c) ty (responsibilities c) (interfaces c) (dependencies c).

#[global] Instance eq_dec : EqDecision t.
Proof. solve_decision. Defined.

End SystemComponent.

(** A relationship is a [Dict[str, Any]] with string values. *)
Abbreviation Relationship := (gmap string string) (only parsing).

Module SystemArchitecture.

Record Metadata : Type := mkMetadata {
  architecture_type : string;
  inference_timestamp : string;
  requirements_confidence : Q
}.

(** [technology_stack] keeps the insertion order of the Python dictionary. *)
Record t : Type := mk {
  components : list SystemComponent.t;
  relationships : list Relationship;
  patterns : list string;
  quality_attributes : gmap string bool;
  technology_stack : list (string * list string);
  deployment_model : string;
  metadata : option Metadata
}.

Definition post_init (a : t) : result unit :=
  match components a with
  | [] => Raise (ValueError "Architecture must contain at least one component")
  | _ :: _ => Ok ()
  end.

Definition make (a : t) : result t := post_init a ;; Ok a.

(** [next((c for c in self.components if c.name == name), None)] *)
Definition get_component_by_name (a : t) (n : string)
  : option SystemComponent.t :=
  find (fun c => bool_decide (SystemComponent.name c = n)) (components a).

Definition set_components (cs : list SystemComponent.t) (a : t) : t :=
  mk cs (relationships a) (patterns a) (quality_attributes a)
     (technology_stack a) (deployment_model a) (metadata a).

Definition set_relationships (rs : list Relationship) (a : t) : t :=
  mk (components a) rs (patterns a) (quality_attributes a)
     (technology_stack a) (deployment_model a) (metadata a).

Definition set_patterns (ps : list string) (a : t) : t :=
  mk (components a) (relationships a) ps (quality_attributes a)
     (technology_stack a) (deployment_model a) (metadata a).

Definition get_components_by_type (a : t) (ty : string)
  : list SystemComponent.t :=
  List.filter (fun c => bool_decide (SystemComponent.component_type c = ty))
    (components a).

End SystemArchitecture.

Module GeneratedCode.

Record t : Type := mk {
  language : string;
  framework : string;
  files : gmap string string;
  dependencies : list string;
  entry_point : string;
  build_commands : list string;
  run_commands : list string
}.

Definition post_init (g : t) : result unit :=
  if negb (PyStr.truthy (PyStr.strip (language g))) then
    Raise (ValueError "Language cannot be empty")
  else if bool_decide (files g = ∅) then
    Raise (ValueError "Generated code must contain at least one file")
  else if negb (bool_decide (is_Some (files g !! entry_point g))) then
    Raise (ValueError "Entry point must be one of the generated files")
  else Ok ().

Definition make (g : t) : result t := post_init g ;; Ok g.

End GeneratedCode.

Module ProcessingResult.

Record Metadata : Type := mkMetadata {
  statement_count : nat;
  metadata_processing_time : Q;
  parser_type : string
}.

(** [deployment_configs] and [running_system] are never filled by the
    services modelled here; they are left out. *)
Record t : Type := mk {
  conversation : Conversation.t;
  requirements : SystemRequirements.t;
  architecture : option SystemArchitecture.t;
  generated_code : gmap string GeneratedCode.t;
  processing_time : Q;
  success : bool;
  errors : list string;
  warnings : list string;
  metadata : option Metadata
}.

Definition add_error (error : string) (r : t) : t :=
  mk (conversation r) (requirements r) (architecture r) (generated_code r)
     (processing_time r) false (errors r ++ [error]) (warnings r)
     (metadata r).

Definition add_warning (warning : string) (r : t) : t :=
  mk (conversation r) (requirements r) (architecture r) (generated_code r)
     (processing_time r) (success r) (errors r) (warnings r ++ [warning])
     (metadata r).

Definition has_errors (r : t) : bool := 0 <? length (errors r).

Definition has_warnings (r : t) : bool := 0 <? length (warnings r).

End ProcessingResult.

(** ** Conversation processing ([src/services/conversation_service.py]) *)

Module ConversationService.

(** [getattr(statement, field) is None] for each required field, in the
    order of [required_fields]; [content] is a string and so never [None]. *)
Definition required_fields (s : Statement.t) : list (string * bool) :=
  [ ("content", false);
    ("context", bool_decide (Statement.context s = None));
    ("timestamp", bool_decide (Statement.timestamp s = None));
    ("speaker", bool_decide (Statement.speaker s = None));
    ("statement_type", bool_decide (Statement.statement_type s = None)) ].

Definition _validate_statement (s : Statement.t) : result unit :=
  if negb (PyStr.truthy (PyStr.strip (Statement.content s))) then
    Raise (StatementParsingError "Statement content is empty")
  else if (10000 <? Z.of_nat (String.length (Statement.content s)))%Z then
    Raise (StatementParsingError "Statement too long (>10000 characters)")
  else
    match find snd (required_fields s) with
    | Some (field, _) =>
        Raise (StatementParsingError
                 ("Statement missing required field: " +:+ field))
    | None => Ok ()
    end.

(** The loop [for i, statement in enumerate(conversation.statements)]:
    any exception of [_validate_statement] is re-raised as a
    [ConversationProcessingError]. *)
Fixpoint validate_statements_from (i : nat) (l : list Statement.t)
  : result unit :=
  match l with
  | [] => Ok ()
  | s :: l' =>
      match _validate_statement s with
      | Raise e =>
          Raise (ConversationProcessingError
                   ("Invalid statement at index " +:+ PyStr.of_nat i
                    +:+ ": " +:+ exc_message e))
      | Ok _ => validate_statements_from (S i) l'
      end
  end.

Definition _validate_conversation (c : Conversation.t) : result unit :=
  match Conversation.statements c with
  | [] => Raise (ConversationProcessingError "Conversation has no statements")
  | _ :: _ =>
      if 1000 <? length (Conversation.statements c) then
        Raise (ConversationProcessingError
                 "Conversation too long (>1000 statements)")
      else validate_statements_from 0 (Conversation.statements c)
  end.

(** *** EnhancedConversationalParser *)

Definition technical_keywords : list string :=
  [ "api"; "database"; "user"; "authentication"; "authorization";
    "payment"; "notification"; "email"; "sms"; "file"; "upload";
    "download"; "search"; "filter"; "sort"; "pagination"; "cache";
    "session"; "cookie"; "token"; "jwt"; "oauth"; "ssl"; "https";
    "rest"; "graphql"; "websocket"; "microservice"; "container";
    "docker"; "kubernetes"; "aws"; "gcp"; "azure" ].

(** The keyword scan of [extract_entities], without the cache. *)
Definition scan_entities (text : string) : list string :=
  let text_lower := PyStr.lower text in
  List.filter (fun keyword => PyStr.contains keyword text_lower)
    technical_keywords.

(** [self._entity_cache]: raw text to the entity list computed for it. *)
Abbreviation EntityCache := (gmap string (list string)) (only parsing).

Definition extract_entities (text : string) (cache : EntityCache)
  : list string * EntityCache :=
  match cache !! text with
  | Some entities => (entities, cache)
  | None =>
      let entities := scan_entities text in
      (entities, <[text := entities]> cache)
  end.

Definition action_patterns : list string :=
  [ "create"; "build"; "implement"; "develop"; "add"; "remove";
    "update"; "delete"; "manage"; "handle"; "process"; "generate" ].

Definition or_content (found : list string) (content : string) : list string :=
  match found with [] => [content] | _ :: _ => found end.

Definition _extract_functional_requirements (s : Statement.t) : list string :=
  let content := Statement.content s in
  let content_lower := PyStr.lower content in
  let requirements :=
    flat_map (fun pattern =>
      if PyStr.contains pattern content_lower then
        flat_map (fun sentence =>
          if PyStr.contains pattern (PyStr.lower sentence)
          then [PyStr.strip sentence] else [])
          (PyStr.split_char "." content)
      else []) action_patterns in
  or_content requirements content.

Definition quality_patterns : list string :=
  [ "performance"; "scalability"; "security"; "reliability";
    "availability"; "usability"; "maintainability"; "portability" ].

Definition _extract_non_functional_requirements (s : Statement.t)
  : list string :=
  let content := Statement.content s in
  let content_lower := PyStr.lower content in
  let requirements :=
    flat_map (fun pattern =>
      if PyStr.contains pattern content_lower
      then [PyStr.title pattern +:+ ": " +:+ content] else [])
      quality_patterns in
  or_content requirements content.

Definition constraint_patterns : list string :=
  [ "must"; "should"; "cannot"; "limited to"; "restricted";
    "required"; "mandatory"; "forbidden"; "not allowed" ].

(** The loop appends [content] at the first matching pattern and breaks. *)
Definition _extract_constraints (s : Statement.t) : list string :=
  let content := Statement.content s in
  let constraints :=
    if PyStr.any_in constraint_patterns (PyStr.lower content)
    then [content] else [] in
  or_content constraints content.

Definition rule_patterns : list string :=
  [ "if"; "when"; "unless"; "only if"; "provided that";
    "business rule"; "policy"; "regulation"; "compliance" ].

Definition _extract_business_rules (s : Statement.t) : list string :=
  let content := Statement.content s in
  let rules :=
    if PyStr.any_in rule_patterns (PyStr.lower content)
    then [content] else [] in
  or_content rules content.

Definition quality_attribute_names : list string :=
  [ "performance"; "scalability"; "security"; "reliability"; "usability" ].

Definition _extract_quality_attributes (c : Conversation.t)
  : gmap string bool :=
  let full_text :=
    PyStr.join " "
      (map (fun stmt => PyStr.lower (Statement.content stmt))
           (Conversation.statements c)) in
  list_to_map
    (map (fun attribute => (attribute, PyStr.contains attribute full_text))
         quality_attribute_names).

Definition intent_keywords : list string :=
  [ "create"; "build"; "implement"; "need"; "want"; "should"; "must" ].

(** One iteration of the counting loop of [_calculate_parsing_confidence]. *)
Definition count_step (parsed_statements : nat) (s : Statement.t) : nat :=
  if PyStr.any_in intent_keywords (PyStr.lower (Statement.content s))
  then parsed_statements + 1 else parsed_statements.

(** [parsed_statements / total_statements] is Python's true division of two
    integers, read as the rational quotient. *)
Definition _calculate_parsing_confidence (c : Conversation.t) : Q :=
  let total_statements := length (Conversation.statements c) in
  let parsed_statements := fold_left count_step (Conversation.statements c) 0 in
  if 0 <? total_statements
  then Qmake (Z.of_nat parsed_statements) (Pos.of_nat total_statements)
  else 0%Q.

(** The local variables of [parse_statements] together with the parser's
    entity cache. *)
Record ParseState : Type := mkParseState {
  functional_reqs : list string;
  non_functional_reqs : list string;
  constraints : list string;
  business_rules : list string;
  entities : gset string;
  entity_cache : EntityCache
}.

(** The [if]/[elif] chain on the declared statement type. *)
Definition extract_by_type (st : ParseState) (s : Statement.t) : ParseState :=
  match Statement.statement_type s with
  | Some FUNCTIONAL =>
      mkParseState
        (functional_reqs st ++ _extract_functional_requirements s)
        (non_functional_reqs st) (constraints st) (business_rules st)
        (entities st) (entity_cache st)
  | Some NON_FUNCTIONAL =>
      mkParseState (functional_reqs st)
        (non_functional_reqs st ++ _extract_non_functional_requirements s)
        (constraints st) (business_rules st) (entities st) (entity_cache st)
  | Some CONSTRAINT =>
      mkParseState (functional_reqs st) (non_functional_reqs st)
        (constraints st ++ _extract_constraints s)
        (business_rules st) (entities st) (entity_cache st)
  | Some BUSINESS_RULE =>
      mkParseState (functional_reqs st) (non_functional_reqs st)
        (constraints st)
        (business_rules st ++ _extract_business_rules s)
        (entities st) (entity_cache st)
  | Some EVOLUTION | None => st
  end.

(** The body of the loop over the statements.  Every operation in it is total
    on well-typed statements, so the handler of the [try] block is never
    entered. *)
Definition parse_step (st : ParseState) (s : Statement.t) : ParseState :=
  let st1 := extract_by_type st s in
  let '(statement_entities, cache) :=
    extract_entities (Statement.content s) (entity_cache st1) in
  mkParseState (functional_reqs st1) (non_functional_reqs st1)
    (constraints st1) (business_rules st1)
    (entities st1 ∪ list_to_set statement_entities) cache.

Definition parse_statements (c : Conversation.t) (cache : EntityCache)
  : result SystemRequirements.t * EntityCache :=
  let st :=
    fold_left parse_step (Conversation.statements c)
      (mkParseState [] [] [] [] ∅ cache) in
  let confidence := _calculate_parsing_confidence c in
  (SystemRequirements.make
     (SystemRequirements.mk
        (functional_reqs st) (non_functional_reqs st)
        (constraints st) (business_rules st)
        (_extract_quality_attributes c)
        (elements (entities st))
        confidence),
   entity_cache st).

(** Extraction as [process_conversation] runs it: validation, then parsing.
    A failed validation leaves the cache untouched. *)
Definition extract (c : Conversation.t) (cache : EntityCache)
  : result SystemRequirements.t * EntityCache :=
  match _validate_conversation c with
  | Raise e => (Raise e, cache)
  | Ok _ => parse_statements c cache
  end.

(** *** ConversationService, continued *)

(** The loop of [extract_key_concepts]: the set [concepts] and the parser's
    cache. *)
Definition concept_step (st : gset string * gmap string (list string))
    (s : Statement.t) : gset string * gmap string (list string) :=
  let '(concepts, cache) := st in
  let '(found, cache) := extract_entities (Statement.content s) cache in
  (concepts ∪ list_to_set found, cache).

Definition extract_key_concepts (c : Conversation.t)
    (cache : gmap string (list string))
  : list string * gmap string (list string) :=
  let '(concepts, cache) :=
    fold_left concept_step (Conversation.statements c) (∅, cache) in
  (elements concepts, cache).

(** [SystemRequirements([], [], [], [], {}, [])] *)
Definition initial_requirements : SystemRequirements.t :=
  SystemRequirements.mk [] [] [] [] ∅ [] 0.

(** [elapsed] stands for the seconds between the two readings of the clock.
    Every exception of the [try] block ends in [result.add_error]. *)
Definition process_conversation (elapsed : Q) (c : Conversation.t)
    (cache : gmap string (list string))
  : ProcessingResult.t * gmap string (list string) :=
  let result :=
    ProcessingResult.mk c initial_requirements None ∅ 0 true [] [] None in
  let failed (e : exception) :=
    ProcessingResult.add_error
      ("Conversation processing failed: " +:+ exc_message e) result in
  match _validate_conversation c with
  | Raise e => (failed e, cache)
  | Ok _ =>
      match parse_statements c cache with
      | (Raise e, cache') => (failed e, cache')
      | (Ok requirements, cache') =>
          (ProcessingResult.mk c requirements None ∅ elapsed true [] []
             (Some (ProcessingResult.mkMetadata
                      (length (Conversation.statements c)) elapsed
                      "EnhancedConversationalParser")),
           cache')
      end
  end.

End ConversationService.

(** ** Architecture inference ([src/services/architecture_service.py]) *)

(** [d.get(key)] is truthy, for the boolean flags of [quality_attributes]. *)
Definition flag (d : gmap string bool) (key : string) : bool :=
  default false (d !! key).

Module EnhancedArchitecturalInference.

Record ComponentTemplate : Type := mkTemplate {
  tpl_name : string;
  tpl_type : string;
  tpl_responsibilities : list string;
  tpl_interfaces : list string;
  tpl_dependencies : option (list string)
}.

Definition _load_component_templates : gmap string ComponentTemplate :=
  list_to_map
    [ ("api", mkTemplate "APIService" "api"
         ["Handle HTTP requests"; "Route requests"]
         ["RestAPI"; "HTTPInterface"] None);
      ("database", mkTemplate "DatabaseService" "database"
         ["Data storage"; "Data retrieval"] ["DatabaseInterface"] None);
      ("user", mkTemplate "UserService" "service"
         ["User management"; "Authentication"] ["UserInterface"] None);
      ("authentication", mkTemplate "AuthenticationService" "service"
         ["User authentication"; "Token management"] ["AuthInterface"] None);
      ("payment", mkTemplate "PaymentService" "service"
         ["Payment processing"; "Transaction management"]
         ["PaymentInterface"] None);
      ("notification", mkTemplate "NotificationService" "service"
         ["Send notifications"; "Message delivery"]
         ["NotificationInterface"] None) ].

Definition _get_default_components : list SystemComponent.t :=
  [ SystemComponent.mk "APIGateway" "api_gateway"
      ["Request routing"; "Authentication"] ["HTTPInterface"] [];
    SystemComponent.mk "BusinessService" "service"
      ["Business logic"; "Data processing"] ["BusinessInterface"]
      ["DatabaseService"];
    SystemComponent.mk "DatabaseService" "database"
      ["Data persistence"; "Data retrieval"] ["DatabaseInterface"] [] ].

Definition func_reqs_text (r : SystemRequirements.t) : string :=
  PyStr.lower (PyStr.join " " (SystemRequirements.functional_requirements r)).

Definition all_text (r : SystemRequirements.t) : string :=
  PyStr.lower
    (PyStr.join " "
       (SystemRequirements.functional_requirements r
        ++ SystemRequirements.non_functional_requirements r)).

Definition _determine_architecture_type (r : SystemRequirements.t) : string :=
  let text := func_reqs_text r in
  if PyStr.contains "microservice" text then "microservices"
  else if PyStr.any_in ["web"; "api"; "rest"] text then "web_application"
  else if PyStr.contains "mobile" text then "mobile_application"
  else if PyStr.any_in ["desktop"; "gui"] text then "desktop_application"
  else "web_application".

(** One iteration of the loop over the extracted entities. *)
Definition component_step (acc : result (list SystemComponent.t))
    (entity : string) : result (list SystemComponent.t) :=
  components ← acc;
  match _load_component_templates !! entity with
  | Some template =>
      component ← SystemComponent.make
        (SystemComponent.mk (tpl_name template) (tpl_type template)
           (tpl_responsibilities template) (tpl_interfaces template)
           (default [] (tpl_dependencies template)));
      mret (components ++ [component])
  | None => mret components
  end.

Definition _generate_components (r : SystemRequirements.t)
  : result (list SystemComponent.t) :=
  components ←
    fold_left component_step (SystemRequirements.extracted_entities r) (Ok []);
  match components with
  | [] => mret _get_default_components
  | _ :: _ => mret components
  end.

Definition relationship (source target type description : string)
  : Relationship :=
  list_to_map [ ("source", source); ("target", target);
                ("type", type); ("description", description) ].

Definition calls_edge (api_comp service_comp : SystemComponent.t)
  : Relationship :=
  relationship (SystemComponent.name api_comp)
    (SystemComponent.name service_comp) "calls"
    (SystemComponent.name api_comp +:+ " calls "
     +:+ SystemComponent.name service_comp).

Definition uses_edge (service_comp db_comp : SystemComponent.t)
  : Relationship :=
  relationship (SystemComponent.name service_comp)
    (SystemComponent.name db_comp) "uses"
    (SystemComponent.name service_comp +:+ " uses "
     +:+ SystemComponent.name db_comp).

Definition is_api (c : SystemComponent.t) : bool :=
  PyStr.contains "api" (PyStr.lower (SystemComponent.component_type c)).

Definition is_database (c : SystemComponent.t) : bool :=
  PyStr.contains "database" (PyStr.lower (SystemComponent.component_type c)).

Definition is_service (c : SystemComponent.t) : bool :=
  bool_decide (SystemComponent.component_type c = "service").

(** The two nested loops, each iteration appending one dictionary to
    [relationships]. *)
Definition _generate_relationships (components : list SystemComponent.t)
    (r : SystemRequirements.t) : list Relationship :=
  let api_components := List.filter is_api components in
  let db_components := List.filter is_database components in
  let service_components := List.filter is_service components in
  let relationships := [] in
  let relationships :=
    fold_left (fun rels api_comp =>
      fold_left (fun rels service_comp =>
        rels ++ [calls_edge api_comp service_comp])
        service_components rels)
      api_components relationships in
  let relationships :=
    fold_left (fun rels service_comp =>
      fold_left (fun rels db_comp =>
        rels ++ [uses_edge service_comp db_comp])
        db_components rels)
      service_components relationships in
  relationships.

(** The list [patterns] before [list(set(patterns))]. *)
Definition suggested_list (r : SystemRequirements.t) : list string :=
  let text := func_reqs_text r in
  let qa := SystemRequirements.quality_attributes r in
  let patterns :=
    (if PyStr.any_in ["api"; "service"; "microservice"] text
     then ["microservices"] else [])
    ++ (if PyStr.any_in ["web"; "ui"; "interface"] text then ["mvc"] else [])
    ++ (if PyStr.any_in ["event"; "notification"; "async"] text
        then ["event_driven"] else [])
    ++ (if PyStr.any_in ["layer"; "tier"] text then ["layered"] else [])
    ++ (if flag qa "scalability" then ["microservices"] else [])
    ++ (if flag qa "performance" then ["caching"] else []) in
  match patterns with
  | [] => ["layered"]
  | _ :: _ => patterns
  end.

Definition suggest_patterns (r : SystemRequirements.t) : list string :=
  elements (list_to_set (suggested_list r) : gset string).

Definition _determine_technology_stack (r : SystemRequirements.t)
  : list (string * list string) :=
  let text := all_text r in
  let backend :=
    if PyStr.contains "python" text || PyStr.contains "django" text
       || PyStr.contains "flask" text then ["Python"; "FastAPI"]
    else if PyStr.contains "node" text || PyStr.contains "javascript" text
    then ["Node.js"; "Express"]
    else if PyStr.contains "java" text || PyStr.contains "spring" text
    then ["Java"; "Spring Boot"]
    else ["Python"; "FastAPI"] in
  let frontend :=
    if PyStr.contains "react" text then ["React"]
    else if PyStr.contains "vue" text then ["Vue.js"]
    else if PyStr.contains "angular" text then ["Angular"]
    else ["React"] in
  let database :=
    if PyStr.contains "postgresql" text || PyStr.contains "postgres" text
    then ["PostgreSQL"]
    else if PyStr.contains "mysql" text then ["MySQL"]
    else if PyStr.contains "mongodb" text || PyStr.contains "mongo" text
    then ["MongoDB"]
    else ["PostgreSQL"] in
  [ ("backend", backend); ("frontend", frontend); ("database", database);
    ("infrastructure", ["Docker"; "Kubernetes"]) ].

Definition _determine_deployment_model (r : SystemRequirements.t) : string :=
  let text := all_text r in
  if PyStr.contains "cloud" text || PyStr.contains "aws" text
     || PyStr.contains "gcp" text then "cloud"
  else if PyStr.contains "container" text || PyStr.contains "docker" text
  then "containerized"
  else if PyStr.contains "serverless" text then "serverless"
  else "cloud".

(** [now] stands for [datetime.now().isoformat()]. *)
Definition infer_architecture (now : string) (r : SystemRequirements.t)
  : result SystemArchitecture.t :=
  let arch_type := _determine_architecture_type r in
  components ← _generate_components r;
  let relationships := _generate_relationships components r in
  let patterns := suggest_patterns r in
  let tech_stack := _determine_technology_stack r in
  let deployment_model := _determine_deployment_model r in
  SystemArchitecture.make
    (SystemArchitecture.mk components relationships patterns
       (SystemRequirements.quality_attributes r) tech_stack deployment_model
       (Some (SystemArchitecture.mkMetadata arch_type now
                (SystemRequirements.confidence_score r)))).

(** One iteration of the completeness loop of [validate_architecture]. *)
Definition responsibility_issue (c : SystemComponent.t) : list string :=
  match SystemComponent.responsibilities c with
  | [] => ["Component " +:+ SystemComponent.name c
           +:+ " has no responsibilities"]
  | _ :: _ => []
  end.

Definition validate_architecture (a : SystemArchitecture.t) : list string :=
  (match SystemArchitecture.components a with
   | [] => ["Architecture has no components"] | _ :: _ => [] end)
  ++ (match SystemArchitecture.patterns a with
      | [] => ["Architecture has no patterns defined"] | _ :: _ => [] end)
  ++ flat_map responsibility_issue (SystemArchitecture.components a).

End EnhancedArchitecturalInference.

(** ** Operations on an architecture object

    The architecture service receives the architecture by reference and
    mutates it in place.  A method taking [architecture] is a computation in
    [ArchM]: it reads and writes the one architecture object and may raise. *)

Definition ArchM (A : Type) : Type :=
  SystemArchitecture.t -> result A * SystemArchitecture.t.

#[global] Instance ArchM_ret : MRet ArchM := fun A a s => (Ok a, s).
#[global] Instance ArchM_bind : MBind ArchM := fun A B k m s =>
  match m s with
  | (Ok a, s') => k a s'
  | (Raise e, s') => (Raise e, s')
  end.

(** Reading an attribute of the architecture. *)
Definition reads {A} (f : SystemArchitecture.t -> A) : ArchM A :=
  fun s => (Ok (f s), s).

(** Writing the architecture. *)
Definition modify (f : SystemArchitecture.t -> SystemArchitecture.t)
  : ArchM unit :=
  fun s => (Ok tt, f s).

(** Running a constructor or helper that may raise. *)
Definition lift {A} (r : result A) : ArchM A := fun s => (r, s).

Definition exec {A} (m : ArchM A) (s : SystemArchitecture.t)
  : SystemArchitecture.t := snd (m s).

Definition eval {A} (m : ArchM A) (s : SystemArchitecture.t) : result A :=
  fst (m s).

(** [for x in xs: body(x)] *)
Fixpoint for_each {A} (xs : list A) (body : A -> ArchM unit) : ArchM unit :=
  match xs with
  | [] => mret tt
  | x :: xs' => body x ;; for_each xs' body
  end.

(** [architecture.components.append(c)] *)
Definition append_component (c : SystemComponent.t) : ArchM unit :=
  modify (fun a =>
    SystemArchitecture.set_components (SystemArchitecture.components a ++ [c]) a).

(** [architecture.patterns.append(p)] *)
Definition append_pattern (p : string) : ArchM unit :=
  modify (fun a =>
    SystemArchitecture.set_patterns (SystemArchitecture.patterns a ++ [p]) a).

(** [architecture.relationships.extend(rs)] *)
Definition extend_relationships (rs : list Relationship) : ArchM unit :=
  modify (fun a =>
    SystemArchitecture.set_relationships
      (SystemArchitecture.relationships a ++ rs) a).

(** Assignment to an attribute of the first component named [n], the object
    that [get_component_by_name] returns.  The value list stands for a list of
    distinct objects, which is what the services build (every component
    comes from a constructor call of its own); a list that names one object
    twice is the subject of [Objects] below. *)
Fixpoint update_first (n : string) (f : SystemComponent.t -> SystemComponent.t)
    (cs : list SystemComponent.t) : list SystemComponent.t :=
  match cs with
  | [] => []
  | c :: cs' =>
      if bool_decide (SystemComponent.name c = n) then f c :: cs'
      else c :: update_first n f cs'
  end.

Definition update_component (n : string)
    (f : SystemComponent.t -> SystemComponent.t) : ArchM unit :=
  modify (fun a =>
    SystemArchitecture.set_components
      (update_first n f (SystemArchitecture.components a)) a).

Module ArchitectureService.

Record ComponentConfig : Type := mkConfig {
  cfg_name : string;
  cfg_type : string;
  cfg_responsibilities : option (list string);
  cfg_interfaces : option (list string);
  cfg_dependencies : option (list string)
}.

Record PatternConfig : Type := mkPattern {
  description : string;
  pattern_components : list ComponentConfig;
  pattern_relationships : list Relationship;
  requirements : list string
}.

Definition library_relationship (source target type : string) : Relationship :=
  list_to_map [ ("source", source); ("target", target); ("type", type) ].

Definition layer (n r : string) : ComponentConfig :=
  mkConfig n "layer" (Some [r]) None None.

Definition _load_pattern_library : gmap string PatternConfig :=
  list_to_map
    [ ("layered", mkPattern "Layered architecture pattern"
         [ layer "PresentationLayer" "UI handling";
           layer "BusinessLayer" "Business logic";
           layer "DataLayer" "Data access" ]
         [ library_relationship "PresentationLayer" "BusinessLayer" "depends_on";
           library_relationship "BusinessLayer" "DataLayer" "depends_on" ]
         ["clear_separation_of_concerns"]);
      ("microservices", mkPattern "Microservices architecture pattern"
         [ mkConfig "APIGateway" "api_gateway" (Some ["Request routing"])
             None None;
           mkConfig "ServiceRegistry" "registry" (Some ["Service discovery"])
             None None ]
         []
         ["service_independence"; "distributed_deployment"]);
      ("mvc", mkPattern "Model-View-Controller pattern"
         [ mkConfig "Model" "model" (Some ["Data management"]) None None;
           mkConfig "View" "view" (Some ["UI presentation"]) None None;
           mkConfig "Controller" "controller" (Some ["Request handling"])
             None None ]
         [ library_relationship "Controller" "Model" "uses";
           library_relationship "Controller" "View" "updates";
           library_relationship "View" "Model" "observes" ]
         ["clear_mvc_separation"]);
      ("event_driven", mkPattern "Event-driven architecture pattern"
         [ mkConfig "EventBus" "event_bus" (Some ["Event routing"]) None None;
           mkConfig "EventStore" "storage" (Some ["Event persistence"])
             None None ]
         []
         ["event_based_communication"]) ].

(** *** Validation *)

(** The loop state of [_validate_components]: the issues so far and the set
    [component_names]. *)
Definition component_check (st : list string * gset string)
    (c : SystemComponent.t) : list string * gset string :=
  let '(issues, component_names) := st in
  let n := SystemComponent.name c in
  let issues :=
    if bool_decide (n ∈ component_names)
    then issues ++ ["Duplicate component name: " +:+ n] else issues in
  let component_names := component_names ∪ {[ n ]} in
  let issues :=
    match SystemComponent.responsibilities c with
    | [] => issues ++ ["Component " +:+ n +:+ " has no responsibilities"]
    | _ :: _ => issues
    end in
  let issues :=
    if negb (PyStr.truthy (SystemComponent.component_type c))
    then issues ++ ["Component " +:+ n +:+ " has no type"] else issues in
  (issues, component_names).

Definition _validate_components (components : list SystemComponent.t)
  : list string :=
  match components with
  | [] => ["Architecture has no components"]
  | _ :: _ => fst (fold_left component_check components ([], ∅))
  end.

(** [not x] for the result of [dict.get]. *)
Definition falsy (x : option string) : bool :=
  match x with
  | None => true
  | Some s => negb (PyStr.truthy s)
  end.

Definition relationship_issues (component_names : gset string)
    (r : Relationship) : list string :=
  let source := r !! "source" in
  let target := r !! "target" in
  if falsy source || falsy target
  then ["Relationship missing source or target"]
  else
    let s := default "" source in
    let t := default "" target in
    (if bool_decide (s ∈ component_names) then []
     else ["Relationship references unknown component: " +:+ s])
    ++ (if bool_decide (t ∈ component_names) then []
        else ["Relationship references unknown component: " +:+ t]).

Definition _validate_relationships (a : SystemArchitecture.t) : list string :=
  let component_names : gset string :=
    list_to_set (map SystemComponent.name (SystemArchitecture.components a)) in
  flat_map (relationship_issues component_names)
    (SystemArchitecture.relationships a).

Definition has_type (ty : string) (c : SystemComponent.t) : bool :=
  bool_decide (SystemComponent.component_type c = ty).

Definition _check_pattern_requirement (a : SystemArchitecture.t)
    (requirement : string) : bool :=
  let cs := SystemArchitecture.components a in
  if bool_decide (requirement = "clear_separation_of_concerns") then
    3 <=? length cs
  else if bool_decide (requirement = "service_independence") then
    2 <=? length (List.filter (has_type "service") cs)
  else if bool_decide (requirement = "distributed_deployment") then
    PyStr.contains "microservices"
      (PyStr.lower (SystemArchitecture.deployment_model a))
  else if bool_decide (requirement = "clear_mvc_separation") then
    forallb (fun ty => existsb (has_type ty) cs) ["model"; "view"; "controller"]
  else if bool_decide (requirement = "event_based_communication") then
    existsb (fun c => PyStr.contains "event" (SystemComponent.component_type c))
      cs
  else true.

Definition pattern_issues (library : gmap string PatternConfig)
    (a : SystemArchitecture.t) (pattern : string) : list string :=
  match library !! pattern with
  | None => ["Unknown architectural pattern: " +:+ pattern]
  | Some config =>
      flat_map (fun requirement =>
        if _check_pattern_requirement a requirement then []
        else ["Pattern " +:+ pattern +:+ " requirement not met: "
              +:+ requirement])
        (requirements config)
  end.

Definition _validate_patterns (library : gmap string PatternConfig)
    (a : SystemArchitecture.t) : list string :=
  flat_map (pattern_issues library a) (SystemArchitecture.patterns a).

(** [all_technologies]: every technology of every category, lower-cased. *)
Definition all_technologies (tech_stack : list (string * list string))
  : list string :=
  flat_map (fun '(category, techs) => map PyStr.lower techs) tech_stack.

Definition mem (x : string) (l : list string) : bool :=
  existsb (fun y => bool_decide (y = x)) l.

Definition conflict_rules : list (string * string * string) :=
  [ ("mysql", "postgresql", "Cannot use both MySQL and PostgreSQL");
    ("react", "vue", "Cannot use both React and Vue in frontend");
    ("express", "fastify", "Cannot use both Express and Fastify") ].

Definition _check_technology_conflicts
    (tech_stack : list (string * list string)) : list string :=
  let techs := all_technologies tech_stack in
  flat_map (fun '(tech1, tech2, message) =>
    if mem tech1 techs && mem tech2 techs then [message] else [])
    conflict_rules.

Definition dependency_rules : list (string * list string) :=
  [ ("react", ["nodejs"]); ("vue", ["nodejs"]); ("django", ["python"]);
    ("flask", ["python"]); ("spring", ["java"]); ("express", ["nodejs"]) ].

Definition _check_missing_dependencies
    (tech_stack : list (string * list string)) : list string :=
  let techs := all_technologies tech_stack in
  flat_map (fun '(tech, deps) =>
    if mem tech techs then
      flat_map (fun dep =>
        if mem dep techs then []
        else ["Technology " +:+ tech +:+ " requires " +:+ dep]) deps
    else [])
    dependency_rules.

Definition _validate_technology_stack (a : SystemArchitecture.t)
  : list string :=
  let tech_stack := SystemArchitecture.technology_stack a in
  _check_technology_conflicts tech_stack
  ++ _check_missing_dependencies tech_stack.

(** The five checks run one after the other on the architecture object, each
    extending [issues]. *)
Definition validate_architecture_comprehensive
    (library : gmap string PatternConfig) : ArchM (list string) :=
  let issues := [] in
  basic_issues ← reads EnhancedArchitecturalInference.validate_architecture;
  let issues := issues ++ basic_issues in
  components ← reads SystemArchitecture.components;
  let issues := issues ++ _validate_components components in
  relationship_issues ← reads _validate_relationships;
  let issues := issues ++ relationship_issues in
  pattern_issues ← reads (_validate_patterns library);
  let issues := issues ++ pattern_issues in
  tech_issues ← reads _validate_technology_stack;
  let issues := issues ++ tech_issues in
  mret issues.

(** *** Pattern application *)

Definition named (n : string) (c : SystemComponent.t) : bool :=
  bool_decide (SystemComponent.name c = n).

Definition component_of_config (cfg : ComponentConfig)
  : result SystemComponent.t :=
  SystemComponent.make
    (SystemComponent.mk (cfg_name cfg) (cfg_type cfg)
       (default [] (cfg_responsibilities cfg))
       (default [] (cfg_interfaces cfg))
       (default [] (cfg_dependencies cfg))).

Definition _apply_pattern (library : gmap string PatternConfig)
    (pattern : string) : ArchM unit :=
  let pattern_config := library !! pattern in
  for_each (from_option pattern_components [] pattern_config)
    (fun comp_config =>
       components ← reads SystemArchitecture.components;
       if existsb (named (cfg_name comp_config)) components then mret tt
       else component ← lift (component_of_config comp_config);
            append_component component) ;;
  extend_relationships (from_option pattern_relationships [] pattern_config) ;;
  patterns ← reads SystemArchitecture.patterns;
  if mem pattern patterns then mret tt else append_pattern pattern.

Definition _apply_architectural_patterns (library : gmap string PatternConfig)
    (r : SystemRequirements.t) : ArchM unit :=
  for_each (EnhancedArchitecturalInference.suggest_patterns r)
    (fun pattern =>
       if bool_decide (is_Some (library !! pattern))
       then _apply_pattern library pattern else mret tt).

(** *** Optimization *)

Definition cache_component : SystemComponent.t :=
  SystemComponent.mk "CacheLayer" "cache"
    ["Data caching"; "Performance optimization"] ["CacheInterface"] [].

Definition lb_component : SystemComponent.t :=
  SystemComponent.mk "LoadBalancer" "load_balancer"
    ["Load distribution"; "High availability"] ["LoadBalancerInterface"] [].

Definition queue_component : SystemComponent.t :=
  SystemComponent.mk "MessageQueue" "message_queue"
    ["Async message processing"; "Service decoupling"]
    ["MessageQueueInterface"] [].

Definition auth_component : SystemComponent.t :=
  SystemComponent.mk "AuthenticationService" "service"
    ["User authentication"; "Token management"] ["AuthInterface"] [].

Definition gateway_component : SystemComponent.t :=
  SystemComponent.mk "APIGateway" "api_gateway"
    ["Request routing"; "Authentication"; "Rate limiting"]
    ["GatewayInterface"] [].

(** [if not any(test(c) for c in architecture.components):] construct the
    component and append it. *)
Definition ensure (test : SystemComponent.t -> bool) (c : SystemComponent.t)
  : ArchM unit :=
  components ← reads SystemArchitecture.components;
  if existsb test components then mret tt
  else component ← lift (SystemComponent.make c);
       append_component component.

Definition _optimize_for_performance : ArchM unit :=
  ensure (has_type "cache") cache_component ;;
  components ← reads SystemArchitecture.components;
  let service_components := List.filter (has_type "service") components in
  if 1 <? length service_components
  then ensure (has_type "load_balancer") lb_component
  else mret tt.

Definition _optimize_for_scalability : ArchM unit :=
  patterns ← reads SystemArchitecture.patterns;
  (if mem "microservices" patterns then mret tt
   else append_pattern "microservices") ;;
  ensure (has_type "message_queue") queue_component.

Definition has_auth_name (c : SystemComponent.t) : bool :=
  PyStr.contains "auth" (PyStr.lower (SystemComponent.name c)).

Definition _optimize_for_security : ArchM unit :=
  ensure has_auth_name auth_component ;;
  ensure (has_type "api_gateway") gateway_component.

Definition _optimize_architecture (r : SystemRequirements.t) : ArchM unit :=
  let qa := SystemRequirements.quality_attributes r in
  (if flag qa "performance" then _optimize_for_performance else mret tt) ;;
  (if flag qa "scalability" then _optimize_for_scalability else mret tt) ;;
  (if flag qa "security" then _optimize_for_security else mret tt).

(** *** Auto-fix *)

(** [issue.split()[1]] *)
Definition second_token (issue : string) : result string :=
  match PyStr.split issue !! 1 with
  | Some token => Ok token
  | None => Raise (IndexError "list index out of range")
  end.

Definition fix_issue (issue : string) : ArchM unit :=
  if PyStr.contains "has no responsibilities" issue then
    component_name ← lift (second_token issue);
    component ← reads (fun a =>
      SystemArchitecture.get_component_by_name a component_name);
    match component with
    | Some c =>
        update_component component_name
          (SystemComponent.set_responsibilities
             ["Handle " +:+ SystemComponent.component_type c +:+ " operations"])
    | None => mret tt
    end
  else if PyStr.contains "has no type" issue then
    component_name ← lift (second_token issue);
    component ← reads (fun a =>
      SystemArchitecture.get_component_by_name a component_name);
    match component with
    | Some c =>
        update_component component_name
          (SystemComponent.set_component_type "service")
    | None => mret tt
    end
  else mret tt.

Definition _auto_fix_architecture_issues (issues : list string) : ArchM unit :=
  for_each issues fix_issue.

(** *** The service entry point *)

(** The body of the [try] block, on the freshly inferred architecture. *)
Definition refine_architecture (library : gmap string PatternConfig)
    (r : SystemRequirements.t) : ArchM unit :=
  _apply_architectural_patterns library r ;;
  validation_issues ← validate_architecture_comprehensive library;
  match validation_issues with
  | [] => mret tt
  | _ :: _ => _auto_fix_architecture_issues validation_issues
  end ;;
  _optimize_architecture r.

Definition infer_and_validate_architecture (now : string)
    (r : SystemRequirements.t) : result SystemArchitecture.t :=
  let library := _load_pattern_library in
  let attempt :=
    architecture ← EnhancedArchitecturalInference.infer_architecture now r;
    match refine_architecture library r architecture with
    | (Ok _, architecture') => Ok architecture'
    | (Raise e, _) => Raise e
    end in
  match attempt with
  | Ok architecture => Ok architecture
  | Raise e =>
      Raise (ArchitectureInferenceError
               ("Failed to infer architecture: " +:+ exc_message e))
  end.

End ArchitectureService.

(** ** Component objects

    [architecture.components] holds references to component objects: the
    same object may be listed more than once, and an assignment to one of its
    attributes shows at every place that lists it.  Auto-fix is the one
    method of the service that assigns to a component; here it is on the
    objects themselves, with the components of an architecture as a list of
    references into a heap. *)

Module Objects.

Record t : Type := mk {
  heap : gmap nat SystemComponent.t;
  components : list nat
}.

(** The component values the list shows, in order. *)
Definition listed (o : t) : list SystemComponent.t :=
  omap (fun r => heap o !! r) (components o).

(** [next((c for c in self.components if c.name == name), None)]: the
    reference of the first listed object of that name. *)
Definition get_component_by_name (o : t) (n : string) : option nat :=
  find (fun r => bool_decide (SystemComponent.name <$> heap o !! r = Some n))
    (components o).

(** [component.attribute = value] on the object behind [r]. *)
Definition assign (r : nat) (f : SystemComponent.t -> SystemComponent.t)
    (o : t) : t :=
  mk (alter f r (heap o)) (components o).

Definition fix_issue (issue : string) (o : t) : result unit * t :=
  if PyStr.contains "has no responsibilities" issue then
    match ArchitectureService.second_token issue with
    | Raise e => (Raise e, o)
    | Ok component_name =>
        match get_component_by_name o component_name with
        | Some component =>
            (Ok tt,
             assign component
               (fun c =>
                  SystemComponent.set_responsibilities
                    ["Handle " +:+ SystemComponent.component_type c
                     +:+ " operations"] c) o)
        | None => (Ok tt, o)
        end
    end
  else if PyStr.contains "has no type" issue then
    match ArchitectureService.second_token issue with
    | Raise e => (Raise e, o)
    | Ok component_name =>
        match get_component_by_name o component_name with
        | Some component =>
            (Ok tt,
             assign component (SystemComponent.set_component_type "service") o)
        | None => (Ok tt, o)
        end
    end
  else (Ok tt, o).

Fixpoint _auto_fix_architecture_issues (issues : list string) (o : t)
  : result unit * t :=
  match issues with
  | [] => (Ok tt, o)
  | issue :: issues' =>
      match fix_issue issue o with
      | (Ok _, o') => _auto_fix_architecture_issues issues' o'
      | (Raise e, o') => (Raise e, o')
      end
  end.

End Objects.

(** ** Code generation ([src/services/code_generation_service.py]) *)

Module EnhancedMultiLanguageGenerator.

(** [config.codegen.supported_languages] ([src/core/config.py]). *)
Definition supported_languages : list string :=
  [ "python"; "rust"; "go"; "typescript"; "java"; "cpp" ].

Definition dq : string := String (ascii_of_nat 34) "".
Definition nl : string := String (ascii_of_nat 10) "".

(** The two templates of [_load_templates], each as the text that
    [template.format(app_name=app_name)] produces. *)
Definition fastapi_template (app_name : string) : string :=
  PyStr.join nl
    [ "";
      "from fastapi import FastAPI";
      "from fastapi.middleware.cors import CORSMiddleware";
      "";
      "app = FastAPI(title=" +:+ dq +:+ app_name +:+ dq +:+ ")";
      "";
      "app.add_middleware(";
      "    CORSMiddleware,";
      "    allow_origins=[" +:+ dq +:+ "*" +:+ dq +:+ "],";
      "    allow_credentials=True,";
      "    allow_methods=[" +:+ dq +:+ "*" +:+ dq +:+ "],";
      "    allow_headers=[" +:+ dq +:+ "*" +:+ dq +:+ "],";
      ")";
      "";
      "@app.get(" +:+ dq +:+ "/" +:+ dq +:+ ")";
      "async def root():";
      "    return {" +:+ dq +:+ "message" +:+ dq +:+ ": " +:+ dq +:+ "Hello from " +:+ app_name +:+ dq +:+ "}";
      "";
      "@app.get(" +:+ dq +:+ "/health" +:+ dq +:+ ")";
      "async def health():";
      "    return {" +:+ dq +:+ "status" +:+ dq +:+ ": " +:+ dq +:+ "healthy" +:+ dq +:+ "}";
      "";
      "if __name__ == " +:+ dq +:+ "__main__" +:+ dq +:+ ":";
      "    import uvicorn";
      "    uvicorn.run(app, host=" +:+ dq +:+ "0.0.0.0" +:+ dq +:+ ", port=8000)";
      "" ].

Definition axum_template (app_name : string) : string :=
  PyStr.join nl
    [ "";
      "use axum::{";
      "    routing::get,";
      "    Router,";
      "    Json,";
      "};";
      "use serde_json::{json, Value};";
      "use std::net::SocketAddr;";
      "";
      "#[tokio::main]";
      "async fn main() {";
      "    let app = Router::new()";
      "        .route(" +:+ dq +:+ "/" +:+ dq +:+ ", get(root))";
      "        .route(" +:+ dq +:+ "/health" +:+ dq +:+ ", get(health));";
      "";
      "    let addr = SocketAddr::from(([0, 0, 0, 0], 3000));";
      "    println!(" +:+ dq +:+ "Server running on {}" +:+ dq +:+ ", addr);";
      "    ";
      "    axum::Server::bind(&addr)";
      "        .serve(app.into_make_service())";
      "        .await";
      "        .unwrap();";
      "}";
      "";
      "async fn root() -> Json<Value> {";
      "    Json(json!({" +:+ dq +:+ "message" +:+ dq +:+ ": " +:+ dq +:+ "Hello from " +:+ app_name +:+ dq +:+ "}))";
      "}";
      "";
      "async fn health() -> Json<Value> {";
      "    Json(json!({" +:+ dq +:+ "status" +:+ dq +:+ ": " +:+ dq +:+ "healthy" +:+ dq +:+ "}))";
      "}";
      "" ].

Definition component_file_content (component : SystemComponent.t) : string :=
  PyStr.join nl
    [ "";
      dq +:+ dq +:+ dq;
      SystemComponent.name component +:+ " component";
      "Responsibilities: " +:+ PyStr.join ", " (SystemComponent.responsibilities component);
      dq +:+ dq +:+ dq;
      "";
      "class " +:+ SystemComponent.name component +:+ ":";
      "    def __init__(self):";
      "        pass";
      "    ";
      "    def handle_request(self):";
      "        return {" +:+ dq +:+ "message" +:+ dq +:+ ": " +:+ dq +:+ "Handled by " +:+ SystemComponent.name component +:+ dq +:+ "}";
      "" ].

Definition _load_templates : gmap string (gmap string (string -> string)) :=
  list_to_map
    [ ("python", list_to_map [ ("fastapi", fastapi_template) ]);
      ("rust", list_to_map [ ("axum", axum_template) ]) ].

Definition _get_default_framework (language : string) : string :=
  let defaults : gmap string string :=
    list_to_map
      [ ("python", "fastapi"); ("rust", "axum"); ("go", "gin");
        ("typescript", "express"); ("java", "spring"); ("cpp", "crow") ] in
  default "default" (defaults !! language).

Definition _get_main_filename (language : string) : string :=
  let filenames : gmap string string :=
    list_to_map
      [ ("python", "main.py"); ("rust", "main.rs"); ("go", "main.go");
        ("typescript", "index.ts"); ("java", "Main.java");
        ("cpp", "main.cpp") ] in
  default "main.txt" (filenames !! language).

Definition _extract_dependencies (language framework : string) : list string :=
  let deps : gmap string (gmap string (list string)) :=
    list_to_map
      [ ("python", list_to_map
           [ ("fastapi", ["fastapi"; "uvicorn"; "pydantic"]);
             ("flask", ["flask"; "flask-cors"]);
             ("django", ["django"; "djangorestframework"]) ]);
        ("rust", list_to_map
           [ ("axum", ["axum"; "tokio"; "serde_json"]);
             ("warp", ["warp"; "tokio"; "serde_json"]) ]);
        ("go", list_to_map
           [ ("gin", ["github.com/gin-gonic/gin"]);
             ("echo", ["github.com/labstack/echo/v4"]) ]) ] in
  default [] (default ∅ (deps !! language) !! framework).

Definition _get_entry_point (language framework : string) : string :=
  _get_main_filename language.

Definition _get_build_commands (language framework : string) : list string :=
  let commands : gmap string (list string) :=
    list_to_map
      [ ("python", []); ("rust", ["cargo build --release"]);
        ("go", ["go build"]); ("typescript", ["npm run build"]);
        ("java", ["mvn compile"]); ("cpp", ["make"]) ] in
  default [] (commands !! language).

Definition _get_run_commands (language framework : string) : list string :=
  let commands : gmap string (list string) :=
    list_to_map
      [ ("python", ["python main.py"]); ("rust", ["cargo run"]);
        ("go", ["go run main.go"]); ("typescript", ["npm start"]);
        ("java", ["java Main"]); ("cpp", ["./main"]) ] in
  default [] (commands !! language).

Definition _generate_component_file (component : SystemComponent.t)
    (language framework : string) : option (string * string) :=
  if bool_decide (language = "python") then
    Some (PyStr.lower (SystemComponent.name component) +:+ ".py",
          component_file_content component)
  else None.

(** The loop over the components: [files[filename] = content]. *)
Definition add_component_file (language framework : string)
    (files : gmap string string) (component : SystemComponent.t)
  : gmap string string :=
  match _generate_component_file component language framework with
  | Some (filename, content) => <[filename := content]> files
  | None => files
  end.

(** A missing template reads as the empty string, which is falsy; the two
    templates of the table are non-empty. *)
Definition _generate_files (architecture : SystemArchitecture.t)
    (language framework : string) : gmap string string :=
  let files : gmap string string := ∅ in
  let template := default ∅ (_load_templates !! language) !! framework in
  let files :=
    match template with
    | Some format =>
        let app_name := "generated_app" in
        let main_content := format app_name in
        let main_file := _get_main_filename language in
        <[main_file := main_content]> files
    | None => files
    end in
  fold_left (add_component_file language framework)
    (SystemArchitecture.components architecture) files.

Definition mem (x : string) (l : list string) : bool :=
  existsb (fun y => bool_decide (y = x)) l.

Definition generate_code (architecture : SystemArchitecture.t)
    (language : string) (framework : option string)
  : result GeneratedCode.t :=
  if negb (mem language supported_languages) then
    Raise (UnsupportedLanguageError
             ("Language " +:+ language +:+ " not supported"))
  else
    let framework :=
      match framework with
      | Some f => if PyStr.truthy f then f else _get_default_framework language
      | None => _get_default_framework language
      end in
    let files := _generate_files architecture language framework in
    let dependencies := _extract_dependencies language framework in
    let entry_point := _get_entry_point language framework in
    GeneratedCode.make
      (GeneratedCode.mk language framework files dependencies entry_point
         (_get_build_commands language framework)
         (_get_run_commands language framework)).

Definition get_supported_frameworks (language : string) : list string :=
  let framework_map : gmap string (list string) :=
    list_to_map
      [ ("python", ["fastapi"; "flask"; "django"]);
        ("rust", ["axum"; "warp"; "actix"]);
        ("go", ["gin"; "echo"; "fiber"]);
        ("typescript", ["express"; "nestjs"; "koa"]);
        ("java", ["spring"; "quarkus"]);
        ("cpp", ["crow"; "beast"]) ] in
  default [] (framework_map !! language).

Definition validate_code (code : GeneratedCode.t) : list string :=
  (if bool_decide (GeneratedCode.files code = ∅)
   then ["No files generated"] else [])
  ++ (if bool_decide (is_Some (GeneratedCode.files code
                                 !! GeneratedCode.entry_point code))
      then [] else ["Entry point file not found"]).

End EnhancedMultiLanguageGenerator.

Module CodeGenerationService.

(** One requested language: an unsupported one is skipped with a warning, a
    generation that raised is skipped with an error in the log, a generated
    code is stored under its language.  The generations are independent of
    each other, so running them one after the other gives the dictionary that
    [asyncio.gather] and the loop over its results build. *)
Definition generation_step (architecture : SystemArchitecture.t)
    (results : gmap string GeneratedCode.t) (language : string)
  : gmap string GeneratedCode.t :=
  if EnhancedMultiLanguageGenerator.mem language
       EnhancedMultiLanguageGenerator.supported_languages
  then
    match EnhancedMultiLanguageGenerator.generate_code architecture language
            None with
    | Ok code => <[language := code]> results
    | Raise _ => results
    end
  else results.

Definition generate_multi_language_code (architecture : SystemArchitecture.t)
    (languages : list string) : gmap string GeneratedCode.t :=
  fold_left (generation_step architecture) languages ∅.

End CodeGenerationService.

(** ** Cloud deployment ([cloud_deployment.py])

    The provider calls and the preparation of the deployment package are
    collaborators outside the development: they act on an external world
    [World] (file system, cloud accounts) and may raise. *)

Module Deployment.

Record DeploymentConfig : Type := mkConfig {
  provider : string;
  region : string;
  project_id : option string;
  resource_group : option string;
  credentials : option (gmap string string);
  environment : string
}.

Record DeploymentResult : Type := mkResult {
  success : bool;
  url : option string;
  deployment_id : option string;
  logs : option (list string);
  error : option string;
  metadata : option (gmap string string)
}.

End Deployment.

Section CloudDeployment.

Import Deployment.

Variable World : Type.
Variable Package : Type.

Definition IO (A : Type) : Type := World -> result A * World.

Variable _prepare_deployment_package :
  gmap string string -> DeploymentConfig -> IO Package.

Variables _deploy_to_aws _deploy_to_gcp _deploy_to_azure _deploy_to_vercel
  _deploy_to_netlify _deploy_to_railway _deploy_to_render :
  Package -> DeploymentConfig -> IO DeploymentResult.

(** [self.providers] *)
Definition providers
  : gmap string (Package -> DeploymentConfig -> IO DeploymentResult) :=
  list_to_map
    [ ("aws", _deploy_to_aws); ("gcp", _deploy_to_gcp);
      ("azure", _deploy_to_azure); ("vercel", _deploy_to_vercel);
      ("netlify", _deploy_to_netlify); ("railway", _deploy_to_railway);
      ("render", _deploy_to_render) ].

(** The [except Exception] handler of [deploy_application]. *)
Definition deployment_failed (e : exception) : DeploymentResult :=
  mkResult false None None
    (Some ["Deployment failed: " +:+ exc_message e])
    (Some (exc_message e)) None.

Definition deploy_application (files : gmap string string)
    (config : DeploymentConfig) : IO DeploymentResult :=
  fun w =>
    match providers !! provider config with
    | None =>
        (Ok (mkResult false None None None
               (Some ("Unsupported provider: " +:+ provider config)) None),
         w)
    | Some deploy_func =>
        match _prepare_deployment_package files config w with
        | (Raise e, w1) => (Ok (deployment_failed e), w1)
        | (Ok deployment_package, w1) =>
            match deploy_func deployment_package config w1 with
            | (Raise e, w2) => (Ok (deployment_failed e), w2)
            | (Ok result, w2) => (Ok result, w2)
            end
        end
    end.

End CloudDeployment.

(** ** Reference definitions and concrete inputs

    Definitions that state a property in the words of the specification, and
    the concrete values on which statements are evaluated. *)

Definition supported_providers : list string :=
  [ "aws"; "gcp"; "azure"; "vercel"; "netlify"; "railway"; "render" ].

(** A collaborator that always fails, used to run [deploy_application]. *)
Definition failing_provider (msg : string)
  : unit -> Deployment.DeploymentConfig
    -> IO (list string) Deployment.DeploymentResult :=
  fun _ _ w => (Raise (OtherException msg), msg :: w).

Definition recording_prepare
  : gmap string string -> Deployment.DeploymentConfig
    -> IO (list string) unit :=
  fun _ _ w => (Ok tt, "prepare" :: w).

Definition unknown_config : Deployment.DeploymentConfig :=
  Deployment.mkConfig "unknown" "us-east-1" None None None "production".

(** All pairs of [xs] and [ys], [xs]-major, each turned into an edge. *)
Definition cross {A B C} (edge : A -> B -> C) (xs : list A) (ys : list B)
  : list C :=
  flat_map (fun x => map (edge x) ys) xs.

(** The relationship list in the words of the specification, with the type
    tests read literally ("type contains api", "type contains database"). *)
Definition literal_is_api (c : SystemComponent.t) : bool :=
  PyStr.contains "api" (SystemComponent.component_type c).

Definition literal_is_database (c : SystemComponent.t) : bool :=
  PyStr.contains "database" (SystemComponent.component_type c).

Definition literal_cross_product (cs : list SystemComponent.t)
  : list (gmap string string) :=
  cross EnhancedArchitecturalInference.calls_edge
    (List.filter literal_is_api cs)
    (List.filter EnhancedArchitecturalInference.is_service cs)
  ++ cross EnhancedArchitecturalInference.uses_edge
       (List.filter EnhancedArchitecturalInference.is_service cs)
       (List.filter literal_is_database cs).

(** The same with the type tests of the code, which lower-case the type. *)
Definition cross_product (cs : list SystemComponent.t)
  : list (gmap string string) :=
  cross EnhancedArchitecturalInference.calls_edge
    (List.filter EnhancedArchitecturalInference.is_api cs)
    (List.filter EnhancedArchitecturalInference.is_service cs)
  ++ cross EnhancedArchitecturalInference.uses_edge
       (List.filter EnhancedArchitecturalInference.is_service cs)
       (List.filter EnhancedArchitecturalInference.is_database cs).

Definition upper_case_api_components : list SystemComponent.t :=
  [ SystemComponent.mk "Gateway" "API" ["Route requests"] ["RestAPI"] [];
    SystemComponent.mk "Orders" "service" ["Order handling"] [] [] ].

Definition empty_requirements : SystemRequirements.t :=
  SystemRequirements.mk [] [] [] [] ∅ [] 0.

(** The intent keywords as the specification lists them. *)
Definition listed_intent_keywords : list string :=
  [ "create"; "build"; "need"; "want"; "should"; "must" ].

Definition has_intent (keywords : list string) (s : Statement.t) : bool :=
  PyStr.any_in keywords (PyStr.lower (Statement.content s)).

(** "The number of statements containing an intent keyword divided by the
    total number of statements" (0 for no statements). *)
Definition intent_fraction (keywords : list string) (c : Conversation.t) : Q :=
  let total := length (Conversation.statements c) in
  if 0 <? total then
    Qmake (Z.of_nat (length (List.filter (has_intent keywords)
                               (Conversation.statements c))))
          (Pos.of_nat total)
  else 0%Q.

Definition implement_statement : Statement.t :=
  Statement.mk "Implement login" (Some ∅) (Some 0%Z) (Some "user")
    (Some FUNCTIONAL) (9 # 10).

Definition implement_conversation : Conversation.t :=
  Conversation.mk [implement_statement] ∅ "conv-1".

(** The invariant of the parser's entity cache: every entry holds the scan
    of its key.  [extract_entities] is the only writer of the cache. *)
Definition cache_ok (cache : gmap string (list string)) : Prop :=
  map_Forall (fun text entities =>
                entities = ConversationService.scan_entities text) cache.

(** A statement naming every technical keyword. *)
Definition all_keywords_statement : Statement.t :=
  Statement.mk
    (PyStr.join " " ConversationService.technical_keywords)
    (Some ∅) (Some 0%Z) (Some "user") (Some FUNCTIONAL) (1 # 2).

Definition all_keywords_conversation : Conversation.t :=
  Conversation.mk [all_keywords_statement] ∅ "conv-2".

(** Structural validity as the specification states it: non-empty content,
    confidence within [0, 1], no required field missing. *)
Definition field_missing (s : Statement.t) : bool :=
  bool_decide (Statement.context s = None)
  || bool_decide (Statement.timestamp s = None)
  || bool_decide (Statement.speaker s = None)
  || bool_decide (Statement.statement_type s = None).

Definition blank (text : string) : bool :=
  negb (PyStr.truthy (PyStr.strip text)).

Definition stated_invalid_statement (s : Statement.t) : bool :=
  blank (Statement.content s)
  || negb (Qle_bool 0 (Statement.confidence s)
           && Qle_bool (Statement.confidence s) 1)
  || field_missing s.

Definition stated_rejected (c : Conversation.t) : bool :=
  match Conversation.statements c with
  | [] => true
  | _ :: _ => existsb stated_invalid_statement (Conversation.statements c)
  end.

(** What the validation of the code rejects: the two size limits are part of
    it, the confidence is not. *)
Definition rejected_statement (s : Statement.t) : bool :=
  blank (Statement.content s)
  || (10000 <? Z.of_nat (String.length (Statement.content s)))%Z
  || field_missing s.

Definition rejected (c : Conversation.t) : bool :=
  match Conversation.statements c with
  | [] => true
  | _ :: _ =>
      (1000 <? length (Conversation.statements c))
      || existsb rejected_statement (Conversation.statements c)
  end.

Definition long_conversation : Conversation.t :=
  Conversation.mk (repeat implement_statement 1001) ∅ "conv-3".

(** The loop invariant of [parse_statements]. *)
Definition parse_invariant (st : ConversationService.ParseState) : Prop :=
  (forall e, e ∈ ConversationService.entities st ->
             e ∈ ConversationService.technical_keywords)
  /\ cache_ok (ConversationService.entity_cache st).

(** A computation keeps a relation between the architecture before and
    after it, whether it returns or raises. *)
Definition keeps {A} (R : SystemArchitecture.t -> SystemArchitecture.t -> Prop)
    (m : ArchM A) : Prop :=
  forall s, R s (snd (m s)).

(** The pattern list only grows. *)
Definition patterns_grow (s s' : SystemArchitecture.t) : Prop :=
  forall p, p ∈ SystemArchitecture.patterns s ->
            p ∈ SystemArchitecture.patterns s'.

Definition performance_requirements : SystemRequirements.t :=
  SystemRequirements.mk ["Create a REST API for user management"] [] [] []
    (list_to_map [ ("performance", true); ("scalability", false);
                   ("security", false); ("reliability", false);
                   ("usability", false) ])
    ["api"; "user"] 1.

(** "The name contains whitespace", and its opposite for some character. *)
Fixpoint has_space (s : string) : bool :=
  match s with
  | EmptyString => false
  | String a s' => PyStr.is_space a || has_space s'
  end.

Fixpoint has_nonspace (s : string) : bool :=
  match s with
  | EmptyString => false
  | String a s' => negb (PyStr.is_space a) || has_nonspace s'
  end.

(** The first whitespace-separated word of a text. *)
Definition first_word (text : string) : string :=
  default "" (head (PyStr.split text)).

(** The two issue messages that auto-fix reacts to, as the validators
    format them. *)
Definition no_responsibilities_issue (n : string) : string :=
  "Component " +:+ n +:+ " has no responsibilities".

Definition no_type_issue (n : string) : string :=
  "Component " +:+ n +:+ " has no type".

(** The two repairs of auto-fix, as functions of the component found. *)
Definition fix_responsibilities (c : SystemComponent.t) : SystemComponent.t :=
  SystemComponent.set_responsibilities
    ["Handle " +:+ SystemComponent.component_type c +:+ " operations"] c.

Definition fix_type (c : SystemComponent.t) : SystemComponent.t :=
  SystemComponent.set_component_type "service" c.

(** The branch of [fix_issue] an issue message selects. *)
Definition repair_of (issue : string) : SystemComponent.t -> SystemComponent.t :=
  if PyStr.contains "has no responsibilities" issue then fix_responsibilities
  else if PyStr.contains "has no type" issue then fix_type
  else fun c => c.

Definition user_service : SystemComponent.t :=
  SystemComponent.mk "User Service" "service" [] ["UserInterface"] [].

Definition user_component : SystemComponent.t :=
  SystemComponent.mk "User" "model" ["Hold user data"] [] [].

Definition two_users_architecture : SystemArchitecture.t :=
  SystemArchitecture.mk [user_service; user_component] [] ["layered"] ∅
    [("backend", ["Python"])] "cloud" None.

(** The same two components as objects, and an architecture that lists the
    object named "User" twice. *)
Definition two_users_objects : Objects.t :=
  Objects.mk (list_to_map [ (0, user_service); (1, user_component) ]) [0; 1].

Definition shared_user_objects : Objects.t :=
  Objects.mk (list_to_map [ (0, user_service); (1, user_component) ])
    [0; 1; 1].

(** *** Optimization as a function on the component and pattern lists *)

Definition ensure_list (test : SystemComponent.t -> bool)
    (c : SystemComponent.t) (cs : list SystemComponent.t)
  : list SystemComponent.t :=
  if existsb test cs then cs else cs ++ [c].

(** The number of components of type exactly "service". *)
Definition service_count (cs : list SystemComponent.t) : nat :=
  length (List.filter (ArchitectureService.has_type "service") cs).

Definition performance_list (cs : list SystemComponent.t)
  : list SystemComponent.t :=
  let cs1 := ensure_list (ArchitectureService.has_type "cache")
               ArchitectureService.cache_component cs in
  if 1 <? service_count cs1
  then ensure_list (ArchitectureService.has_type "load_balancer")
         ArchitectureService.lb_component cs1
  else cs1.

Definition scalability_list (cs : list SystemComponent.t)
  : list SystemComponent.t :=
  ensure_list (ArchitectureService.has_type "message_queue")
    ArchitectureService.queue_component cs.

Definition security_list (cs : list SystemComponent.t)
  : list SystemComponent.t :=
  ensure_list (ArchitectureService.has_type "api_gateway")
    ArchitectureService.gateway_component
    (ensure_list ArchitectureService.has_auth_name
       ArchitectureService.auth_component cs).

Definition optimize_list (p s x : bool) (cs : list SystemComponent.t)
  : list SystemComponent.t :=
  let cs := if p then performance_list cs else cs in
  let cs := if s then scalability_list cs else cs in
  if x then security_list cs else cs.

Definition optimize_patterns (s : bool) (ps : list string) : list string :=
  if s then
    (if ArchitectureService.mem "microservices" ps then ps
     else ps ++ ["microservices"])
  else ps.

Definition optimized (p s x : bool) (a : SystemArchitecture.t)
  : SystemArchitecture.t :=
  SystemArchitecture.mk
    (optimize_list p s x (SystemArchitecture.components a))
    (SystemArchitecture.relationships a)
    (optimize_patterns s (SystemArchitecture.patterns a))
    (SystemArchitecture.quality_attributes a)
    (SystemArchitecture.technology_stack a)
    (SystemArchitecture.deployment_model a)
    (SystemArchitecture.metadata a).

(** The existence tests of the optimizer, one per canonical component. *)
Definition canonical_tests : list (SystemComponent.t -> bool) :=
  [ ArchitectureService.has_type "cache";
    ArchitectureService.has_type "load_balancer";
    ArchitectureService.has_type "message_queue";
    ArchitectureService.has_auth_name;
    ArchitectureService.has_type "api_gateway" ].

Definition count_of (test : SystemComponent.t -> bool)
    (cs : list SystemComponent.t) : nat :=
  length (List.filter test cs).

(** Requirements asking for performance and security, and an architecture
    with a single service. *)
Definition fast_and_secure : SystemRequirements.t :=
  SystemRequirements.mk ["Build an order service"] [] [] []
    (list_to_map [ ("performance", true); ("scalability", false);
                   ("security", true); ("reliability", false);
                   ("usability", false) ])
    [] 1.

Definition single_service_architecture : SystemArchitecture.t :=
  SystemArchitecture.mk
    [ SystemComponent.mk "OrderService" "service" ["Order handling"]
        ["OrderInterface"] [] ]
    [] ["layered"]
    (SystemRequirements.quality_attributes fast_and_secure)
    [("backend", ["Python"; "FastAPI"])] "cloud" None.

(** Every component the requested passes ask for is present... *)
Definition settled (p s x : bool) (cs : list SystemComponent.t) : bool :=
  (negb p || existsb (ArchitectureService.has_type "cache") cs)
  && (negb s || existsb (ArchitectureService.has_type "message_queue") cs)
  && (negb x || (existsb ArchitectureService.has_auth_name cs
                 && existsb (ArchitectureService.has_type "api_gateway") cs)).

(** ... and several services come with a load balancer. *)
Definition balanced (p : bool) (cs : list SystemComponent.t) : bool :=
  negb p || negb (1 <? service_count cs)
  || existsb (ArchitectureService.has_type "load_balancer") cs.

(** The load balancer a second optimization may still add. *)
Definition late_load_balancer (p : bool) (cs : list SystemComponent.t)
  : list SystemComponent.t :=
  if p && (1 <? service_count cs)
     && negb (existsb (ArchitectureService.has_type "load_balancer") cs)
  then [ArchitectureService.lb_component] else [].

(** A statement whose confidence was assigned out of range after its
    construction (the constructor refuses such a value). *)
Definition overconfident_statement : Statement.t :=
  Statement.mk "We need a search API" (Some ∅) (Some 0%Z) (Some "user")
    (Some FUNCTIONAL) (3 # 2).

Definition overconfident_conversation : Conversation.t :=
  Conversation.mk [overconfident_statement] ∅ "conv-4".

(** ** Further reference definitions *)

(** The issues one component adds in [_validate_components], given the names
    seen before it. *)
Definition component_issues (seen : gset string) (c : SystemComponent.t)
  : list string :=
  (if bool_decide (SystemComponent.name c ∈ seen)
   then ["Duplicate component name: " +:+ SystemComponent.name c] else [])
  ++ (match SystemComponent.responsibilities c with
      | [] => ["Component " +:+ SystemComponent.name c
               +:+ " has no responsibilities"]
      | _ :: _ => []
      end)
  ++ (if negb (PyStr.truthy (SystemComponent.component_type c))
      then ["Component " +:+ SystemComponent.name c +:+ " has no type"]
      else []).

(** A component with responsibilities and a type. *)
Definition complete (c : SystemComponent.t) : Prop :=
  SystemComponent.responsibilities c <> []
  /\ SystemComponent.component_type c <> "".

(** A relationship whose two ends are non-empty names of components. *)
Definition well_connected (names : list string) (r : gmap string string)
  : Prop :=
  exists s t, r !! "source" = Some s /\ r !! "target" = Some t
              /\ s <> "" /\ t <> "" /\ s ∈ names /\ t ∈ names.

(** *** Pattern application as a function on the component list *)

(** The component a pattern template describes, before the constructor's
    checks. *)
Definition config_component (cfg : ArchitectureService.ComponentConfig)
  : SystemComponent.t :=
  SystemComponent.mk (ArchitectureService.cfg_name cfg)
    (ArchitectureService.cfg_type cfg)
    (default [] (ArchitectureService.cfg_responsibilities cfg))
    (default [] (ArchitectureService.cfg_interfaces cfg))
    (default [] (ArchitectureService.cfg_dependencies cfg)).

(** A template the constructor of [SystemComponent] accepts. *)
Definition valid_config (cfg : ArchitectureService.ComponentConfig) : Prop :=
  ArchitectureService.component_of_config cfg = Ok (config_component cfg).

Definition add_if_missing (cs : list SystemComponent.t)
    (cfg : ArchitectureService.ComponentConfig) : list SystemComponent.t :=
  if existsb (ArchitectureService.named (ArchitectureService.cfg_name cfg)) cs
  then cs else cs ++ [config_component cfg].

Definition add_missing (cfgs : list ArchitectureService.ComponentConfig)
    (cs : list SystemComponent.t) : list SystemComponent.t :=
  fold_left add_if_missing cfgs cs.

(** The architecture after [_apply_pattern] for a pattern with valid
    templates. *)
Definition with_pattern (pattern : string)
    (config : ArchitectureService.PatternConfig) (a : SystemArchitecture.t)
  : SystemArchitecture.t :=
  SystemArchitecture.mk
    (add_missing (ArchitectureService.pattern_components config)
       (SystemArchitecture.components a))
    (SystemArchitecture.relationships a
     ++ ArchitectureService.pattern_relationships config)
    (SystemArchitecture.patterns a
     ++ (if ArchitectureService.mem pattern (SystemArchitecture.patterns a)
         then [] else [pattern]))
    (SystemArchitecture.quality_attributes a)
    (SystemArchitecture.technology_stack a)
    (SystemArchitecture.deployment_model a)
    (SystemArchitecture.metadata a).

Definition mvc_config : ArchitectureService.PatternConfig :=
  ArchitectureService.mkPattern "Model-View-Controller pattern"
    [ ArchitectureService.mkConfig "Model" "model" (Some ["Data management"])
        None None;
      ArchitectureService.mkConfig "View" "view" (Some ["UI presentation"])
        None None;
      ArchitectureService.mkConfig "Controller" "controller"
        (Some ["Request handling"]) None None ]
    [ ArchitectureService.library_relationship "Controller" "Model" "uses";
      ArchitectureService.library_relationship "Controller" "View" "updates";
      ArchitectureService.library_relationship "View" "Model" "observes" ]
    ["clear_mvc_separation"].

(** The components the optimizer can append, in the order of its passes. *)
Definition canonical_components : list SystemComponent.t :=
  [ ArchitectureService.cache_component; ArchitectureService.lb_component;
    ArchitectureService.queue_component; ArchitectureService.auth_component;
    ArchitectureService.gateway_component ].

Definition secure_requirements : SystemRequirements.t :=
  SystemRequirements.mk ["Build an order service"] [] [] []
    (list_to_map [ ("security", true) ]) [] 1.

(** Two architectures that differ at most in the responsibilities and types
    of their components. *)
Definition same_shape (s s' : SystemArchitecture.t) : Prop :=
  map SystemComponent.name (SystemArchitecture.components s')
  = map SystemComponent.name (SystemArchitecture.components s)
  /\ map SystemComponent.interfaces (SystemArchitecture.components s')
     = map SystemComponent.interfaces (SystemArchitecture.components s)
  /\ map SystemComponent.dependencies (SystemArchitecture.components s')
     = map SystemComponent.dependencies (SystemArchitecture.components s)
  /\ SystemArchitecture.relationships s' = SystemArchitecture.relationships s
  /\ SystemArchitecture.patterns s' = SystemArchitecture.patterns s
  /\ SystemArchitecture.quality_attributes s'
     = SystemArchitecture.quality_attributes s
  /\ SystemArchitecture.technology_stack s'
     = SystemArchitecture.technology_stack s
  /\ SystemArchitecture.deployment_model s'
     = SystemArchitecture.deployment_model s
  /\ SystemArchitecture.metadata s' = SystemArchitecture.metadata s.

(** Neither the component list nor the pattern list gets shorter. *)
Definition not_shrinking (s s' : SystemArchitecture.t) : Prop :=
  length (SystemArchitecture.components s)
  <= length (SystemArchitecture.components s')
  /\ length (SystemArchitecture.patterns s)
     <= length (SystemArchitecture.patterns s').

(** [tech_stack[category]] *)
Definition stack_get (category : string)
    (stack : list (string * list string)) : list string :=
  default [] (snd <$> find (fun kv => bool_decide (fst kv = category)) stack).

(** The component the template of an entity describes, if there is one. *)
Definition template_component (entity : string) : option SystemComponent.t :=
  (fun template =>
     SystemComponent.mk
       (EnhancedArchitecturalInference.tpl_name template)
       (EnhancedArchitecturalInference.tpl_type template)
       (EnhancedArchitecturalInference.tpl_responsibilities template)
       (EnhancedArchitecturalInference.tpl_interfaces template)
       (default [] (EnhancedArchitecturalInference.tpl_dependencies template)))
  <$> (EnhancedArchitecturalInference._load_component_templates !! entity).

Definition api_user_requirements : SystemRequirements.t :=
  SystemRequirements.mk ["Create a REST API for user management"] [] [] []
    ∅ ["api"; "user"; "email"] 1.


(** A string without the space character. *)
Fixpoint no_space (s : string) : bool :=
  match s with
  | EmptyString => true
  | String a s' => negb (Ascii.eqb a " ") && no_space s'
  end.

(** Whether the lower-cased content of some statement contains the
    attribute name. *)
Definition mentions (attribute : string) (c : Conversation.t) : bool :=
  existsb
    (fun stmt => PyStr.contains attribute (PyStr.lower (Statement.content stmt)))
    (Conversation.statements c).

Definition has_type (ty : StatementType) (s : Statement.t) : bool :=
  bool_decide (Statement.statement_type s = Some ty).

(** The framework [generate_code] works with: the given one unless it is
    missing or empty. *)
Definition chosen_framework (language : string) (framework : option string)
  : string :=
  match framework with
  | Some f =>
      if PyStr.truthy f then f
      else EnhancedMultiLanguageGenerator._get_default_framework language
  | None => EnhancedMultiLanguageGenerator._get_default_framework language
  end.

(** The file name of a component in generated Python code. *)
Definition component_filename (c : SystemComponent.t) : string :=
  PyStr.lower (SystemComponent.name c) +:+ ".py".

(** The last component of the list that is written to the file [k]. *)
Definition last_writer (k : string) (cs : list SystemComponent.t)
  : option SystemComponent.t :=
  find (fun c => bool_decide (component_filename c = k)) (rev cs).

(** What one requested language contributes to the result of
    [generate_multi_language_code]. *)
Definition generated_for (a : SystemArchitecture.t) (language : string)
  : option GeneratedCode.t :=
  if EnhancedMultiLanguageGenerator.mem language
       EnhancedMultiLanguageGenerator.supported_languages
  then
    match EnhancedMultiLanguageGenerator.generate_code a language None with
    | Ok code => Some code
    | Raise _ => None
    end
  else None.
(** * Properties *)

(** ** Cloud deployment *)

(** The keys of [providers] are the seven supported provider names, whatever
    the provider functions are. *)
Lemma providers_lookup_unsupported (World Package : Type)
    (aws gcp azure vercel netlify railway render :
       Package -> Deployment.DeploymentConfig
       -> IO World Deployment.DeploymentResult)
    (p : string) :
  p ∉ supported_providers ->
  providers World Package aws gcp azure vercel netlify railway render !! p
  = None.
Proof.
  intros Hp. unfold providers.
  apply not_elem_of_list_to_map_1. exact Hp.
Qed.

(** C5: a provider string outside the seven supported names makes
    [deploy_application] return, without raising,
    [DeploymentResult(success=False, error="Unsupported provider: <name>")]
    with every other field at its default, and leaves the external world as
    it was: neither the package preparation nor any provider function has
    run. *)
Theorem deploy_unsupported_provider (World Package : Type)
    (prepare : gmap string string -> Deployment.DeploymentConfig
               -> IO World Package)
    (aws gcp azure vercel netlify railway render :
       Package -> Deployment.DeploymentConfig
       -> IO World Deployment.DeploymentResult)
    (files : gmap string string) (config : Deployment.DeploymentConfig)
    (w : World) :
  Deployment.provider config ∉ supported_providers ->
  deploy_application World Package prepare
    aws gcp azure vercel netlify railway render files config w
  = (Ok (Deployment.mkResult false None None None
           (Some ("Unsupported provider: " +:+ Deployment.provider config))
           None),
     w).
Proof.
  intros Hp.
  pose proof (providers_lookup_unsupported World Package
                aws gcp azure vercel netlify railway render _ Hp) as Hnone.
  unfold deploy_application. unfold IO in *.
  rewrite Hnone. reflexivity.
Qed.

Lemma deploy_unsupported_provider_witness :
  deploy_application (list string) unit recording_prepare
    (failing_provider "aws") (failing_provider "gcp")
    (failing_provider "azure") (failing_provider "vercel")
    (failing_provider "netlify") (failing_provider "railway")
    (failing_provider "render")
    {[ "main.py" := "print(1)" ]} unknown_config []
  = (Ok (Deployment.mkResult false None None None
           (Some "Unsupported provider: unknown") None),
     []).
Proof.
  apply (deploy_unsupported_provider (list string) unit recording_prepare
           (failing_provider "aws") (failing_provider "gcp")
           (failing_provider "azure") (failing_provider "vercel")
           (failing_provider "netlify") (failing_provider "railway")
           (failing_provider "render")
           {[ "main.py" := "print(1)" ]} unknown_config []).
  apply (bool_decide_unpack _). vm_compute. exact I.
Defined.

(** On a supported provider the collaborators do run: the world changes. *)
Example deploy_supported_runs_provider :
  deploy_application (list string) unit recording_prepare
    (failing_provider "aws") (failing_provider "gcp")
    (failing_provider "azure") (failing_provider "vercel")
    (failing_provider "netlify") (failing_provider "railway")
    (failing_provider "render")
    ∅ (Deployment.mkConfig "gcp" "us-central1" None None None "production") []
  = (Ok (Deployment.mkResult false None None
           (Some ["Deployment failed: gcp"]) (Some "gcp") None),
     ["gcp"; "prepare"]).
Proof. vm_compute. reflexivity. Qed.

(** ** Code generation *)

Section GeneratorFacts.

Import EnhancedMultiLanguageGenerator.

(** Only the Python branch of [_generate_component_file] returns a file. *)
Lemma component_files_only_python (language framework : string)
    (cs : list SystemComponent.t) (files : gmap string string) :
  language ≠ "python" ->
  fold_left (add_component_file language framework) cs files = files.
Proof.
  intros Hne. revert files.
  induction cs as [|c cs IH]; intros files; [reflexivity|].
  cbn [fold_left]. unfold add_component_file at 2.
  unfold _generate_component_file.
  rewrite bool_decide_false by exact Hne. apply IH.
Qed.

(** Files already present survive the loop over the components (their
    content may be overwritten). *)
Lemma component_files_keep_key (language framework : string)
    (cs : list SystemComponent.t) (files : gmap string string) (k : string) :
  is_Some (files !! k) ->
  is_Some (fold_left (add_component_file language framework) cs files !! k).
Proof.
  revert files.
  induction cs as [|c cs IH]; intros files Hk; [exact Hk|].
  cbn [fold_left]. apply IH.
  unfold add_component_file.
  destruct (_generate_component_file c language framework) as [[fn ct]|];
    [|exact Hk].
  rewrite lookup_insert_is_Some.
  destruct (decide (fn = k)); [left; assumption | right; split; assumption].
Qed.

Lemma post_init_ok (g : GeneratedCode.t) :
  PyStr.truthy (PyStr.strip (GeneratedCode.language g)) = true ->
  is_Some (GeneratedCode.files g !! GeneratedCode.entry_point g) ->
  GeneratedCode.make g = Ok g.
Proof.
  intros Hl He. unfold GeneratedCode.make, GeneratedCode.post_init.
  rewrite Hl. cbn [negb].
  rewrite bool_decide_false.
  - rewrite bool_decide_true by exact He. reflexivity.
  - intros Hempty. rewrite Hempty, lookup_empty in He.
    destruct He as [x Hx]. discriminate Hx.
Qed.

(** Where the template table has an entry for the default framework (Python
    and Rust), generation returns and the entry point is one of the files. *)
Lemma generate_code_python_entry_point (a : SystemArchitecture.t) :
  exists g, generate_code a "python" None = Ok g
            /\ GeneratedCode.entry_point g = "main.py"
            /\ is_Some (GeneratedCode.files g !! GeneratedCode.entry_point g).
Proof.
  eexists. split; [|split].
  - unfold generate_code.
    change (mem "python" supported_languages) with true. cbn [negb].
    apply post_init_ok; [reflexivity|].
    cbn [GeneratedCode.files GeneratedCode.entry_point].
    apply component_files_keep_key.
    vm_compute. eexists. reflexivity.
  - reflexivity.
  - cbn [GeneratedCode.files GeneratedCode.entry_point].
    apply component_files_keep_key.
    vm_compute. eexists. reflexivity.
Qed.

Lemma generate_code_rust_entry_point (a : SystemArchitecture.t) :
  exists g, generate_code a "rust" None = Ok g
            /\ GeneratedCode.entry_point g = "main.rs"
            /\ is_Some (GeneratedCode.files g !! GeneratedCode.entry_point g).
Proof.
  eexists. split; [|split].
  - unfold generate_code.
    change (mem "rust" supported_languages) with true. cbn [negb].
    apply post_init_ok; [reflexivity|].
    cbn [GeneratedCode.files GeneratedCode.entry_point].
    apply component_files_keep_key.
    vm_compute. eexists. reflexivity.
  - reflexivity.
  - cbn [GeneratedCode.files GeneratedCode.entry_point].
    apply component_files_keep_key.
    vm_compute. eexists. reflexivity.
Qed.

(** A supported language with no template and no component files: the file
    map stays empty and the constructor of [GeneratedCode] raises. *)
Lemma generate_code_without_template (a : SystemArchitecture.t)
    (language : string) :
  language ≠ "python" ->
  mem language supported_languages = true ->
  default ∅ (_load_templates !! language) !! _get_default_framework language
  = None ->
  PyStr.truthy (PyStr.strip language) = true ->
  generate_code a language None
  = Raise (ValueError "Generated code must contain at least one file").
Proof.
  intros Hne Hsup Htpl Hlang. unfold generate_code.
  rewrite Hsup. cbn [negb].
  unfold _generate_files. rewrite Htpl.
  rewrite component_files_only_python by exact Hne.
  unfold GeneratedCode.make, GeneratedCode.post_init.
  cbn [GeneratedCode.language GeneratedCode.files].
  rewrite Hlang. cbn [negb].
  rewrite bool_decide_true by reflexivity. reflexivity.
Qed.

End GeneratorFacts.

(** C1: for Go, TypeScript, Java and C++ with their default frameworks,
    [generate_code] does not return a [GeneratedCode]: for every
    architecture the file map is empty and the dataclass constructor raises
    [ValueError]. *)
Theorem generate_code_raises_without_template (a : SystemArchitecture.t) :
  Forall (fun language =>
            EnhancedMultiLanguageGenerator.generate_code a language None
            = Raise (ValueError
                       "Generated code must contain at least one file"))
         [ "go"; "typescript"; "java"; "cpp" ].
Proof.
  repeat apply Forall_cons_2; try apply Forall_nil_2;
    (apply generate_code_without_template;
     [discriminate | vm_compute; reflexivity ..]).
Qed.

(** ** The architecture object: running computations *)

Lemma exec_bind {A B} (m : ArchM A) (k : A -> ArchM B) (s : SystemArchitecture.t) :
  exec (m ≫= k) s
  = match m s with
    | (Ok a, s') => exec (k a) s'
    | (Raise _, s') => s'
    end.
Proof.
  unfold exec, mbind, ArchM_bind. destruct (m s) as [[a|e] s']; reflexivity.
Qed.

Lemma exec_for_each_app {A} (xs ys : list A) (body : A -> ArchM unit)
    (s : SystemArchitecture.t) :
  (forall x s0, x ∈ xs -> exists s1, body x s0 = (Ok tt, s1)) ->
  for_each (xs ++ ys) body s = for_each ys body (exec (for_each xs body) s).
Proof.
  revert s. induction xs as [|x xs IH]; intros s Hok; [reflexivity|].
  cbn [for_each app]. unfold exec, mbind, ArchM_bind.
  destruct (Hok x s) as [s1 Hs1]; [left|]. rewrite Hs1.
  rewrite IH; [reflexivity|].
  intros y s0 Hy. apply Hok. right. exact Hy.
Qed.

(** C8: comprehensive validation returns its issue list without raising and
    leaves the architecture object exactly as it was: components,
    relationships, patterns, quality attributes, technology stack and
    deployment model are those of before the call. *)
Theorem validate_architecture_comprehensive_read_only
    (library : gmap string ArchitectureService.PatternConfig)
    (a : SystemArchitecture.t) :
  exec (ArchitectureService.validate_architecture_comprehensive library) a = a
  /\ eval (ArchitectureService.validate_architecture_comprehensive library) a
     = Ok (EnhancedArchitecturalInference.validate_architecture a
           ++ ArchitectureService._validate_components
                (SystemArchitecture.components a)
           ++ ArchitectureService._validate_relationships a
           ++ ArchitectureService._validate_patterns library a
           ++ ArchitectureService._validate_technology_stack a).
Proof.
  split.
  - reflexivity.
  - cbv [eval ArchitectureService.validate_architecture_comprehensive
           mbind ArchM_bind reads mret ArchM_ret fst].
    cbn [app]. rewrite <- !app_assoc. reflexivity.
Qed.

(** Validation on a concrete architecture: two issues for the component
    without responsibilities, one for the pattern; auto-fix, run on them,
    does change the architecture. *)
Example validation_then_auto_fix :
  eval (ArchitectureService.validate_architecture_comprehensive
          ArchitectureService._load_pattern_library) two_users_architecture
  = Ok [ "Component User Service has no responsibilities";
         "Component User Service has no responsibilities";
         "Pattern layered requirement not met: clear_separation_of_concerns" ]
  /\ exec (ArchitectureService._auto_fix_architecture_issues
             [ "Component User Service has no responsibilities" ])
          two_users_architecture
     <> two_users_architecture.
Proof. split; [vm_compute; reflexivity | vm_compute; discriminate]. Qed.

(** ** Relationship generation *)

Section RelationshipFacts.

Import EnhancedArchitecturalInference.

Context {A B C : Type}.

(** The inner loop appends one edge per element. *)
Lemma inner_loop_map (edge : B -> C) (ys : list B) (rels : list C) :
  fold_left (fun rels y => rels ++ [edge y]) ys rels = rels ++ map edge ys.
Proof.
  revert rels. induction ys as [|y ys IH]; intros rels; cbn.
  - rewrite app_nil_r. reflexivity.
  - rewrite IH, <- app_assoc. reflexivity.
Qed.

(** The nested loops append the cross product. *)
Lemma nested_loops_cross (edge : A -> B -> C) (xs : list A) (ys : list B)
    (rels : list C) :
  fold_left (fun rels x => fold_left (fun rels y => rels ++ [edge x y]) ys rels)
    xs rels
  = rels ++ cross edge xs ys.
Proof.
  revert rels. induction xs as [|x xs IH]; intros rels; cbn.
  - rewrite app_nil_r. reflexivity.
  - rewrite IH, inner_loop_map, <- app_assoc. reflexivity.
Qed.

Lemma cross_length (edge : A -> B -> C) (xs : list A) (ys : list B) :
  length (cross edge xs ys) = length xs * length ys.
Proof.
  unfold cross. induction xs as [|x xs IH]; cbn; [reflexivity|].
  rewrite length_app, length_map, IH. reflexivity.
Qed.

End RelationshipFacts.

(** The fields of the generated edges. *)
Lemma calls_edge_fields (a s : SystemComponent.t) :
  EnhancedArchitecturalInference.calls_edge a s !! "source"
    = Some (SystemComponent.name a)
  /\ EnhancedArchitecturalInference.calls_edge a s !! "target"
     = Some (SystemComponent.name s)
  /\ EnhancedArchitecturalInference.calls_edge a s !! "type" = Some "calls".
Proof. repeat split; vm_compute; reflexivity. Qed.

Lemma uses_edge_fields (s d : SystemComponent.t) :
  EnhancedArchitecturalInference.uses_edge s d !! "source"
    = Some (SystemComponent.name s)
  /\ EnhancedArchitecturalInference.uses_edge s d !! "target"
     = Some (SystemComponent.name d)
  /\ EnhancedArchitecturalInference.uses_edge s d !! "type" = Some "uses".
Proof. repeat split; vm_compute; reflexivity. Qed.

(** C3, as stated, fails: with the type tests read literally, a component of
    type "API" gets no edge, while the code, which lower-cases the type
    first, links it to every service. *)
Lemma literal_cross_product_refuted :
  ~ (forall (cs : list SystemComponent.t) (r : SystemRequirements.t),
       EnhancedArchitecturalInference._generate_relationships cs r
       = literal_cross_product cs
       /\ length (EnhancedArchitecturalInference._generate_relationships cs r)
          = length (List.filter literal_is_api cs)
            * length (List.filter
                        EnhancedArchitecturalInference.is_service cs)
            + length (List.filter
                        EnhancedArchitecturalInference.is_service cs)
              * length (List.filter literal_is_database cs)).
Proof.
  intros H.
  destruct (H upper_case_api_components empty_requirements) as [_ Hlen].
  vm_compute in Hlen. discriminate Hlen.
Qed.

(** C3, amended: the relationship list is exactly the all-pairs cross
    product, with "type contains api/database" tested on the lower-cased
    type: one "calls" edge from every api-typed component to every component
    of type exactly "service", then one "uses" edge from every such service
    to every database-typed component; their number is
    |api| * |service| + |service| * |database|. *)
Theorem generate_relationships_cross_product
    (cs : list SystemComponent.t) (r : SystemRequirements.t) :
  EnhancedArchitecturalInference._generate_relationships cs r = cross_product cs
  /\ length (EnhancedArchitecturalInference._generate_relationships cs r)
     = length (List.filter EnhancedArchitecturalInference.is_api cs)
       * length (List.filter EnhancedArchitecturalInference.is_service cs)
       + length (List.filter EnhancedArchitecturalInference.is_service cs)
         * length (List.filter EnhancedArchitecturalInference.is_database cs).
Proof.
  assert (Heq : EnhancedArchitecturalInference._generate_relationships cs r
                = cross_product cs).
  { unfold EnhancedArchitecturalInference._generate_relationships,
      cross_product.
    rewrite !nested_loops_cross. reflexivity. }
  split; [exact Heq|].
  rewrite Heq. unfold cross_product.
  rewrite length_app, !cross_length. reflexivity.
Qed.

Lemma filter_agree {A} (f g : A -> bool) (l : list A) :
  Forall (fun x => f x = g x) l -> List.filter f l = List.filter g l.
Proof.
  induction 1 as [|x l Hx _ IH]; [reflexivity|].
  cbn. rewrite Hx, IH. reflexivity.
Qed.

(** On lower-case component types, the only ones the inference engine
    itself produces, the literal reading and the code agree. *)
Lemma literal_cross_product_on_lower_case (cs : list SystemComponent.t) :
  Forall (fun c => PyStr.lower (SystemComponent.component_type c)
                   = SystemComponent.component_type c) cs ->
  cross_product cs = literal_cross_product cs.
Proof.
  intros Hlow.
  unfold cross_product, literal_cross_product.
  rewrite (filter_agree EnhancedArchitecturalInference.is_api literal_is_api),
          (filter_agree EnhancedArchitecturalInference.is_database
             literal_is_database); [reflexivity| |].
  - eapply Forall_impl; [exact Hlow|]. intros c Hc.
    unfold EnhancedArchitecturalInference.is_database, literal_is_database.
    rewrite Hc. reflexivity.
  - eapply Forall_impl; [exact Hlow|]. intros c Hc.
    unfold EnhancedArchitecturalInference.is_api, literal_is_api.
    rewrite Hc. reflexivity.
Qed.

(** ** Conversation parsing *)

Section ParserFacts.

Import ConversationService.

(** The counting loop counts the statements with an intent keyword. *)
Lemma count_loop_filter (l : list Statement.t) (n : nat) :
  fold_left count_step l n
  = n + length (List.filter (has_intent intent_keywords) l).
Proof.
  revert n. induction l as [|s l IH]; intros n; cbn [fold_left List.filter].
  - cbn. lia.
  - rewrite IH. unfold count_step, has_intent.
    destruct (PyStr.any_in intent_keywords (PyStr.lower (Statement.content s)));
      cbn [length]; lia.
Qed.

Lemma filter_length_le {A} (f : A -> bool) (l : list A) :
  length (List.filter f l) <= length l.
Proof.
  induction l as [|x l IH]; cbn; [lia|]. destruct (f x); cbn; lia.
Qed.

Lemma confidence_is_fraction (c : Conversation.t) :
  _calculate_parsing_confidence c = intent_fraction intent_keywords c.
Proof.
  unfold _calculate_parsing_confidence, intent_fraction.
  rewrite count_loop_filter. reflexivity.
Qed.

(** A fraction of a part of the statements lies within [0, 1]. *)
Lemma fraction_in_unit_interval (p t : nat) :
  p <= t -> 0 < t ->
  Qle_bool 0 (Qmake (Z.of_nat p) (Pos.of_nat t))
  && Qle_bool (Qmake (Z.of_nat p) (Pos.of_nat t)) 1 = true.
Proof.
  intros Hpt Ht. unfold Qle_bool. cbn [Qnum Qden].
  assert (Hpos : Z.pos (Pos.of_nat t) = Z.of_nat t).
  { rewrite <- positive_nat_Z, Nat2Pos.id by lia. reflexivity. }
  rewrite Hpos. apply andb_true_intro. split; apply Z.leb_le; lia.
Qed.

Lemma confidence_in_unit_interval (c : Conversation.t) :
  Qle_bool 0 (_calculate_parsing_confidence c)
  && Qle_bool (_calculate_parsing_confidence c) 1 = true.
Proof.
  rewrite confidence_is_fraction. unfold intent_fraction.
  destruct (0 <? length (Conversation.statements c)) eqn:Hlen.
  - apply fraction_in_unit_interval.
    + apply filter_length_le.
    + apply Nat.ltb_lt. exact Hlen.
  - reflexivity.
Qed.

(** [parse_statements] never raises: the range check of the
    [SystemRequirements] constructor always passes. *)
Lemma parse_statements_returns (c : Conversation.t)
    (cache : gmap string (list string)) :
  exists req,
    fst (parse_statements c cache) = Ok req
    /\ SystemRequirements.confidence_score req
       = _calculate_parsing_confidence c
    /\ SystemRequirements.quality_attributes req
       = _extract_quality_attributes c
    /\ SystemRequirements.extracted_entities req
       = elements (entities
                     (fold_left parse_step (Conversation.statements c)
                        (mkParseState [] [] [] [] ∅ cache))).
Proof.
  eexists. split; [|split; [|split]].
  - unfold parse_statements. cbn [fst].
    unfold SystemRequirements.make, SystemRequirements.post_init.
    cbn [SystemRequirements.confidence_score].
    rewrite confidence_in_unit_interval. reflexivity.
  - reflexivity.
  - reflexivity.
  - reflexivity.
Qed.

End ParserFacts.

(** C6, as stated, fails: a statement whose only intent keyword is
    "implement" is counted by the code and not by the six listed keywords. *)
Lemma listed_keywords_fraction_refuted :
  ~ (forall (c : Conversation.t) (cache : gmap string (list string)),
       exists req,
         fst (ConversationService.parse_statements c cache) = Ok req
         /\ (SystemRequirements.confidence_score req
             == intent_fraction listed_intent_keywords c)%Q).
Proof.
  intros H. destruct (H implement_conversation ∅) as (req & Hreq & Hq).
  vm_compute in Hreq. injection Hreq as <-.
  vm_compute in Hq. discriminate Hq.
Qed.

(** C6, amended: for every conversation, parsing returns requirements whose
    confidence score is the number of statements whose lower-cased content
    contains one of create, build, implement, need, want, should, must,
    divided by the number of statements (and 0 when there is none). *)
Theorem confidence_score_is_intent_fraction
    (c : Conversation.t) (cache : gmap string (list string)) :
  exists req,
    fst (ConversationService.parse_statements c cache) = Ok req
    /\ SystemRequirements.confidence_score req
       = intent_fraction ConversationService.intent_keywords c.
Proof.
  destruct (parse_statements_returns c cache) as (req & Hreq & Hconf & _).
  exists req. split; [exact Hreq|].
  rewrite Hconf. apply confidence_is_fraction.
Qed.

Section EntityFacts.

Import ConversationService.

Lemma scan_entities_in_vocabulary (text e : string) :
  e ∈ scan_entities text -> e ∈ technical_keywords.
Proof.
  unfold scan_entities. rewrite !list_elem_of_In, filter_In. tauto.
Qed.

(** Under the cache invariant the memoised lookup returns the scan of the
    text, and the invariant is kept. *)
Lemma extract_entities_scan (text : string)
    (cache : gmap string (list string)) :
  cache_ok cache ->
  fst (extract_entities text cache) = scan_entities text
  /\ cache_ok (snd (extract_entities text cache)).
Proof.
  intros Hok. unfold extract_entities.
  destruct (cache !! text) as [es|] eqn:Hlook; cbn [fst snd].
  - split; [|exact Hok]. apply (Hok _ _ Hlook).
  - split; [reflexivity|].
    apply map_Forall_insert_2; [reflexivity | exact Hok].
Qed.

Lemma extract_by_type_frame (st : ParseState) (s : Statement.t) :
  entities (extract_by_type st s) = entities st
  /\ entity_cache (extract_by_type st s) = entity_cache st.
Proof.
  unfold extract_by_type.
  destruct (Statement.statement_type s) as [[]|]; split; reflexivity.
Qed.

Lemma parse_step_invariant (st : ParseState) (s : Statement.t) :
  parse_invariant st -> parse_invariant (parse_step st s).
Proof.
  intros [Hent Hcache]. unfold parse_step.
  destruct (extract_by_type_frame st s) as [He Hc].
  destruct (extract_entities (Statement.content s)
              (entity_cache (extract_by_type st s)))
    as [found cache'] eqn:Hex.
  assert (Hscan := extract_entities_scan (Statement.content s)
                     (entity_cache (extract_by_type st s))).
  rewrite Hex, Hc in Hscan. cbn [fst snd] in Hscan.
  destruct (Hscan Hcache) as [-> Hcache'].
  split; cbn [entities entity_cache]; [|exact Hcache'].
  intros e. rewrite elem_of_union, elem_of_list_to_set, He.
  intros [Hin|Hin]; [apply Hent; exact Hin|].
  eapply scan_entities_in_vocabulary; exact Hin.
Qed.

Lemma parse_loop_invariant (l : list Statement.t) (st : ParseState) :
  parse_invariant st -> parse_invariant (fold_left parse_step l st).
Proof.
  revert st. induction l as [|s l IH]; intros st Hst; [exact Hst|].
  cbn [fold_left]. apply IH, parse_step_invariant, Hst.
Qed.

End EntityFacts.

(** C7, as stated, fails on the size of the vocabulary: a valid one-statement
    conversation yields 34 distinct entities, more than any 31-entry
    vocabulary holds. *)
Lemma vocabulary_of_31_refuted :
  ~ (exists vocabulary : list string,
       length vocabulary = 31
       /\ forall c : Conversation.t,
            stated_rejected c = false ->
            exists req,
              fst (ConversationService.parse_statements c ∅) = Ok req
              /\ forall e, e ∈ SystemRequirements.extracted_entities req ->
                           e ∈ vocabulary).
Proof.
  intros (vocabulary & Hlen & Hall).
  destruct (Hall all_keywords_conversation) as (req & Hreq & Hsub);
    [vm_compute; reflexivity|].
  destruct (parse_statements_returns all_keywords_conversation ∅)
    as (req' & Hreq' & _ & _ & Hents).
  rewrite Hreq in Hreq'. injection Hreq' as <-.
  assert (Hnodup : NoDup (SystemRequirements.extracted_entities req)).
  { rewrite Hents. apply NoDup_elements. }
  assert (Hcount : length (SystemRequirements.extracted_entities req) = 34).
  { rewrite Hents. vm_compute. reflexivity. }
  assert (Hle := submseteq_length _ _ (NoDup_submseteq _ _ Hnodup Hsub)).
  rewrite Hcount, Hlen in Hle. lia.
Qed.

(** C7, amended: for every conversation (non-empty and valid or not), a
    parser whose cache satisfies its invariant returns requirements without
    raising, and every extracted entity belongs to the fixed vocabulary of
    technical keywords, which has 34 entries. *)
Theorem parse_statements_entities_in_vocabulary
    (c : Conversation.t) (cache : gmap string (list string)) :
  cache_ok cache ->
  exists req,
    fst (ConversationService.parse_statements c cache) = Ok req
    /\ (forall e, e ∈ SystemRequirements.extracted_entities req ->
                  e ∈ ConversationService.technical_keywords)
    /\ length ConversationService.technical_keywords = 34
    /\ cache_ok (snd (ConversationService.parse_statements c cache)).
Proof.
  intros Hcache.
  destruct (parse_statements_returns c cache) as (req & Hreq & _ & _ & Hents).
  assert (Hinv : parse_invariant
                   (fold_left ConversationService.parse_step
                      (Conversation.statements c)
                      (ConversationService.mkParseState [] [] [] [] ∅ cache))).
  { apply parse_loop_invariant. split; [|exact Hcache].
    intros e He. apply not_elem_of_empty in He. destruct He. }
  exists req. split; [exact Hreq|]. split; [|split].
  - intros e He. rewrite Hents, elem_of_elements in He.
    apply (proj1 Hinv). exact He.
  - reflexivity.
  - apply (proj2 Hinv).
Qed.

Lemma parse_statements_entities_in_vocabulary_witness :
  exists req,
    fst (ConversationService.parse_statements all_keywords_conversation ∅)
    = Ok req
    /\ (forall e, e ∈ SystemRequirements.extracted_entities req ->
                  e ∈ ConversationService.technical_keywords)
    /\ length ConversationService.technical_keywords = 34
    /\ cache_ok
         (snd (ConversationService.parse_statements
                 all_keywords_conversation ∅)).
Proof.
  apply (parse_statements_entities_in_vocabulary all_keywords_conversation ∅).
  apply (bool_decide_unpack _). vm_compute. exact I.
Defined.

(** ** Conversation validation *)

Section ValidationFacts.

Import ConversationService.

Lemma validate_statement_accepts (s : Statement.t) :
  rejected_statement s = false -> _validate_statement s = Ok tt.
Proof.
  unfold rejected_statement, blank, field_missing, _validate_statement.
  intros H.
  apply orb_false_elim in H as [H Hfields].
  apply orb_false_elim in H as [Hblank Hlong].
  rewrite Hblank, Hlong.
  unfold required_fields.
  destruct (Statement.context s), (Statement.timestamp s),
    (Statement.speaker s), (Statement.statement_type s);
    cbn in Hfields; try discriminate Hfields; reflexivity.
Qed.

Lemma validate_statement_rejects (s : Statement.t) :
  rejected_statement s = true ->
  exists msg, _validate_statement s = Raise (StatementParsingError msg).
Proof.
  unfold rejected_statement, blank, field_missing, _validate_statement.
  intros H.
  destruct (negb (PyStr.truthy (PyStr.strip (Statement.content s))));
    [eexists; reflexivity|].
  destruct (10000 <? Z.of_nat (String.length (Statement.content s)))%Z;
    [eexists; reflexivity|].
  cbn [orb] in H. unfold required_fields.
  destruct (Statement.context s), (Statement.timestamp s),
    (Statement.speaker s), (Statement.statement_type s);
    cbn in H; try discriminate H; eexists; reflexivity.
Qed.

Lemma validate_statements_accepts (l : list Statement.t) (i : nat) :
  existsb rejected_statement l = false ->
  validate_statements_from i l = Ok tt.
Proof.
  revert i. induction l as [|s l IH]; intros i H; [reflexivity|].
  cbn [existsb] in H. apply orb_false_elim in H as [Hs Hl].
  cbn [validate_statements_from].
  rewrite (validate_statement_accepts s Hs). apply IH, Hl.
Qed.

Lemma validate_statements_rejects (l : list Statement.t) (i : nat) :
  existsb rejected_statement l = true ->
  exists msg,
    validate_statements_from i l = Raise (ConversationProcessingError msg).
Proof.
  revert i. induction l as [|s l IH]; intros i H; [discriminate H|].
  cbn [existsb] in H. cbn [validate_statements_from].
  destruct (rejected_statement s) eqn:Hs.
  - destruct (validate_statement_rejects s Hs) as [msg ->].
    eexists. reflexivity.
  - rewrite (validate_statement_accepts s Hs). apply IH. exact H.
Qed.

Lemma validate_conversation_accepts (c : Conversation.t) :
  rejected c = false -> _validate_conversation c = Ok tt.
Proof.
  unfold rejected, _validate_conversation.
  destruct (Conversation.statements c) as [|s l] eqn:Hst;
    [discriminate|].
  intros H. apply orb_false_elim in H as [Hlen Hall].
  rewrite Hlen. apply validate_statements_accepts, Hall.
Qed.

Lemma validate_conversation_rejects (c : Conversation.t) :
  rejected c = true ->
  exists msg, _validate_conversation c = Raise (ConversationProcessingError msg).
Proof.
  unfold rejected, _validate_conversation.
  destruct (Conversation.statements c) as [|s l] eqn:Hst;
    [eexists; reflexivity|].
  intros H.
  destruct (1000 <? length (s :: l)); [eexists; reflexivity|].
  apply validate_statements_rejects. exact H.
Qed.

End ValidationFacts.

(** C2, as stated, fails: a conversation of 1001 structurally valid
    statements is refused, although it has statements and none of them is
    invalid. *)
Lemma stated_rejection_refuted :
  ~ (forall (c : Conversation.t) (cache : gmap string (list string)),
       (exists e, fst (ConversationService.extract c cache) = Raise e)
       <-> stated_rejected c = true).
Proof.
  intros H. destruct (H long_conversation ∅) as [Hfail _].
  assert (Hno : stated_rejected long_conversation = false)
    by (vm_compute; reflexivity).
  rewrite Hfail in Hno; [discriminate Hno|].
  eexists. vm_compute. reflexivity.
Qed.

(** C2, amended: extraction fails, raising [ConversationProcessingError], if
    and only if the conversation has no statement, has more than 1000
    statements, or has a statement whose content is blank or longer than
    10000 characters or one of whose required fields is [None]; on every
    other conversation it returns the complete result of the parser. *)
Theorem extract_fails_iff_rejected
    (c : Conversation.t) (cache : gmap string (list string)) :
  ((exists e, fst (ConversationService.extract c cache) = Raise e)
   <-> rejected c = true)
  /\ match fst (ConversationService.extract c cache) with
     | Raise e => exists msg, e = ConversationProcessingError msg
     | Ok req =>
         fst (ConversationService.parse_statements c cache) = Ok req
     end.
Proof.
  unfold ConversationService.extract.
  destruct (rejected c) eqn:Hrej.
  - destruct (validate_conversation_rejects c Hrej) as [msg ->].
    cbn [fst]. split; [|exists msg; reflexivity].
    split; [reflexivity|]. intros _. eexists. reflexivity.
  - rewrite (validate_conversation_accepts c Hrej).
    destruct (parse_statements_returns c cache) as (req & Hreq & _).
    rewrite Hreq. split; [|reflexivity].
    split; [|discriminate]. intros [e He]. discriminate He.
Qed.

(** The two outcomes, run on concrete conversations. *)
Example extract_accepts_valid_conversation :
  is_ok (fst (ConversationService.extract implement_conversation ∅)) = true.
Proof. vm_compute. reflexivity. Qed.

Example extract_refuses_long_conversation :
  fst (ConversationService.extract long_conversation ∅)
  = Raise (ConversationProcessingError
             "Conversation too long (>1000 statements)").
Proof. vm_compute. reflexivity. Qed.

(** The confidence of a statement is checked by its constructor only, not by
    extraction. *)
Example extract_ignores_confidence :
  Statement.post_init overconfident_statement
  = Raise (ValueError "Confidence must be between 0 and 1")
  /\ is_ok (fst (ConversationService.extract overconfident_conversation ∅))
     = true.
Proof. split; vm_compute; reflexivity. Qed.

(** ** Frame reasoning on the architecture object *)

Section Keeps.

Context (R : SystemArchitecture.t -> SystemArchitecture.t -> Prop).
Hypothesis R_refl : forall s, R s s.
Hypothesis R_trans : forall s1 s2 s3, R s1 s2 -> R s2 s3 -> R s1 s3.

Lemma keeps_ret {A} (a : A) : keeps R (mret a).
Proof. intros s. apply R_refl. Qed.

Lemma keeps_reads {A} (f : SystemArchitecture.t -> A) : keeps R (reads f).
Proof. intros s. apply R_refl. Qed.

Lemma keeps_lift {A} (r : result A) : keeps R (lift r).
Proof. intros s. apply R_refl. Qed.

Lemma keeps_bind {A B} (m : ArchM A) (k : A -> ArchM B) :
  keeps R m -> (forall a, keeps R (k a)) -> keeps R (m ≫= k).
Proof.
  intros Hm Hk s. unfold mbind, ArchM_bind.
  specialize (Hm s). destruct (m s) as [[a|e] s']; cbn [snd] in *.
  - eapply R_trans; [exact Hm | apply Hk].
  - exact Hm.
Qed.

Lemma keeps_for_each {A} (xs : list A) (body : A -> ArchM unit) :
  (forall x, keeps R (body x)) -> keeps R (for_each xs body).
Proof.
  intros Hbody. induction xs as [|x xs IH]; cbn [for_each].
  - apply keeps_ret.
  - apply keeps_bind; [apply Hbody | intros _; exact IH].
Qed.

End Keeps.

Lemma patterns_grow_refl (s : SystemArchitecture.t) : patterns_grow s s.
Proof. intros p Hp. exact Hp. Qed.

Lemma patterns_grow_trans (s1 s2 s3 : SystemArchitecture.t) :
  patterns_grow s1 s2 -> patterns_grow s2 s3 -> patterns_grow s1 s3.
Proof. intros H12 H23 p Hp. apply H23, H12, Hp. Qed.

Section PatternFacts.

Import ArchitectureService.

Lemma append_component_patterns (c : SystemComponent.t) :
  keeps patterns_grow (append_component c).
Proof. intros s p Hp. exact Hp. Qed.

Lemma extend_relationships_patterns (rs : list (gmap string string)) :
  keeps patterns_grow (extend_relationships rs).
Proof. intros s p Hp. exact Hp. Qed.

Lemma append_pattern_patterns (q : string) :
  keeps patterns_grow (append_pattern q).
Proof.
  intros s p Hp. cbn. apply elem_of_app. left. exact Hp.
Qed.

(** One structural step of a frame proof for [patterns_grow]. *)
Ltac grow_step :=
  first
    [ apply (keeps_ret _ patterns_grow_refl)
    | apply (keeps_reads _ patterns_grow_refl)
    | apply (keeps_lift _ patterns_grow_refl)
    | apply append_component_patterns
    | apply extend_relationships_patterns
    | apply append_pattern_patterns
    | apply (keeps_bind _ patterns_grow_trans); [|intros ?]
    | apply (keeps_for_each _ patterns_grow_refl patterns_grow_trans);
      intros ? ].

Lemma apply_pattern_patterns (library : gmap string PatternConfig)
    (pattern : string) :
  keeps patterns_grow (_apply_pattern library pattern).
Proof.
  unfold _apply_pattern.
  grow_step.
  - grow_step. grow_step; [grow_step|].
    destruct (existsb _ _); [grow_step|]. repeat grow_step.
  - grow_step; [grow_step|]. grow_step; [grow_step|].
    destruct (mem pattern _); grow_step.
Qed.

Lemma apply_architectural_patterns_patterns
    (library : gmap string PatternConfig) (r : SystemRequirements.t) :
  keeps patterns_grow (_apply_architectural_patterns library r).
Proof.
  unfold _apply_architectural_patterns.
  grow_step. destruct (bool_decide _).
  - apply apply_pattern_patterns.
  - grow_step.
Qed.

(** What comprehensive validation evaluates to. *)
Lemma validate_eval (library : gmap string PatternConfig)
    (a : SystemArchitecture.t) :
  eval (validate_architecture_comprehensive library) a
  = Ok (EnhancedArchitecturalInference.validate_architecture a
        ++ _validate_components (SystemArchitecture.components a)
        ++ _validate_relationships a
        ++ _validate_patterns library a
        ++ _validate_technology_stack a).
Proof.
  cbv [eval validate_architecture_comprehensive
         mbind ArchM_bind reads mret ArchM_ret fst].
  cbn [app]. rewrite <- !app_assoc. reflexivity.
Qed.

(** A declared pattern missing from the library is reported. *)
Lemma unknown_pattern_reported (library : gmap string PatternConfig)
    (a : SystemArchitecture.t) (pattern : string) :
  pattern ∈ SystemArchitecture.patterns a ->
  library !! pattern = None ->
  exists issues,
    eval (validate_architecture_comprehensive library) a = Ok issues
    /\ ("Unknown architectural pattern: " +:+ pattern) ∈ issues.
Proof.
  intros Hin Hnone. eexists. split; [apply validate_eval|].
  rewrite !elem_of_app. right. right. right. left.
  unfold _validate_patterns. apply list_elem_of_In, in_flat_map.
  exists pattern. split; [apply list_elem_of_In; exact Hin|].
  unfold pattern_issues. rewrite Hnone. left. reflexivity.
Qed.

End PatternFacts.

Section InferenceFacts.

Import EnhancedArchitecturalInference.

(** Every component template passes the checks of the [SystemComponent]
    constructor. *)
Lemma template_component_ok (entity : string) (template : ComponentTemplate) :
  _load_component_templates !! entity = Some template ->
  is_ok (SystemComponent.make
           (SystemComponent.mk (tpl_name template) (tpl_type template)
              (tpl_responsibilities template) (tpl_interfaces template)
              (default [] (tpl_dependencies template)))) = true.
Proof.
  intros Hlook. unfold _load_component_templates in Hlook.
  apply elem_of_list_to_map_2 in Hlook.
  repeat (apply elem_of_cons in Hlook as [Heq|Hlook];
          [injection Heq as _ ->; vm_compute; reflexivity|]).
  apply elem_of_nil in Hlook. destruct Hlook.
Qed.

Lemma component_loop_returns (entities : list string)
    (cs : list SystemComponent.t) :
  exists cs', fold_left component_step entities (Ok cs) = Ok cs'
              /\ (cs <> [] -> cs' <> []).
Proof.
  revert cs. induction entities as [|e entities IH]; intros cs.
  - exists cs. split; [reflexivity | tauto].
  - cbn [fold_left]. unfold component_step at 2. cbn [mbind result_bind].
    destruct (_load_component_templates !! e) as [template|] eqn:Hlook.
    + pose proof (template_component_ok e template Hlook) as Hok.
      destruct (SystemComponent.make _) as [c|err]; [|discriminate Hok].
      cbn [mbind result_bind mret result_ret].
      destruct (IH (cs ++ [c])) as (cs' & Hcs' & Hne).
      exists cs'. split; [exact Hcs'|].
      intros _. apply Hne. destruct cs; discriminate.
    + cbn [mret result_ret]. apply IH.
Qed.

Lemma generate_components_returns (r : SystemRequirements.t) :
  exists c cs, _generate_components r = Ok (c :: cs).
Proof.
  unfold _generate_components.
  destruct (component_loop_returns
              (SystemRequirements.extracted_entities r) [])
    as (cs' & -> & _).
  cbn [mbind result_bind]. destruct cs' as [|c cs].
  - eexists _, _. reflexivity.
  - exists c, cs. reflexivity.
Qed.

(** Inference never raises, and the pattern list of the inferred
    architecture is the suggestion. *)
Lemma infer_architecture_returns (now : string) (r : SystemRequirements.t) :
  exists a, infer_architecture now r = Ok a
            /\ SystemArchitecture.patterns a = suggest_patterns r
            /\ SystemArchitecture.components a <> [].
Proof.
  unfold infer_architecture.
  destruct (generate_components_returns r) as (c & cs & ->).
  cbn [mbind result_bind]. eexists. split; [reflexivity|].
  split; [reflexivity | discriminate].
Qed.

Lemma performance_suggests_caching (r : SystemRequirements.t) :
  flag (SystemRequirements.quality_attributes r) "performance" = true ->
  "caching" ∈ suggest_patterns r.
Proof.
  intros Hperf. unfold suggest_patterns.
  apply elem_of_elements, elem_of_list_to_set.
  unfold suggested_list. rewrite Hperf.
  match goal with
  | |- _ ∈ match ?l with [] => _ | _ :: _ => _ end =>
      assert (Hin : "caching" ∈ l)
        by (rewrite !elem_of_app; do 5 right; apply list_elem_of_In; left;
            reflexivity);
      destruct l; [apply elem_of_nil in Hin; destruct Hin | exact Hin]
  end.
Qed.

End InferenceFacts.

(** C9: when the requirements carry a truthy performance flag, inference
    returns an architecture whose pattern list contains "caching"; the
    pattern library has no such key, so comprehensive validation of that
    architecture reports "Unknown architectural pattern: caching", before as
    well as after the service has applied the library patterns to it. *)
Theorem performance_flag_fails_pattern_validation
    (now : string) (r : SystemRequirements.t) :
  flag (SystemRequirements.quality_attributes r) "performance" = true ->
  exists a,
    EnhancedArchitecturalInference.infer_architecture now r = Ok a
    /\ "caching" ∈ SystemArchitecture.patterns a
    /\ ArchitectureService._load_pattern_library !! "caching" = None
    /\ (exists issues,
          eval (ArchitectureService.validate_architecture_comprehensive
                  ArchitectureService._load_pattern_library) a = Ok issues
          /\ "Unknown architectural pattern: caching" ∈ issues)
    /\ (exists issues,
          eval (ArchitectureService.validate_architecture_comprehensive
                  ArchitectureService._load_pattern_library)
               (exec (ArchitectureService._apply_architectural_patterns
                        ArchitectureService._load_pattern_library r) a)
          = Ok issues
          /\ "Unknown architectural pattern: caching" ∈ issues).
Proof.
  intros Hperf.
  destruct (infer_architecture_returns now r) as (a & Ha & Hpat & _).
  assert (Hin : "caching" ∈ SystemArchitecture.patterns a).
  { rewrite Hpat. apply performance_suggests_caching, Hperf. }
  assert (Hnone : ArchitectureService._load_pattern_library !! "caching" = None)
    by (vm_compute; reflexivity).
  exists a. split; [exact Ha|]. split; [exact Hin|]. split; [exact Hnone|].
  split.
  - apply (unknown_pattern_reported _ a "caching" Hin Hnone).
  - apply (unknown_pattern_reported _ _ "caching"); [|exact Hnone].
    apply (apply_architectural_patterns_patterns _ r a). exact Hin.
Qed.

Lemma performance_flag_fails_pattern_validation_witness :
  exists a,
    EnhancedArchitecturalInference.infer_architecture "2024-01-01T00:00:00"
      performance_requirements = Ok a
    /\ "caching" ∈ SystemArchitecture.patterns a
    /\ ArchitectureService._load_pattern_library !! "caching" = None
    /\ (exists issues,
          eval (ArchitectureService.validate_architecture_comprehensive
                  ArchitectureService._load_pattern_library) a = Ok issues
          /\ "Unknown architectural pattern: caching" ∈ issues)
    /\ (exists issues,
          eval (ArchitectureService.validate_architecture_comprehensive
                  ArchitectureService._load_pattern_library)
               (exec (ArchitectureService._apply_architectural_patterns
                        ArchitectureService._load_pattern_library
                        performance_requirements) a)
          = Ok issues
          /\ "Unknown architectural pattern: caching" ∈ issues).
Proof.
  apply (performance_flag_fails_pattern_validation "2024-01-01T00:00:00"
           performance_requirements).
  vm_compute. reflexivity.
Defined.

(** ** Splitting an issue message into words *)

Section SplitFacts.

Lemma has_space_rev_app (s acc : string) :
  has_space (String.rev_app s acc) = has_space s || has_space acc.
Proof.
  revert acc. induction s as [|a s IH]; intros acc; cbn; [reflexivity|].
  rewrite IH. cbn. destruct (PyStr.is_space a), (has_space s); reflexivity.
Qed.

Lemma has_nonspace_rev_app (s acc : string) :
  has_nonspace (String.rev_app s acc) = has_nonspace s || has_nonspace acc.
Proof.
  revert acc. induction s as [|a s IH]; intros acc; cbn; [reflexivity|].
  rewrite IH. cbn. destruct (PyStr.is_space a), (has_nonspace s); reflexivity.
Qed.

Lemma truthy_rev_app (s acc : string) :
  PyStr.truthy (String.rev_app s acc) = PyStr.truthy s || PyStr.truthy acc.
Proof.
  revert acc. induction s as [|a s IH]; intros acc; cbn; [reflexivity|].
  rewrite IH. cbn. apply orb_true_r.
Qed.

Lemma truthy_lstrip (s : string) :
  PyStr.truthy (PyStr.lstrip s) = has_nonspace s.
Proof.
  induction s as [|a s IH]; cbn; [reflexivity|].
  destruct (PyStr.is_space a); cbn; [exact IH | reflexivity].
Qed.

Lemma has_nonspace_lstrip (s : string) :
  has_nonspace (PyStr.lstrip s) = has_nonspace s.
Proof.
  induction s as [|a s IH]; cbn; [reflexivity|].
  destruct (PyStr.is_space a) eqn:Ha; cbn; [exact IH|].
  rewrite Ha. reflexivity.
Qed.

(** [name.strip()] is non-empty exactly when the name has a character that
    is not whitespace. *)
Lemma truthy_strip (s : string) :
  PyStr.truthy (PyStr.strip s) = has_nonspace s.
Proof.
  unfold PyStr.strip, String.rev.
  rewrite truthy_rev_app, orb_false_r, truthy_lstrip.
  rewrite has_nonspace_rev_app, orb_false_r. apply has_nonspace_lstrip.
Qed.

Lemma append_nil (t : string) : "" +:+ t = t.
Proof. reflexivity. Qed.

Lemma append_cons (a : ascii) (s t : string) :
  String a s +:+ t = String a (s +:+ t).
Proof. reflexivity. Qed.

(** Appending text that starts with whitespace does not change the first
    word, provided there is one. *)
Lemma split_go_suffix (n cur : string) (sp : ascii) (rest : string) :
  PyStr.is_space sp = true ->
  PyStr.truthy cur || has_nonspace n = true ->
  exists w tl tl',
    PyStr.split_go cur n = w :: tl
    /\ PyStr.split_go cur (n +:+ String sp rest) = w :: tl'.
Proof.
  intros Hsp. revert cur.
  induction n as [|a n IH]; intros cur Hne.
  - cbn in Hne. rewrite orb_false_r in Hne.
    rewrite append_nil. cbn [PyStr.split_go].
    rewrite Hsp, Hne. eexists _, _, _. split; reflexivity.
  - rewrite append_cons. cbn [PyStr.split_go].
    destruct (PyStr.is_space a) eqn:Ha.
    + destruct (PyStr.truthy cur) eqn:Hcur.
      * eexists _, _, _. split; reflexivity.
      * apply IH. cbn in Hne. rewrite Ha in Hne. exact Hne.
    + apply IH. reflexivity.
Qed.

(** The words of a split contain no whitespace. *)
Lemma split_go_no_space (s cur w : string) :
  has_space cur = false ->
  w ∈ PyStr.split_go cur s -> has_space w = false.
Proof.
  revert cur. induction s as [|a s IH]; intros cur Hcur Hw.
  - cbn in Hw. destruct (PyStr.truthy cur); [|inversion Hw].
    apply list_elem_of_singleton in Hw as ->.
    unfold String.rev. rewrite has_space_rev_app, Hcur. reflexivity.
  - cbn [PyStr.split_go] in Hw. destruct (PyStr.is_space a) eqn:Ha.
    + destruct (PyStr.truthy cur).
      * apply elem_of_cons in Hw as [->|Hw].
        -- unfold String.rev. rewrite has_space_rev_app, Hcur. reflexivity.
        -- apply (IH ""); [reflexivity | exact Hw].
      * apply (IH ""); [reflexivity | exact Hw].
    + apply (IH (String a cur)); [|exact Hw].
      cbn. rewrite Ha, Hcur. reflexivity.
Qed.

(** The second word of "Component <name><space>..." is the first word of
    the name, which differs from a name that contains whitespace. *)
Lemma second_word_of_issue (n rest : string) (sp : ascii) :
  PyStr.is_space sp = true ->
  has_nonspace n = true ->
  PyStr.split ("Component " +:+ n +:+ String sp rest) !! 1
  = Some (first_word n)
  /\ has_space (first_word n) = false.
Proof.
  intros Hsp Hn.
  change (PyStr.split ("Component " +:+ n +:+ String sp rest))
    with ("Component" :: PyStr.split_go "" (n +:+ String sp rest)).
  destruct (split_go_suffix n "" sp rest Hsp) as (w & tl & tl' & Hn1 & Hn2);
    [exact Hn|].
  rewrite Hn2. unfold first_word, PyStr.split. rewrite Hn1. cbn.
  split; [reflexivity|].
  apply (split_go_no_space n "" w); [reflexivity|].
  rewrite Hn1. left.
Qed.

End SplitFacts.

(** ** Auto-fix *)

Section AutoFixFacts.

Import ArchitectureService.

Lemma prefix_app (s t : string) : String.prefix s (s +:+ t) = true.
Proof.
  induction s as [|a s IH]; [destruct t; reflexivity|].
  rewrite append_cons. cbn. destruct (ascii_dec a a); [exact IH | congruence].
Qed.

Lemma contains_unfold (needle hay : string) :
  PyStr.contains needle hay
  = String.prefix needle hay
    || match hay with
       | EmptyString => false
       | String _ hay' => PyStr.contains needle hay'
       end.
Proof. destruct hay; reflexivity. Qed.

Lemma contains_app_l (needle pre hay : string) :
  PyStr.contains needle hay = true ->
  PyStr.contains needle (pre +:+ hay) = true.
Proof.
  intros H. induction pre as [|a pre IH]; [exact H|].
  rewrite append_cons, contains_unfold, IH. apply orb_true_r.
Qed.

Lemma no_responsibilities_issue_matches (n : string) :
  PyStr.contains "has no responsibilities" (no_responsibilities_issue n) = true.
Proof.
  unfold no_responsibilities_issue.
  do 2 apply contains_app_l. vm_compute. reflexivity.
Qed.

Lemma no_type_issue_matches (n : string) :
  PyStr.contains "has no type" (no_type_issue n) = true.
Proof.
  unfold no_type_issue. do 2 apply contains_app_l. vm_compute. reflexivity.
Qed.

Lemma update_first_none (w : string)
    (f : SystemComponent.t -> SystemComponent.t)
    (cs : list SystemComponent.t) :
  find (fun c => bool_decide (SystemComponent.name c = w)) cs = None ->
  update_first w f cs = cs.
Proof.
  induction cs as [|c cs IH]; [reflexivity|]. cbn.
  destruct (bool_decide (SystemComponent.name c = w)); [discriminate|].
  intros H. rewrite (IH H). reflexivity.
Qed.

Lemma update_first_ext (w : string)
    (f g : SystemComponent.t -> SystemComponent.t)
    (cs : list SystemComponent.t) (d : SystemComponent.t) :
  find (fun c => bool_decide (SystemComponent.name c = w)) cs = Some d ->
  f d = g d ->
  update_first w f cs = update_first w g cs.
Proof.
  intros Hfind Hfg. induction cs as [|c cs IH]; [reflexivity|].
  cbn in *. destruct (bool_decide (SystemComponent.name c = w)).
  - injection Hfind as ->. rewrite Hfg. reflexivity.
  - rewrite (IH Hfind). reflexivity.
Qed.

(** Components under another name stay where and as they are. *)
Lemma update_first_other (w : string)
    (f : SystemComponent.t -> SystemComponent.t)
    (cs : list SystemComponent.t) (i : nat) (x : SystemComponent.t) :
  cs !! i = Some x -> SystemComponent.name x <> w ->
  update_first w f cs !! i = Some x.
Proof.
  revert i. induction cs as [|c cs IH]; intros i Hi Hne; [discriminate Hi|].
  cbn [update_first]. destruct i as [|i]; cbn in Hi.
  - injection Hi as ->. rewrite bool_decide_false by exact Hne. reflexivity.
  - destruct (bool_decide (SystemComponent.name c = w)); cbn.
    + exact Hi.
    + apply IH; assumption.
Qed.

(** The component found by name is the one updated. *)
Lemma update_first_found (w : string)
    (f : SystemComponent.t -> SystemComponent.t)
    (cs : list SystemComponent.t) (d : SystemComponent.t) :
  (forall x, SystemComponent.name (f x) = SystemComponent.name x) ->
  find (fun c => bool_decide (SystemComponent.name c = w)) cs = Some d ->
  find (fun c => bool_decide (SystemComponent.name c = w))
       (update_first w f cs) = Some (f d).
Proof.
  intros Hname. induction cs as [|c cs IH]; [discriminate|].
  cbn. destruct (bool_decide (SystemComponent.name c = w)) eqn:Hc.
  - intros [= ->]. cbn. rewrite Hname, Hc. reflexivity.
  - intros Hfind. cbn. rewrite Hc. apply IH, Hfind.
Qed.

Lemma find_named (w : string) (cs : list SystemComponent.t)
    (d : SystemComponent.t) :
  find (fun c => bool_decide (SystemComponent.name c = w)) cs = Some d ->
  SystemComponent.name d = w /\ d ∈ cs.
Proof.
  intros H. apply find_some in H as [Hin Hname].
  split; [apply bool_decide_eq_true in Hname; exact Hname|].
  apply list_elem_of_In. exact Hin.
Qed.

Lemma repair_keeps_name (issue : string) (x : SystemComponent.t) :
  SystemComponent.name (repair_of issue x) = SystemComponent.name x.
Proof.
  unfold repair_of.
  destruct (PyStr.contains "has no responsibilities" issue); [reflexivity|].
  destruct (PyStr.contains "has no type" issue); reflexivity.
Qed.

Lemma set_components_same (a : SystemArchitecture.t) :
  SystemArchitecture.set_components (SystemArchitecture.components a) a = a.
Proof. destruct a. reflexivity. Qed.

(** The effect of one iteration of auto-fix on an issue whose second word is
    [w]: the first component named [w], if any, is repaired. *)
Lemma fix_issue_exec (issue w : string) (a : SystemArchitecture.t) :
  second_token issue = Ok w ->
  fix_issue issue a
  = (Ok tt,
     SystemArchitecture.set_components
       (update_first w (repair_of issue) (SystemArchitecture.components a)) a).
Proof.
  intros Htok. unfold fix_issue, repair_of.
  destruct (PyStr.contains "has no responsibilities" issue).
  - cbv [mbind ArchM_bind lift reads]. rewrite Htok.
    unfold SystemArchitecture.get_component_by_name.
    destruct (find _ (SystemArchitecture.components a)) as [d|] eqn:Hfind.
    + cbv [update_component modify]. f_equal. f_equal.
      apply (update_first_ext w _ _ _ d Hfind). reflexivity.
    + cbv [mret ArchM_ret]. rewrite (update_first_none w _ _ Hfind).
      rewrite set_components_same. reflexivity.
  - destruct (PyStr.contains "has no type" issue).
    + cbv [mbind ArchM_bind lift reads]. rewrite Htok.
      unfold SystemArchitecture.get_component_by_name.
      destruct (find _ (SystemArchitecture.components a)) as [d|] eqn:Hfind.
      * cbv [update_component modify]. reflexivity.
      * cbv [mret ArchM_ret]. rewrite (update_first_none w _ _ Hfind).
        rewrite set_components_same. reflexivity.
    + cbv [mret ArchM_ret].
      assert (Hid : forall cs, update_first w (fun c => c) cs = cs).
      { induction cs as [|c cs IH]; [reflexivity|]. cbn.
        rewrite IH. destruct (bool_decide _); reflexivity. }
      rewrite Hid, set_components_same. reflexivity.
Qed.

Lemma auto_fix_single (issue w : string) (a : SystemArchitecture.t) :
  second_token issue = Ok w ->
  exec (_auto_fix_architecture_issues [issue]) a
  = SystemArchitecture.set_components
      (update_first w (repair_of issue) (SystemArchitecture.components a)) a.
Proof.
  intros Htok. unfold _auto_fix_architecture_issues. cbn [for_each].
  rewrite exec_bind, (fix_issue_exec issue w a Htok). reflexivity.
Qed.

(** The second word of either issue message about a component. *)
Lemma issue_second_token (n issue : string) :
  has_nonspace n = true ->
  issue = no_responsibilities_issue n \/ issue = no_type_issue n ->
  second_token issue = Ok (first_word n)
  /\ has_space (first_word n) = false.
Proof.
  intros Hn [-> | ->]; unfold second_token.
  - destruct (second_word_of_issue n "has no responsibilities" " ")
      as [Hw Hs]; [reflexivity | exact Hn |].
    unfold no_responsibilities_issue.
    change (" has no responsibilities")
      with (String " " "has no responsibilities").
    rewrite Hw. split; [reflexivity | exact Hs].
  - destruct (second_word_of_issue n "has no type" " ")
      as [Hw Hs]; [reflexivity | exact Hn |].
    unfold no_type_issue.
    change (" has no type") with (String " " "has no type").
    rewrite Hw. split; [reflexivity | exact Hs].
Qed.

End AutoFixFacts.

Section ObjectFacts.

(** One iteration of auto-fix on the objects, for an issue it reacts to and
    whose second word is [w]: the first listed object named [w], if any, is
    assigned to. *)
Lemma objects_fix_issue_exec (issue w : string) (o : Objects.t) :
  ArchitectureService.second_token issue = Ok w ->
  PyStr.contains "has no responsibilities" issue = true
  \/ PyStr.contains "has no type" issue = true ->
  Objects.fix_issue issue o
  = (Ok tt,
     match Objects.get_component_by_name o w with
     | Some r => Objects.assign r (repair_of issue) o
     | None => o
     end).
Proof.
  intros Htok Hphrase. unfold Objects.fix_issue, repair_of. rewrite Htok.
  destruct (PyStr.contains "has no responsibilities" issue).
  - destruct (Objects.get_component_by_name o w); reflexivity.
  - destruct Hphrase as [H|H]; [discriminate H|]. rewrite H.
    destruct (Objects.get_component_by_name o w); reflexivity.
Qed.

(** The object found by name is in the heap and has that name. *)
Lemma objects_get_named (o : Objects.t) (w : string) (r : nat) :
  Objects.get_component_by_name o w = Some r ->
  r ∈ Objects.components o
  /\ exists d, Objects.heap o !! r = Some d /\ SystemComponent.name d = w.
Proof.
  unfold Objects.get_component_by_name. intros H.
  apply find_some in H as [Hin Hname].
  split; [apply list_elem_of_In; exact Hin|].
  apply bool_decide_eq_true in Hname.
  destruct (Objects.heap o !! r) as [d|]; [|discriminate Hname].
  exists d. split; [reflexivity|]. cbn in Hname. congruence.
Qed.

Lemma alter_found (h : gmap nat SystemComponent.t) (r : nat)
    (f : SystemComponent.t -> SystemComponent.t) (d : SystemComponent.t) :
  h !! r = Some d -> alter f r h = <[r := f d]> h.
Proof.
  intros Hd. apply map_eq. intros i. destruct (decide (i = r)) as [->|Hne].
  - rewrite lookup_alter_eq, lookup_insert_eq, Hd. reflexivity.
  - rewrite lookup_alter_ne, lookup_insert_ne by congruence. reflexivity.
Qed.

End ObjectFacts.

(** C10: auto-fix names the object to repair by the second
    whitespace-separated word of the issue message.  For a component whose
    name contains whitespace (and, as the constructor requires, is not
    blank), that word is the first word of the name and differs from the
    name; so on the issue "Component <name> has no responsibilities" (or "has
    no type") auto-fix returns without raising; the list of components, that
    component and every object under another name than that word stay as
    they were.  If no listed object is named by that word nothing changes at
    all.  Otherwise the first listed object so named, another object, is the
    one assigned to: its responsibilities become
    ["Handle <its type> operations"] when the message contains "has no
    responsibilities", and its type becomes "service" otherwise, all its
    other fields unchanged. *)
Theorem auto_fix_repairs_first_word_of_name
    (o : Objects.t) (rc : nat) (c : SystemComponent.t) (issue : string) :
  rc ∈ Objects.components o ->
  Objects.heap o !! rc = Some c ->
  PyStr.truthy (PyStr.strip (SystemComponent.name c)) = true ->
  has_space (SystemComponent.name c) = true ->
  issue = no_responsibilities_issue (SystemComponent.name c)
  \/ issue = no_type_issue (SystemComponent.name c) ->
  let w := first_word (SystemComponent.name c) in
  exists o',
    Objects._auto_fix_architecture_issues [issue] o = (Ok tt, o')
    /\ ArchitectureService.second_token issue = Ok w
    /\ w <> SystemComponent.name c
    /\ Objects.components o' = Objects.components o
    /\ Objects.heap o' !! rc = Some c
    /\ (forall r x, Objects.heap o !! r = Some x ->
                    SystemComponent.name x <> w ->
                    Objects.heap o' !! r = Some x)
    /\ (Objects.get_component_by_name o w = None -> o' = o)
    /\ (forall rd, Objects.get_component_by_name o w = Some rd ->
         exists d,
           Objects.heap o !! rd = Some d
           /\ rd <> rc
           /\ SystemComponent.name d = w
           /\ Objects.heap o'
              = <[rd :=
                    if PyStr.contains "has no responsibilities" issue
                    then SystemComponent.mk
                           (SystemComponent.name d)
                           (SystemComponent.component_type d)
                           ["Handle " +:+ SystemComponent.component_type d
                            +:+ " operations"]
                           (SystemComponent.interfaces d)
                           (SystemComponent.dependencies d)
                    else SystemComponent.mk
                           (SystemComponent.name d) "service"
                           (SystemComponent.responsibilities d)
                           (SystemComponent.interfaces d)
                           (SystemComponent.dependencies d)]>
                  (Objects.heap o))
    /\ (issue = no_responsibilities_issue (SystemComponent.name c) ->
        PyStr.contains "has no responsibilities" issue = true).
Proof.
  intros Hin Hc Hblank Hspace Hissue w.
  rewrite truthy_strip in Hblank.
  destruct (issue_second_token _ issue Hblank Hissue) as [Htok Hw].
  fold w in Htok, Hw.
  assert (Hne : w <> SystemComponent.name c).
  { intros Heq. rewrite Heq, Hspace in Hw. discriminate Hw. }
  assert (Hphrase : PyStr.contains "has no responsibilities" issue = true
                    \/ PyStr.contains "has no type" issue = true).
  { destruct Hissue as [-> | ->];
      [left; apply no_responsibilities_issue_matches
      |right; apply no_type_issue_matches]. }
  cbn [Objects._auto_fix_architecture_issues].
  rewrite (objects_fix_issue_exec issue w o Htok Hphrase).
  eexists. split; [reflexivity|].
  split; [exact Htok|]. split; [exact Hne|].
  destruct (Objects.get_component_by_name o w) as [rd|] eqn:Hget.
  - destruct (objects_get_named o w rd Hget) as (_ & d & Hd & Hname).
    assert (Hrd : rd <> rc).
    { intros ->. rewrite Hc in Hd. injection Hd as <-. congruence. }
    cbn [Objects.assign Objects.components Objects.heap].
    split; [reflexivity|]. split; [|split; [|split; [|split]]].
    + rewrite lookup_alter_ne by exact Hrd. exact Hc.
    + intros r x Hr Hx. rewrite lookup_alter_ne; [exact Hr|].
      intros ->. rewrite Hd in Hr. injection Hr as <-. contradiction.
    + discriminate.
    + intros rd' [= <-]. exists d.
      split; [exact Hd|]. split; [exact Hrd|]. split; [exact Hname|].
      rewrite (alter_found _ _ _ d Hd). unfold repair_of.
      destruct (PyStr.contains "has no responsibilities" issue);
        [reflexivity|].
      destruct Hphrase as [H|H]; [discriminate H|]. rewrite H. reflexivity.
    + intros ->. apply no_responsibilities_issue_matches.
  - split; [reflexivity|]. split; [exact Hc|]. split; [|split; [|split]].
    + intros r x Hr _. exact Hr.
    + reflexivity.
    + discriminate.
    + intros ->. apply no_responsibilities_issue_matches.
Qed.

Lemma auto_fix_repairs_first_word_of_name_witness :
  (exists o',
     Objects._auto_fix_architecture_issues
       [no_type_issue "User Service"] two_users_objects = (Ok tt, o')
     /\ Objects.listed o'
        = [ user_service;
            SystemComponent.mk "User" "service" ["Hold user data"] [] [] ])
  /\ (exists o',
        Objects._auto_fix_architecture_issues
          [no_responsibilities_issue "User Service"] shared_user_objects
        = (Ok tt, o')
        /\ Objects.listed o'
           = [ user_service;
               SystemComponent.mk "User" "model" ["Handle model operations"]
                 [] [];
               SystemComponent.mk "User" "model" ["Handle model operations"]
                 [] [] ]).
Proof.
  split.
  - destruct (auto_fix_repairs_first_word_of_name two_users_objects 0
                user_service (no_type_issue "User Service"))
      as (o' & Hrun & _ & _ & Hrefs & _ & _ & _ & Hfix & _).
    + apply (bool_decide_unpack _). vm_compute. exact I.
    + reflexivity.
    + vm_compute. reflexivity.
    + vm_compute. reflexivity.
    + right. reflexivity.
    + exists o'. split; [exact Hrun|].
      destruct (Hfix 1) as (d & Hd & _ & _ & Hheap); [reflexivity|].
      vm_compute in Hd. injection Hd as <-.
      unfold Objects.listed. rewrite Hrefs, Hheap. vm_compute. reflexivity.
  - destruct (auto_fix_repairs_first_word_of_name shared_user_objects 0
                user_service (no_responsibilities_issue "User Service"))
      as (o' & Hrun & _ & _ & Hrefs & _ & _ & _ & Hfix & _).
    + apply (bool_decide_unpack _). vm_compute. exact I.
    + reflexivity.
    + vm_compute. reflexivity.
    + vm_compute. reflexivity.
    + left. reflexivity.
    + exists o'. split; [exact Hrun|].
      destruct (Hfix 1) as (d & Hd & _ & _ & Hheap); [reflexivity|].
      vm_compute in Hd. injection Hd as <-.
      unfold Objects.listed. rewrite Hrefs, Hheap. vm_compute. reflexivity.
Defined.

(** ** Optimization *)

Section OptimizerRuns.

Import ArchitectureService.

Lemma ensure_run (test : SystemComponent.t -> bool) (c : SystemComponent.t)
    (a : SystemArchitecture.t) :
  SystemComponent.make c = Ok c ->
  ensure test c a
  = (Ok tt,
     SystemArchitecture.set_components
       (ensure_list test c (SystemArchitecture.components a)) a).
Proof.
  intros Hmake. unfold ensure, ensure_list.
  cbv [mbind ArchM_bind reads lift]. rewrite Hmake.
  destruct (existsb test (SystemArchitecture.components a)).
  - cbv [mret ArchM_ret]. rewrite set_components_same. reflexivity.
  - reflexivity.
Qed.

Lemma performance_run (a : SystemArchitecture.t) :
  _optimize_for_performance a
  = (Ok tt,
     SystemArchitecture.set_components
       (performance_list (SystemArchitecture.components a)) a).
Proof.
  unfold _optimize_for_performance, performance_list, service_count.
  unfold mbind at 1. unfold ArchM_bind.
  rewrite ensure_run by reflexivity.
  cbv [mbind ArchM_bind reads]. cbn [SystemArchitecture.components
    SystemArchitecture.set_components].
  destruct (1 <? _).
  - rewrite ensure_run by reflexivity. destruct a; reflexivity.
  - reflexivity.
Qed.

Lemma scalability_run (a : SystemArchitecture.t) :
  _optimize_for_scalability a
  = (Ok tt,
     SystemArchitecture.set_components
       (scalability_list (SystemArchitecture.components a))
       (SystemArchitecture.set_patterns
          (optimize_patterns true (SystemArchitecture.patterns a)) a)).
Proof.
  unfold _optimize_for_scalability, scalability_list, optimize_patterns.
  cbv [mbind ArchM_bind reads].
  destruct (mem "microservices" (SystemArchitecture.patterns a)).
  - cbv [mret ArchM_ret]. rewrite ensure_run by reflexivity.
    destruct a; reflexivity.
  - cbv [append_pattern modify]. rewrite ensure_run by reflexivity.
    reflexivity.
Qed.

Lemma security_run (a : SystemArchitecture.t) :
  _optimize_for_security a
  = (Ok tt,
     SystemArchitecture.set_components
       (security_list (SystemArchitecture.components a)) a).
Proof.
  unfold _optimize_for_security, security_list.
  unfold mbind, ArchM_bind. rewrite ensure_run by reflexivity.
  rewrite ensure_run by reflexivity. destruct a; reflexivity.
Qed.

(** Optimization never raises; its effect on the architecture is
    [optimized]. *)
Lemma optimize_run (r : SystemRequirements.t) (a : SystemArchitecture.t) :
  _optimize_architecture r a
  = (Ok tt,
     optimized (flag (SystemRequirements.quality_attributes r) "performance")
       (flag (SystemRequirements.quality_attributes r) "scalability")
       (flag (SystemRequirements.quality_attributes r) "security") a).
Proof.
  unfold _optimize_architecture, optimized, optimize_list.
  unfold mbind, ArchM_bind.
  destruct (flag _ "performance"), (flag _ "scalability"),
    (flag _ "security");
    repeat (rewrite ?performance_run, ?scalability_run, ?security_run;
            cbv beta iota; cbv [mret ArchM_ret]);
    destruct a; reflexivity.
Qed.

End OptimizerRuns.

Section OptimizerFacts.

Import ArchitectureService.

Implicit Types (test t : SystemComponent.t -> bool) (c : SystemComponent.t)
  (cs : list SystemComponent.t).

Lemma existsb_ensure_self test c cs :
  test c = true -> existsb test (ensure_list test c cs) = true.
Proof.
  intros Hc. unfold ensure_list. destruct (existsb test cs) eqn:He;
    [exact He|].
  rewrite existsb_app. cbn. rewrite Hc. apply orb_true_r.
Qed.

Lemma existsb_ensure_mono t test c cs :
  existsb t cs = true -> existsb t (ensure_list test c cs) = true.
Proof.
  intros Ht. unfold ensure_list. destruct (existsb test cs); [exact Ht|].
  rewrite existsb_app, Ht. reflexivity.
Qed.

Lemma ensure_noop test c cs :
  existsb test cs = true -> ensure_list test c cs = cs.
Proof. intros H. unfold ensure_list. rewrite H. reflexivity. Qed.

Lemma count_of_ensure t test c cs :
  count_of t (ensure_list test c cs)
  = count_of t cs
    + (if existsb test cs then 0 else if t c then 1 else 0).
Proof.
  unfold count_of, ensure_list. destruct (existsb test cs); [lia|].
  rewrite List.filter_app, length_app. cbn. destruct (t c); reflexivity.
Qed.

Lemma service_count_ensure test c cs :
  has_type "service" c = false ->
  service_count (ensure_list test c cs) = service_count cs.
Proof.
  intros Hc. unfold service_count.
  change (length (List.filter (has_type "service") ?l))
    with (count_of (has_type "service") l).
  rewrite count_of_ensure, Hc. destruct (existsb test cs); lia.
Qed.

(** *** What each pass guarantees and preserves *)

Lemma performance_mono t cs :
  existsb t cs = true -> existsb t (performance_list cs) = true.
Proof.
  intros H. unfold performance_list.
  destruct (1 <? _); repeat apply existsb_ensure_mono; exact H.
Qed.

Lemma scalability_mono t cs :
  existsb t cs = true -> existsb t (scalability_list cs) = true.
Proof. apply existsb_ensure_mono. Qed.

Lemma security_mono t cs :
  existsb t cs = true -> existsb t (security_list cs) = true.
Proof.
  intros H. unfold security_list. repeat apply existsb_ensure_mono. exact H.
Qed.

Lemma performance_has_cache cs :
  existsb (has_type "cache") (performance_list cs) = true.
Proof.
  unfold performance_list.
  destruct (1 <? _); [apply existsb_ensure_mono|];
    apply existsb_ensure_self; reflexivity.
Qed.

Lemma scalability_has_queue cs :
  existsb (has_type "message_queue") (scalability_list cs) = true.
Proof. apply existsb_ensure_self. reflexivity. Qed.

Lemma security_has_auth cs :
  existsb has_auth_name (security_list cs) = true.
Proof.
  unfold security_list. apply existsb_ensure_mono, existsb_ensure_self.
  vm_compute. reflexivity.
Qed.

Lemma security_has_gateway cs :
  existsb (has_type "api_gateway") (security_list cs) = true.
Proof. apply existsb_ensure_self. reflexivity. Qed.

Create HintDb optimizer.
#[local] Hint Resolve performance_mono scalability_mono security_mono
  performance_has_cache scalability_has_queue security_has_auth
  security_has_gateway : optimizer.

(** After one optimization every requested component is present. *)
Lemma settled_after_optimize (p s x : bool) cs :
  settled p s x (optimize_list p s x cs) = true.
Proof.
  unfold settled, optimize_list.
  destruct p, s, x; cbn [negb orb andb];
    repeat (apply andb_true_intro; split); auto with optimizer.
Qed.

(** *** Passes on a settled architecture *)

Lemma performance_settled cs :
  existsb (has_type "cache") cs = true ->
  performance_list cs = cs ++ late_load_balancer true cs.
Proof.
  intros Hc. unfold performance_list, late_load_balancer.
  rewrite (ensure_noop _ _ _ Hc). cbn [andb].
  destruct (1 <? service_count cs); cbn [andb].
  - unfold ensure_list. destruct (existsb (has_type "load_balancer") cs);
      cbn [negb]; [rewrite app_nil_r|]; reflexivity.
  - rewrite app_nil_r. reflexivity.
Qed.

Lemma scalability_settled cs :
  existsb (has_type "message_queue") cs = true -> scalability_list cs = cs.
Proof. apply ensure_noop. Qed.

Lemma security_settled cs :
  existsb has_auth_name cs = true ->
  existsb (has_type "api_gateway") cs = true ->
  security_list cs = cs.
Proof.
  intros Ha Hg. unfold security_list.
  rewrite (ensure_noop has_auth_name _ _ Ha). apply ensure_noop, Hg.
Qed.

Lemma existsb_app_l t cs cs' :
  existsb t cs = true -> existsb t (cs ++ cs') = true.
Proof. intros H. rewrite existsb_app, H. reflexivity. Qed.

(** On a settled architecture, optimization can only add the load balancer
    that the first run came too early to add. *)
Lemma optimize_settled (p s x : bool) cs :
  settled p s x cs = true ->
  optimize_list p s x cs = cs ++ late_load_balancer p cs.
Proof.
  unfold settled, optimize_list. intros H.
  apply andb_prop in H as [H Hx]. apply andb_prop in H as [Hp Hs].
  assert (Hperf : (if p then performance_list cs else cs)
                  = cs ++ late_load_balancer p cs).
  { destruct p; [apply performance_settled; exact Hp|].
    cbn. rewrite app_nil_r. reflexivity. }
  rewrite Hperf.
  assert (Hscal : (if s then scalability_list (cs ++ late_load_balancer p cs)
                   else cs ++ late_load_balancer p cs)
                  = cs ++ late_load_balancer p cs).
  { destruct s; [|reflexivity].
    apply scalability_settled, existsb_app_l. exact Hs. }
  rewrite Hscal.
  destruct x; [|reflexivity]. cbn [negb orb] in Hx.
  apply andb_prop in Hx as [Ha Hg].
  apply security_settled; apply existsb_app_l; assumption.
Qed.

Lemma late_load_balancer_balanced (p : bool) cs :
  balanced p cs = true -> late_load_balancer p cs = [].
Proof.
  unfold balanced, late_load_balancer.
  destruct p, (1 <? service_count cs), (existsb (has_type "load_balancer") cs);
    cbn; intros H; try reflexivity; discriminate H.
Qed.

Lemma settled_with_load_balancer (p s x : bool) cs :
  settled p s x cs = true ->
  settled p s x (cs ++ late_load_balancer p cs) = true.
Proof.
  unfold settled. intros H.
  apply andb_prop in H as [H Hx]. apply andb_prop in H as [Hp Hs].
  repeat (apply andb_true_intro; split).
  - destruct p; [|reflexivity]. apply existsb_app_l. exact Hp.
  - destruct s; [|reflexivity]. apply existsb_app_l. exact Hs.
  - destruct x; [|reflexivity]. cbn [negb orb] in *.
    apply andb_prop in Hx as [Ha Hg].
    apply andb_true_intro. split; apply existsb_app_l; assumption.
Qed.

Lemma balanced_with_load_balancer (p : bool) cs :
  balanced p (cs ++ late_load_balancer p cs) = true.
Proof.
  unfold balanced, late_load_balancer.
  destruct p; [|reflexivity]. cbn [negb orb andb].
  destruct (1 <? service_count cs) eqn:Hn; cbn [andb].
  - destruct (existsb (has_type "load_balancer") cs) eqn:Hl; cbn [negb].
    + rewrite app_nil_r, Hl. apply orb_true_r.
    + rewrite existsb_app. cbn. rewrite !orb_true_r. reflexivity.
  - rewrite app_nil_r, Hn. reflexivity.
Qed.

(** Without the security pass, the load-balancer decision of the
    performance pass is still right at the end of the run. *)
Lemma balanced_after_optimize (p s x : bool) cs :
  p && x = false -> balanced p (optimize_list p s x cs) = true.
Proof.
  intros Hpx. destruct p; [|reflexivity]. cbn in Hpx. subst x.
  unfold optimize_list.
  assert (Hperf : balanced true (performance_list cs) = true).
  { unfold balanced, performance_list. cbn [negb orb].
    destruct (1 <? service_count (ensure_list _ _ cs)) eqn:Hn.
    - rewrite existsb_ensure_self by reflexivity. apply orb_true_r.
    - rewrite Hn. reflexivity. }
  destruct s; [|exact Hperf].
  unfold balanced in *. cbn [negb orb] in *.
  unfold scalability_list.
  rewrite service_count_ensure by reflexivity.
  apply orb_true_iff in Hperf as [Hn|Hl]; [rewrite Hn; reflexivity|].
  rewrite (existsb_ensure_mono _ _ _ _ Hl). apply orb_true_r.
Qed.

(** Appending never adds a second component to an existence test that
    already holds. *)
Lemma count_of_ensure_le t test c cs :
  t c = false \/ (forall l, existsb test l = false -> count_of t l = 0) ->
  count_of t (ensure_list test c cs) <= Nat.max 1 (count_of t cs).
Proof.
  intros H. rewrite count_of_ensure.
  destruct (existsb test cs) eqn:He; [lia|].
  destruct H as [-> | H]; [lia|].
  rewrite (H cs He). destruct (t c); cbn; lia.
Qed.

Lemma count_of_zero t cs : existsb t cs = false -> count_of t cs = 0.
Proof.
  unfold count_of. induction cs as [|c cs IH]; cbn; [reflexivity|].
  destruct (t c); cbn; [discriminate | exact IH].
Qed.

End OptimizerFacts.

Section OptimizerTheorems.

Import ArchitectureService.

Lemma count_chain (t test : SystemComponent.t -> bool)
    (c : SystemComponent.t) (cs0 cs1 : list SystemComponent.t) :
  count_of t cs1 <= Nat.max 1 (count_of t cs0) ->
  t c = false \/ t = test ->
  count_of t (ensure_list test c cs1) <= Nat.max 1 (count_of t cs0).
Proof.
  intros Hle Hside.
  assert (Hstep : count_of t (ensure_list test c cs1)
                  <= Nat.max 1 (count_of t cs1)).
  { apply count_of_ensure_le. destruct Hside as [Hc | <-]; [left; exact Hc|].
    right. intros l. apply count_of_zero. }
  lia.
Qed.

(** No existence test of the optimizer gains a second match. *)
Lemma optimize_no_duplicates (p s x : bool) (cs : list SystemComponent.t) :
  Forall (fun t => count_of t (optimize_list p s x cs)
                   <= Nat.max 1 (count_of t cs)) canonical_tests.
Proof.
  unfold canonical_tests, optimize_list, performance_list, scalability_list,
    security_list.
  repeat apply Forall_cons_2; try apply Forall_nil_2;
    destruct p, s, x; try destruct (1 <? _);
    repeat (apply count_chain;
            [| first [ left; vm_compute; reflexivity
                     | right; reflexivity ] ]);
    lia.
Qed.

Lemma optimize_patterns_idempotent (s : bool) (ps : list string) :
  optimize_patterns s (optimize_patterns s ps) = optimize_patterns s ps.
Proof.
  unfold optimize_patterns. destruct s; [|reflexivity].
  destruct (mem "microservices" ps) eqn:Hm; [rewrite Hm; reflexivity|].
  unfold mem. rewrite existsb_app. cbn. rewrite orb_true_r. reflexivity.
Qed.

Lemma optimized_fixed (p s x : bool) (a : SystemArchitecture.t) :
  optimize_list p s x (SystemArchitecture.components a)
  = SystemArchitecture.components a ->
  optimize_patterns s (SystemArchitecture.patterns a)
  = SystemArchitecture.patterns a ->
  optimized p s x a = a.
Proof.
  destruct a. unfold optimized. cbn. intros -> ->. reflexivity.
Qed.

(** A settled and balanced component list is a fixed point. *)
Lemma optimize_list_fixed (p s x : bool) (cs : list SystemComponent.t) :
  settled p s x cs = true -> balanced p cs = true ->
  optimize_list p s x cs = cs.
Proof.
  intros Hs Hb. rewrite (optimize_settled p s x cs Hs).
  rewrite (late_load_balancer_balanced p cs Hb). apply app_nil_r.
Qed.

Lemma exec_optimize (r : SystemRequirements.t) (a : SystemArchitecture.t) :
  exec (_optimize_architecture r) a
  = optimized (flag (SystemRequirements.quality_attributes r) "performance")
      (flag (SystemRequirements.quality_attributes r) "scalability")
      (flag (SystemRequirements.quality_attributes r) "security") a.
Proof. unfold exec. rewrite optimize_run. reflexivity. Qed.

End OptimizerTheorems.

(** Optimizing twice is not optimizing once: with the performance and the
    security flag set, a first optimization of an architecture with one
    service adds the authentication service after the load-balancer
    decision; the second optimization then sees two services and appends a
    load balancer. *)
Lemma optimize_twice_differs :
  ~ (forall (r : SystemRequirements.t) (a : SystemArchitecture.t),
       SystemArchitecture.components
         (exec (ArchitectureService._optimize_architecture r)
            (exec (ArchitectureService._optimize_architecture r) a))
       = SystemArchitecture.components
           (exec (ArchitectureService._optimize_architecture r) a)).
Proof.
  intros H. specialize (H fast_and_secure single_service_architecture).
  vm_compute in H. discriminate H.
Qed.

(** How far the runs can differ: a third run changes nothing, and a second
    run changes nothing either unless the performance and the security flag
    are both set; all it can ever add is the one load balancer that the
    first run decided on before its security pass added a service.  No run
    gives an existence test of the optimizer (cache, load balancer, message
    queue, auth, api gateway) a second matching component. *)
Theorem optimize_settles_after_two_runs
    (r : SystemRequirements.t) (a : SystemArchitecture.t) :
  let o := exec (ArchitectureService._optimize_architecture r) in
  let p := flag (SystemRequirements.quality_attributes r) "performance" in
  let x := flag (SystemRequirements.quality_attributes r) "security" in
  o (o (o a)) = o (o a)
  /\ (p && x = true \/ o (o a) = o a)
  /\ SystemArchitecture.components (o (o a))
     = SystemArchitecture.components (o a)
       ++ late_load_balancer p (SystemArchitecture.components (o a))
  /\ SystemArchitecture.patterns (o (o a)) = SystemArchitecture.patterns (o a)
  /\ Forall (fun t => count_of t (SystemArchitecture.components (o a))
                      <= Nat.max 1
                           (count_of t (SystemArchitecture.components a)))
            canonical_tests.
Proof.
  intros o p x. subst o.
  rewrite !exec_optimize. fold p x.
  set (s := flag (SystemRequirements.quality_attributes r) "scalability").
  set (cs := SystemArchitecture.components a).
  pose proof (settled_after_optimize p s x cs) as Hset.
  pose proof (optimize_settled p s x _ Hset) as Hsecond.
  split; [|split; [|split; [|split]]].
  - apply optimized_fixed.
    + cbn [optimized SystemArchitecture.components]. fold cs.
      rewrite Hsecond. apply optimize_list_fixed.
      * apply settled_with_load_balancer, Hset.
      * apply balanced_with_load_balancer.
    + cbn [optimized SystemArchitecture.patterns].
      apply optimize_patterns_idempotent.
  - destruct (p && x) eqn:Hpx; [left; reflexivity | right].
    apply optimized_fixed.
    + cbn [optimized SystemArchitecture.components]. fold cs.
      apply optimize_list_fixed; [exact Hset|].
      apply balanced_after_optimize, Hpx.
    + cbn [optimized SystemArchitecture.patterns].
      apply optimize_patterns_idempotent.
  - cbn [optimized SystemArchitecture.components]. fold cs. exact Hsecond.
  - cbn [optimized SystemArchitecture.patterns].
    apply optimize_patterns_idempotent.
  - cbn [optimized SystemArchitecture.components]. fold cs.
    apply optimize_no_duplicates.
Qed.

(** The first and the second run on the one-service architecture. *)
Example optimize_single_service_runs :
  map SystemComponent.name
    (SystemArchitecture.components
       (exec (ArchitectureService._optimize_architecture fast_and_secure)
          single_service_architecture))
  = ["OrderService"; "CacheLayer"; "AuthenticationService"; "APIGateway"]
  /\ map SystemComponent.name
       (SystemArchitecture.components
          (exec (ArchitectureService._optimize_architecture fast_and_secure)
             (exec (ArchitectureService._optimize_architecture fast_and_secure)
                single_service_architecture)))
     = ["OrderService"; "CacheLayer"; "AuthenticationService"; "APIGateway";
        "LoadBalancer"].
Proof. split; vm_compute; reflexivity. Qed.


Section LoadBalancerDecision.

Import ArchitectureService.

Lemma existsb_ensure (t test : SystemComponent.t -> bool)
    (c : SystemComponent.t) (cs : list SystemComponent.t) :
  t c = false ->
  existsb t (ensure_list test c cs) = existsb t cs.
Proof.
  intros Hc. unfold ensure_list. destruct (existsb test cs); [reflexivity|].
  rewrite existsb_app. cbn. rewrite Hc, !orb_false_r. reflexivity.
Qed.

(** One run with the performance and the security flag on an architecture
    with one service, no load balancer and no authentication component. *)
Lemma optimize_one_service (s : bool) (cs : list SystemComponent.t) :
  service_count cs = 1 ->
  existsb (has_type "load_balancer") cs = false ->
  existsb has_auth_name cs = false ->
  service_count (optimize_list true s true cs) = 2
  /\ existsb (has_type "load_balancer") (optimize_list true s true cs) = false.
Proof.
  intros Hone Hlb Hauth. unfold optimize_list.
  assert (Hperf : service_count (performance_list cs) = 1
                  /\ existsb (has_type "load_balancer") (performance_list cs)
                     = false
                  /\ existsb has_auth_name (performance_list cs) = false).
  { unfold performance_list.
    rewrite (service_count_ensure _ cache_component cs) by reflexivity.
    rewrite Hone. cbn [Nat.ltb Nat.leb].
    rewrite service_count_ensure, !existsb_ensure by reflexivity.
    repeat split; assumption. }
  destruct Hperf as (Hone1 & Hlb1 & Hauth1).
  assert (Hscal : service_count
                    (if s then scalability_list (performance_list cs)
                     else performance_list cs) = 1
                  /\ existsb (has_type "load_balancer")
                       (if s then scalability_list (performance_list cs)
                        else performance_list cs) = false
                  /\ existsb has_auth_name
                       (if s then scalability_list (performance_list cs)
                        else performance_list cs) = false).
  { destruct s; [|repeat split; assumption].
    unfold scalability_list.
    rewrite service_count_ensure, !existsb_ensure by reflexivity.
    repeat split; assumption. }
  destruct Hscal as (Hone2 & Hlb2 & Hauth2).
  generalize dependent (if s then scalability_list (performance_list cs)
                        else performance_list cs).
  intros cs2 Hone2 Hlb2 Hauth2. unfold security_list. split.
  - rewrite service_count_ensure by reflexivity.
    unfold service_count in *.
    change (length (List.filter (has_type "service") ?l))
      with (count_of (has_type "service") l) in *.
    rewrite count_of_ensure, Hauth2, Hone2. reflexivity.
  - rewrite !existsb_ensure by reflexivity. exact Hlb2.
Qed.

End LoadBalancerDecision.

(** C4: optimization is not idempotent, by a slip of the code against its
    own rule "add load balancer if multiple services".  With a truthy
    performance and security flag, on every architecture with exactly one
    component of type service, no load balancer and no component whose
    lower-cased name contains auth, one run ends with two components of type
    service and no load balancer: the performance pass decided on the load
    balancer before the security pass appended the AuthenticationService, of
    type service.  A second run with the same flags then appends the
    LoadBalancer, so optimizing twice does not give the components of
    optimizing once. *)
Theorem optimize_decides_load_balancer_too_early
    (r : SystemRequirements.t) (a : SystemArchitecture.t) :
  flag (SystemRequirements.quality_attributes r) "performance" = true ->
  flag (SystemRequirements.quality_attributes r) "security" = true ->
  service_count (SystemArchitecture.components a) = 1 ->
  existsb (ArchitectureService.has_type "load_balancer")
    (SystemArchitecture.components a) = false ->
  existsb ArchitectureService.has_auth_name
    (SystemArchitecture.components a) = false ->
  let o := exec (ArchitectureService._optimize_architecture r) in
  service_count (SystemArchitecture.components (o a)) = 2
  /\ existsb (ArchitectureService.has_type "load_balancer")
       (SystemArchitecture.components (o a)) = false
  /\ SystemArchitecture.components (o (o a))
     = SystemArchitecture.components (o a)
       ++ [ArchitectureService.lb_component]
  /\ SystemArchitecture.components (o (o a))
     <> SystemArchitecture.components (o a).
Proof.
  intros Hp Hx Hone Hlb Hauth o. subst o.
  rewrite !exec_optimize, Hp, Hx.
  set (s := flag (SystemRequirements.quality_attributes r) "scalability").
  cbn [optimized SystemArchitecture.components].
  destruct (optimize_one_service s _ Hone Hlb Hauth) as [Htwo Hnone].
  assert (Hsecond :
            optimize_list true s true
              (optimize_list true s true (SystemArchitecture.components a))
            = optimize_list true s true (SystemArchitecture.components a)
              ++ [ArchitectureService.lb_component]).
  { rewrite (optimize_settled true s true _
               (settled_after_optimize true s true _)).
    unfold late_load_balancer. rewrite Htwo, Hnone. reflexivity. }
  split; [exact Htwo|]. split; [exact Hnone|]. split; [exact Hsecond|].
  rewrite Hsecond. intros Heq.
  apply (f_equal (@length _)) in Heq. rewrite length_app in Heq.
  cbn in Heq. lia.
Qed.

Lemma optimize_decides_load_balancer_too_early_witness :
  let o := exec (ArchitectureService._optimize_architecture fast_and_secure) in
  service_count
    (SystemArchitecture.components (o single_service_architecture)) = 2
  /\ existsb (ArchitectureService.has_type "load_balancer")
       (SystemArchitecture.components (o single_service_architecture))
     = false
  /\ SystemArchitecture.components (o (o single_service_architecture))
     = SystemArchitecture.components (o single_service_architecture)
       ++ [ArchitectureService.lb_component]
  /\ SystemArchitecture.components (o (o single_service_architecture))
     <> SystemArchitecture.components (o single_service_architecture).
Proof.
  apply (optimize_decides_load_balancer_too_early fast_and_secure
           single_service_architecture); reflexivity.
Defined.

(** * Further properties of the services *)

(** ** Component and relationship validation *)

Section ComponentValidationFacts.

Import ArchitectureService.

Lemma component_check_issues (issues : list string) (seen : gset string)
    (c : SystemComponent.t) :
  component_check (issues, seen) c
  = (issues ++ component_issues seen c, seen ∪ {[ SystemComponent.name c ]}).
Proof.
  unfold component_check, component_issues.
  destruct (bool_decide (SystemComponent.name c ∈ seen)),
    (SystemComponent.responsibilities c),
    (negb (PyStr.truthy (SystemComponent.component_type c)));
    cbn [app]; rewrite <- ?app_assoc, ?app_nil_r; reflexivity.
Qed.

Lemma component_issues_nil (seen : gset string) (c : SystemComponent.t) :
  component_issues seen c = []
  <-> ((SystemComponent.name c ∉ seen) /\ complete c).
Proof.
  unfold component_issues, complete. case_bool_decide as Hseen.
  - split; [discriminate | intros [H _]; contradiction].
  - destruct (SystemComponent.responsibilities c) as [|r rs].
    + split; [discriminate | intros (_ & H & _); contradiction].
    + destruct (SystemComponent.component_type c) as [|ch ty]; cbn.
      * split; [discriminate | intros (_ & _ & H); contradiction].
      * split; [intros _|reflexivity].
        split; [exact Hseen | split; discriminate].
Qed.

(** The loop reports nothing exactly when the names are new and distinct and
    every component is complete. *)
Lemma component_loop_clean (cs : list SystemComponent.t)
    (issues : list string) (seen : gset string) :
  fst (fold_left component_check cs (issues, seen)) = []
  <-> (issues = []
       /\ NoDup (map SystemComponent.name cs)
       /\ (forall n, n ∈ map SystemComponent.name cs -> n ∉ seen)
       /\ Forall complete cs).
Proof.
  revert issues seen. induction cs as [|c cs IH]; intros issues seen.
  - cbn. split.
    + intros ->. repeat split; [constructor | | constructor].
      intros n Hn. inversion Hn.
    + intros [-> _]. reflexivity.
  - cbn [fold_left map]. rewrite component_check_issues, IH.
    rewrite NoDup_cons, Forall_cons. split.
    + intros (Happ & Hnd & Hfresh & Hall).
      apply app_eq_nil in Happ as [-> Hc].
      apply component_issues_nil in Hc as [Hseen Hcomplete].
      split; [reflexivity|]. split; [|split].
      * split; [|exact Hnd]. intros Hin.
        apply (Hfresh _ Hin), elem_of_union. right.
        apply elem_of_singleton. reflexivity.
      * intros n Hn. apply elem_of_cons in Hn as [->|Hn]; [exact Hseen|].
        intros Hin. apply (Hfresh n Hn), elem_of_union. left. exact Hin.
      * split; assumption.
    + intros (-> & [Hnotin Hnd] & Hfresh & [Hcomplete Hall]).
      assert (Hseen : SystemComponent.name c ∉ seen)
        by (apply Hfresh; left).
      split; [|split; [exact Hnd | split; [|exact Hall]]].
      * cbn [app]. apply component_issues_nil. split; assumption.
      * intros n Hn Hin. apply elem_of_union in Hin as [Hin|Hin].
        -- apply (Hfresh n); [right; exact Hn | exact Hin].
        -- apply elem_of_singleton in Hin as ->. contradiction.
Qed.

Lemma validate_components_clean (cs : list SystemComponent.t) :
  cs <> [] /\ NoDup (map SystemComponent.name cs) /\ Forall complete cs ->
  _validate_components cs = [].
Proof.
  intros (Hne & Hnd & Hall). unfold _validate_components.
  destruct cs as [|c cs]; [contradiction|].
  apply component_loop_clean.
  split; [reflexivity | split; [exact Hnd | split; [|exact Hall]]].
  intros n _. apply not_elem_of_empty.
Qed.

Lemma responsibility_issues_nil (cs : list SystemComponent.t) :
  Forall complete cs ->
  flat_map EnhancedArchitecturalInference.responsibility_issue cs = [].
Proof.
  induction 1 as [|c cs [Hresp _] _ IH]; [reflexivity|].
  cbn [flat_map].
  unfold EnhancedArchitecturalInference.responsibility_issue at 1.
  destruct (SystemComponent.responsibilities c); [contradiction|].
  exact IH.
Qed.

End ComponentValidationFacts.

(** X1: component validation reports no issue exactly when there is at
    least one component, the component names are pairwise distinct, and
    every component has at least one responsibility and a non-empty type. *)
Theorem validate_components_clean_iff (cs : list SystemComponent.t) :
  ArchitectureService._validate_components cs = []
  <-> cs <> []
      /\ NoDup (map SystemComponent.name cs)
      /\ Forall complete cs.
Proof.
  unfold ArchitectureService._validate_components.
  destruct cs as [|c cs].
  - split; [discriminate | intros [H _]; contradiction].
  - rewrite component_loop_clean. split.
    + intros (_ & Hnd & _ & Hall).
      split; [discriminate | split; assumption].
    + intros (_ & Hnd & Hall).
      split; [reflexivity | split; [exact Hnd | split; [|exact Hall]]].
      intros n _. apply not_elem_of_empty.
Qed.

Section RelationshipValidationFacts.

Import ArchitectureService.

Lemma falsy_false (x : option string) :
  falsy x = false <-> exists s, x = Some s /\ s <> "".
Proof.
  destruct x as [[|ch rest]|]; cbn; split; try discriminate.
  - intros (s & [= <-] & H). contradiction.
  - intros _. eexists. split; [reflexivity | discriminate].
  - intros (s & [= <-] & _). reflexivity.
  - intros (s & H & _). discriminate H.
Qed.

Lemma relationship_issues_nil (names : gset string) (r : gmap string string) :
  relationship_issues names r = []
  <-> exists s t, r !! "source" = Some s /\ r !! "target" = Some t
                  /\ s <> "" /\ t <> "" /\ s ∈ names /\ t ∈ names.
Proof.
  unfold relationship_issues.
  destruct (falsy (r !! "source")) eqn:Hs.
  { cbn [orb]. split; [discriminate|].
    intros (s & t & Hsrc & _ & Hne & _).
    assert (falsy (r !! "source") = false)
      by (apply falsy_false; eauto).
    congruence. }
  destruct (falsy (r !! "target")) eqn:Ht.
  { cbn [orb]. split; [discriminate|].
    intros (s & t & _ & Htgt & _ & Hne & _).
    assert (falsy (r !! "target") = false)
      by (apply falsy_false; eauto).
    congruence. }
  cbn [orb].
  apply falsy_false in Hs as (s & Hsrc & Hsne).
  apply falsy_false in Ht as (t & Htgt & Htne).
  rewrite Hsrc, Htgt. cbn [default from_option id].
  split.
  - intros Happ. apply app_eq_nil in Happ as [H1 H2].
    exists s, t. split; [reflexivity|]. split; [reflexivity|].
    split; [exact Hsne|]. split; [exact Htne|]. split.
    + destruct (decide (s ∈ names)) as [Hin|Hnin]; [exact Hin|].
      rewrite bool_decide_false in H1 by exact Hnin. discriminate H1.
    + destruct (decide (t ∈ names)) as [Hin|Hnin]; [exact Hin|].
      rewrite bool_decide_false in H2 by exact Hnin. discriminate H2.
  - intros (s' & t' & [= <-] & [= <-] & _ & _ & Hsin & Htin).
    rewrite !bool_decide_true by assumption. reflexivity.
Qed.

End RelationshipValidationFacts.

(** X2: relationship validation reports no issue exactly when every
    relationship has a non-empty source and target that are both names of
    components of the architecture. *)
Theorem validate_relationships_clean_iff (a : SystemArchitecture.t) :
  ArchitectureService._validate_relationships a = []
  <-> Forall (well_connected
                (map SystemComponent.name (SystemArchitecture.components a)))
             (SystemArchitecture.relationships a).
Proof.
  unfold ArchitectureService._validate_relationships.
  induction (SystemArchitecture.relationships a) as [|r rs IH].
  - cbn. split; [constructor | reflexivity].
  - cbn [flat_map]. rewrite Forall_cons, <- IH. split.
    + intros Happ. apply app_eq_nil in Happ as [Hr Hrs].
      split; [|exact Hrs].
      apply relationship_issues_nil in Hr
        as (s & t & Hs & Ht & Hsne & Htne & Hsin & Htin).
      exists s, t. rewrite elem_of_list_to_set in Hsin, Htin.
      split; [exact Hs|]. split; [exact Ht|]. split; [exact Hsne|].
      split; [exact Htne|]. split; assumption.
    + intros [(s & t & Hs & Ht & Hsne & Htne & Hsin & Htin) Hrs].
      rewrite Hrs, app_nil_r. apply relationship_issues_nil.
      exists s, t. rewrite !elem_of_list_to_set.
      split; [exact Hs|]. split; [exact Ht|]. split; [exact Hsne|].
      split; [exact Htne|]. split; assumption.
Qed.

(** ** Pattern application *)

Section ApplyPatternFacts.

Import ArchitectureService.

Lemma add_if_missing_run (cfg : ComponentConfig) (a : SystemArchitecture.t) :
  valid_config cfg ->
  (components ← reads SystemArchitecture.components;
   if existsb (named (cfg_name cfg)) components then mret tt
   else component ← lift (component_of_config cfg);
        append_component component) a
  = (Ok tt,
     SystemArchitecture.set_components
       (add_if_missing (SystemArchitecture.components a) cfg) a).
Proof.
  intros Hvalid. unfold add_if_missing.
  cbv [mbind ArchM_bind reads lift]. rewrite Hvalid.
  destruct (existsb _ (SystemArchitecture.components a)).
  - cbv [mret ArchM_ret]. rewrite set_components_same. reflexivity.
  - reflexivity.
Qed.

Lemma add_missing_run (cfgs : list ComponentConfig)
    (a : SystemArchitecture.t) :
  Forall valid_config cfgs ->
  for_each cfgs (fun comp_config =>
    components ← reads SystemArchitecture.components;
    if existsb (named (cfg_name comp_config)) components then mret tt
    else component ← lift (component_of_config comp_config);
         append_component component) a
  = (Ok tt,
     SystemArchitecture.set_components
       (add_missing cfgs (SystemArchitecture.components a)) a).
Proof.
  intros Hvalid. revert a.
  induction Hvalid as [|cfg cfgs Hcfg _ IH]; intros a.
  - cbn. rewrite set_components_same. reflexivity.
  - cbn [for_each]. unfold mbind at 1. unfold ArchM_bind at 1.
    rewrite (add_if_missing_run cfg a Hcfg), IH.
    destruct a; reflexivity.
Qed.

(** The effect of [_apply_pattern] for a pattern of the library whose
    templates are valid. *)
Lemma apply_pattern_run (library : gmap string PatternConfig)
    (pattern : string) (config : PatternConfig) (a : SystemArchitecture.t) :
  library !! pattern = Some config ->
  Forall valid_config (pattern_components config) ->
  _apply_pattern library pattern a = (Ok tt, with_pattern pattern config a).
Proof.
  intros Hlook Hvalid. unfold _apply_pattern, with_pattern.
  rewrite Hlook. cbn [from_option].
  unfold mbind at 1. unfold ArchM_bind at 1.
  rewrite (add_missing_run _ a Hvalid).
  cbv [mbind ArchM_bind extend_relationships modify reads].
  cbn [SystemArchitecture.patterns SystemArchitecture.set_relationships
       SystemArchitecture.set_components SystemArchitecture.components
       SystemArchitecture.relationships].
  destruct (mem pattern (SystemArchitecture.patterns a)).
  - cbv [mret ArchM_ret]. rewrite app_nil_r. destruct a; reflexivity.
  - destruct a; reflexivity.
Qed.

Lemma library_configs_valid (pattern : string) (config : PatternConfig) :
  _load_pattern_library !! pattern = Some config ->
  Forall valid_config (pattern_components config).
Proof.
  intros Hlook. unfold _load_pattern_library in Hlook.
  apply elem_of_list_to_map_2 in Hlook.
  repeat (apply elem_of_cons in Hlook as [Heq|Hlook];
          [injection Heq as _ ->;
           repeat constructor; vm_compute; reflexivity|]).
  apply elem_of_nil in Hlook. destruct Hlook.
Qed.

(** *** The component loop *)

Lemma add_if_missing_app (cs : list SystemComponent.t) (cfg : ComponentConfig) :
  exists added,
    add_if_missing cs cfg = cs ++ added
    /\ (forall c, c ∈ added ->
          c = config_component cfg
          /\ SystemComponent.name c ∉ map SystemComponent.name cs).
Proof.
  unfold add_if_missing.
  destruct (existsb (named (cfg_name cfg)) cs) eqn:Hex.
  - exists []. split; [rewrite app_nil_r; reflexivity|].
    intros c Hc. inversion Hc.
  - exists [config_component cfg]. split; [reflexivity|].
    intros c Hc. apply list_elem_of_singleton in Hc as ->.
    split; [reflexivity|]. cbn. intros Hin.
    apply list_elem_of_fmap in Hin as (c & Hname & Hc).
    assert (existsb (named (cfg_name cfg)) cs = true); [|congruence].
    apply existsb_exists. exists c. split; [apply list_elem_of_In, Hc|].
    unfold named. apply bool_decide_eq_true. symmetry. exact Hname.
Qed.

Lemma add_if_missing_present (cs : list SystemComponent.t)
    (cfg : ComponentConfig) :
  cfg_name cfg ∈ map SystemComponent.name (add_if_missing cs cfg).
Proof.
  unfold add_if_missing.
  destruct (existsb (named (cfg_name cfg)) cs) eqn:Hex.
  - apply existsb_exists in Hex as (c & Hc & Hname).
    apply bool_decide_eq_true in Hname. rewrite <- Hname.
    apply list_elem_of_fmap. exists c.
    split; [reflexivity | apply list_elem_of_In, Hc].
  - rewrite map_app. apply elem_of_app. right. left.
Qed.

Lemma add_missing_app (cfgs : list ComponentConfig)
    (cs : list SystemComponent.t) :
  exists added,
    add_missing cfgs cs = cs ++ added
    /\ (forall c, c ∈ added ->
          (exists cfg, cfg ∈ cfgs /\ c = config_component cfg)
          /\ SystemComponent.name c ∉ map SystemComponent.name cs).
Proof.
  revert cs. induction cfgs as [|cfg cfgs IH]; intros cs.
  - exists []. split; [cbn; rewrite app_nil_r; reflexivity|].
    intros c Hc. inversion Hc.
  - cbn [add_missing fold_left].
    destruct (add_if_missing_app cs cfg) as (first & -> & Hfirst).
    destruct (IH (cs ++ first)) as (rest & Hrest & Hprop).
    fold (add_missing cfgs (cs ++ first)). rewrite Hrest.
    exists (first ++ rest). split; [rewrite app_assoc; reflexivity|].
    intros c Hc. apply elem_of_app in Hc as [Hc|Hc].
    + destruct (Hfirst c Hc) as [-> Hnew]. split; [|exact Hnew].
      exists cfg. split; [left | reflexivity].
    + destruct (Hprop c Hc) as [(cfg' & Hcfg' & ->) Hnew]. split.
      * exists cfg'. split; [right; exact Hcfg' | reflexivity].
      * intros Hin. apply Hnew. rewrite map_app. apply elem_of_app.
        left. exact Hin.
Qed.

Lemma add_missing_keeps_names (cfgs : list ComponentConfig)
    (cs : list SystemComponent.t) (n : string) :
  n ∈ map SystemComponent.name cs ->
  n ∈ map SystemComponent.name (add_missing cfgs cs).
Proof.
  intros Hn. destruct (add_missing_app cfgs cs) as (added & -> & _).
  rewrite map_app. apply elem_of_app. left. exact Hn.
Qed.

Lemma add_missing_present (cfgs : list ComponentConfig)
    (cs : list SystemComponent.t) (cfg : ComponentConfig) :
  cfg ∈ cfgs ->
  cfg_name cfg ∈ map SystemComponent.name (add_missing cfgs cs).
Proof.
  revert cs. induction cfgs as [|cfg' cfgs IH]; intros cs Hcfg;
    [inversion Hcfg|].
  cbn [add_missing fold_left]. fold (add_missing cfgs (add_if_missing cs cfg')).
  apply elem_of_cons in Hcfg as [->|Hcfg].
  - apply add_missing_keeps_names, add_if_missing_present.
  - apply IH, Hcfg.
Qed.

Lemma add_missing_noop (cfgs : list ComponentConfig)
    (cs : list SystemComponent.t) :
  (forall cfg, cfg ∈ cfgs ->
     cfg_name cfg ∈ map SystemComponent.name cs) ->
  add_missing cfgs cs = cs.
Proof.
  induction cfgs as [|cfg cfgs IH]; intros Hall; [reflexivity|].
  cbn [add_missing fold_left]. fold (add_missing cfgs (add_if_missing cs cfg)).
  assert (Hsame : add_if_missing cs cfg = cs).
  { unfold add_if_missing.
    assert (Hex : existsb (named (cfg_name cfg)) cs = true);
      [|rewrite Hex; reflexivity].
    specialize (Hall cfg (list_elem_of_here _ _)).
    apply list_elem_of_fmap in Hall as (c & Hname & Hc).
    apply existsb_exists. exists c. split; [apply list_elem_of_In, Hc|].
    unfold named. apply bool_decide_eq_true. symmetry. exact Hname. }
  rewrite Hsame. apply IH. intros cfg' Hcfg'. apply Hall. right. exact Hcfg'.
Qed.

End ApplyPatternFacts.

(** X3: applying a pattern of the library never raises and only appends:
    the components, relationships and patterns of before stay as a prefix;
    a component is appended for each template of the pattern whose name no
    component carries yet (so afterwards every template name is a component
    name, and no appended component repeats a name of before), all the
    pattern's relationships are appended, and the pattern name is appended
    unless it is already listed. *)
Theorem apply_library_pattern_appends
    (pattern : string) (config : ArchitectureService.PatternConfig)
    (a : SystemArchitecture.t) :
  ArchitectureService._load_pattern_library !! pattern = Some config ->
  exists added,
    ArchitectureService._apply_pattern
      ArchitectureService._load_pattern_library pattern a
    = (Ok tt,
       SystemArchitecture.mk
         (SystemArchitecture.components a ++ added)
         (SystemArchitecture.relationships a
          ++ ArchitectureService.pattern_relationships config)
         (SystemArchitecture.patterns a
          ++ (if ArchitectureService.mem pattern (SystemArchitecture.patterns a)
              then [] else [pattern]))
         (SystemArchitecture.quality_attributes a)
         (SystemArchitecture.technology_stack a)
         (SystemArchitecture.deployment_model a)
         (SystemArchitecture.metadata a))
    /\ (forall cfg, cfg ∈ ArchitectureService.pattern_components config ->
          ArchitectureService.cfg_name cfg
          ∈ map SystemComponent.name (SystemArchitecture.components a ++ added))
    /\ (forall c, c ∈ added ->
          (exists cfg, cfg ∈ ArchitectureService.pattern_components config
                       /\ c = config_component cfg)
          /\ SystemComponent.name c
             ∉ map SystemComponent.name (SystemArchitecture.components a)).
Proof.
  intros Hlook.
  pose proof (library_configs_valid pattern config Hlook) as Hvalid.
  destruct (add_missing_app (ArchitectureService.pattern_components config)
              (SystemArchitecture.components a)) as (added & Hadd & Hprop).
  exists added. split; [|split].
  - rewrite (apply_pattern_run _ pattern config a Hlook Hvalid).
    unfold with_pattern. rewrite Hadd. reflexivity.
  - intros cfg Hcfg. rewrite <- Hadd. apply add_missing_present, Hcfg.
  - exact Hprop.
Qed.

Lemma apply_library_pattern_appends_witness :
  exists added,
    ArchitectureService._apply_pattern
      ArchitectureService._load_pattern_library "mvc" two_users_architecture
    = (Ok tt,
       SystemArchitecture.mk
         (SystemArchitecture.components two_users_architecture ++ added)
         (SystemArchitecture.relationships two_users_architecture
          ++ ArchitectureService.pattern_relationships mvc_config)
         (SystemArchitecture.patterns two_users_architecture
          ++ (if ArchitectureService.mem "mvc"
                   (SystemArchitecture.patterns two_users_architecture)
              then [] else ["mvc"]))
         (SystemArchitecture.quality_attributes two_users_architecture)
         (SystemArchitecture.technology_stack two_users_architecture)
         (SystemArchitecture.deployment_model two_users_architecture)
         (SystemArchitecture.metadata two_users_architecture))
    /\ (forall cfg, cfg ∈ ArchitectureService.pattern_components mvc_config ->
          ArchitectureService.cfg_name cfg
          ∈ map SystemComponent.name
              (SystemArchitecture.components two_users_architecture ++ added))
    /\ (forall c, c ∈ added ->
          (exists cfg, cfg ∈ ArchitectureService.pattern_components mvc_config
                       /\ c = config_component cfg)
          /\ SystemComponent.name c
             ∉ map SystemComponent.name
                 (SystemArchitecture.components two_users_architecture)).
Proof.
  apply (apply_library_pattern_appends "mvc" mvc_config two_users_architecture).
  vm_compute. reflexivity.
Defined.

(** X4: applying the same library pattern a second time adds no component
    and no pattern name, but appends the pattern's relationships once
    more. *)
Theorem apply_library_pattern_twice
    (pattern : string) (config : ArchitectureService.PatternConfig)
    (a : SystemArchitecture.t) :
  ArchitectureService._load_pattern_library !! pattern = Some config ->
  let apply :=
    exec (ArchitectureService._apply_pattern
            ArchitectureService._load_pattern_library pattern) in
  SystemArchitecture.components (apply (apply a))
  = SystemArchitecture.components (apply a)
  /\ SystemArchitecture.patterns (apply (apply a))
     = SystemArchitecture.patterns (apply a)
  /\ SystemArchitecture.relationships (apply (apply a))
     = SystemArchitecture.relationships (apply a)
       ++ ArchitectureService.pattern_relationships config.
Proof.
  intros Hlook apply. subst apply. unfold exec.
  pose proof (library_configs_valid pattern config Hlook) as Hvalid.
  rewrite !(apply_pattern_run _ pattern config _ Hlook Hvalid).
  cbn [snd with_pattern SystemArchitecture.components
       SystemArchitecture.patterns SystemArchitecture.relationships].
  split; [|split].
  - apply add_missing_noop. intros cfg Hcfg.
    apply add_missing_present, Hcfg.
  - assert (Hmem : ArchitectureService.mem pattern
                     (SystemArchitecture.patterns a
                      ++ (if ArchitectureService.mem pattern
                               (SystemArchitecture.patterns a)
                          then [] else [pattern])) = true).
    { unfold ArchitectureService.mem. rewrite existsb_app.
      destruct (existsb _ (SystemArchitecture.patterns a)); [reflexivity|].
      cbn. rewrite bool_decide_true by reflexivity. reflexivity. }
    rewrite Hmem. apply app_nil_r.
  - reflexivity.
Qed.

Lemma apply_library_pattern_twice_witness :
  let apply :=
    exec (ArchitectureService._apply_pattern
            ArchitectureService._load_pattern_library "mvc") in
  SystemArchitecture.components (apply (apply two_users_architecture))
  = SystemArchitecture.components (apply two_users_architecture)
  /\ SystemArchitecture.patterns (apply (apply two_users_architecture))
     = SystemArchitecture.patterns (apply two_users_architecture)
  /\ SystemArchitecture.relationships (apply (apply two_users_architecture))
     = SystemArchitecture.relationships (apply two_users_architecture)
       ++ ArchitectureService.pattern_relationships mvc_config.
Proof.
  apply (apply_library_pattern_twice "mvc" mvc_config two_users_architecture).
  vm_compute. reflexivity.
Defined.

(** ** What optimization adds *)

Section OptimizerAppends.

Import ArchitectureService.

Implicit Types (test t : SystemComponent.t -> bool) (c : SystemComponent.t)
  (cs : list SystemComponent.t).

Lemma ensure_list_app test c cs :
  exists added, ensure_list test c cs = cs ++ added /\ added `sublist_of` [c].
Proof.
  unfold ensure_list. destruct (existsb test cs).
  - exists []. split; [rewrite app_nil_r; reflexivity | apply sublist_nil_l].
  - exists [c]. split; reflexivity.
Qed.

Lemma performance_list_app cs :
  exists added,
    performance_list cs = cs ++ added
    /\ added `sublist_of` [cache_component; lb_component].
Proof.
  unfold performance_list.
  destruct (ensure_list_app (has_type "cache") cache_component cs)
    as (a1 & -> & H1).
  destruct (1 <? service_count (cs ++ a1)).
  - destruct (ensure_list_app (has_type "load_balancer") lb_component
                (cs ++ a1)) as (a2 & -> & H2).
    exists (a1 ++ a2). split; [rewrite app_assoc; reflexivity|].
    apply (sublist_app _ [cache_component] _ [lb_component]); assumption.
  - exists a1. split; [reflexivity|].
    apply (sublist_inserts_r [lb_component] _ [cache_component]), H1.
Qed.

Lemma scalability_list_app cs :
  exists added,
    scalability_list cs = cs ++ added
    /\ added `sublist_of` [queue_component].
Proof. apply ensure_list_app. Qed.

Lemma security_list_app cs :
  exists added,
    security_list cs = cs ++ added
    /\ added `sublist_of` [auth_component; gateway_component].
Proof.
  unfold security_list.
  destruct (ensure_list_app has_auth_name auth_component cs)
    as (a1 & -> & H1).
  destruct (ensure_list_app (has_type "api_gateway") gateway_component
              (cs ++ a1)) as (a2 & -> & H2).
  exists (a1 ++ a2). split; [rewrite app_assoc; reflexivity|].
  apply (sublist_app _ [auth_component] _ [gateway_component]); assumption.
Qed.

(** Every run appends a sublist of the canonical components, in their
    order. *)
Lemma optimize_list_app (p s x : bool) cs :
  exists before after,
    (if s then scalability_list (if p then performance_list cs else cs)
     else (if p then performance_list cs else cs)) = cs ++ before
    /\ before `sublist_of` [cache_component; lb_component; queue_component]
    /\ optimize_list p s x cs = (cs ++ before) ++ after
    /\ after `sublist_of` [auth_component; gateway_component].
Proof.
  unfold optimize_list.
  assert (Hp : exists a1, (if p then performance_list cs else cs) = cs ++ a1
                          /\ a1 `sublist_of` [cache_component; lb_component]).
  { destruct p; [apply performance_list_app|].
    exists []. split; [rewrite app_nil_r; reflexivity | apply sublist_nil_l]. }
  destruct Hp as (a1 & -> & H1).
  assert (Hs : exists a2,
             (if s then scalability_list (cs ++ a1) else cs ++ a1)
             = (cs ++ a1) ++ a2 /\ a2 `sublist_of` [queue_component]).
  { destruct s; [apply scalability_list_app|].
    exists []. split; [rewrite app_nil_r; reflexivity | apply sublist_nil_l]. }
  destruct Hs as (a2 & -> & H2).
  assert (Hx : exists a3,
             (if x then security_list ((cs ++ a1) ++ a2) else (cs ++ a1) ++ a2)
             = ((cs ++ a1) ++ a2) ++ a3
             /\ a3 `sublist_of` [auth_component; gateway_component]).
  { destruct x; [apply security_list_app|].
    exists []. split; [rewrite app_nil_r; reflexivity | apply sublist_nil_l]. }
  destruct Hx as (a3 & -> & H3).
  exists (a1 ++ a2), a3. split; [rewrite app_assoc; reflexivity|].
  split; [|split; [rewrite app_assoc; reflexivity | exact H3]].
  apply (sublist_app _ [cache_component; lb_component] _ [queue_component]);
    assumption.
Qed.

Lemma filter_none_of_sublist t (added allowed : list SystemComponent.t) :
  added `sublist_of` allowed ->
  Forall (fun c => t c = false) allowed ->
  List.filter t added = [].
Proof.
  intros Hsub Hall. apply sublist_subseteq in Hsub.
  assert (Hadded : forall c, c ∈ added -> t c = false).
  { intros c Hc. rewrite Forall_forall in Hall. apply Hall, Hsub, Hc. }
  clear Hsub Hall. induction added as [|c added IH]; [reflexivity|].
  cbn. rewrite (Hadded c) by left. apply IH.
  intros c' Hc'. apply Hadded. right. exact Hc'.
Qed.

Lemma filter_none_of_existsb t cs :
  existsb t cs = false -> List.filter t cs = [].
Proof.
  induction cs as [|c cs IH]; [reflexivity|]. cbn.
  destruct (t c); [discriminate | exact IH].
Qed.

Lemma existsb_of_filter_nil t cs :
  List.filter t cs = [] -> existsb t cs = false.
Proof.
  induction cs as [|c cs IH]; [reflexivity|]. cbn.
  destruct (t c); [discriminate | exact IH].
Qed.

End OptimizerAppends.

(** X5: optimization never raises and only appends: the architecture after
    it has the components of before followed by a sublist of the five
    canonical components (cache, load balancer, message queue,
    authentication service, API gateway, in this order), the pattern list
    of before followed by "microservices" when scalability asks for it and
    it is not listed, and all other fields unchanged. *)
Theorem optimize_only_appends
    (r : SystemRequirements.t) (a : SystemArchitecture.t) :
  exists added,
    ArchitectureService._optimize_architecture r a
    = (Ok tt,
       SystemArchitecture.mk
         (SystemArchitecture.components a ++ added)
         (SystemArchitecture.relationships a)
         (SystemArchitecture.patterns a
          ++ (if flag (SystemRequirements.quality_attributes r) "scalability"
                 && negb (ArchitectureService.mem "microservices"
                            (SystemArchitecture.patterns a))
              then ["microservices"] else []))
         (SystemArchitecture.quality_attributes a)
         (SystemArchitecture.technology_stack a)
         (SystemArchitecture.deployment_model a)
         (SystemArchitecture.metadata a))
    /\ added `sublist_of` canonical_components.
Proof.
  rewrite optimize_run.
  set (p := flag (SystemRequirements.quality_attributes r) "performance").
  set (s := flag (SystemRequirements.quality_attributes r) "scalability").
  set (x := flag (SystemRequirements.quality_attributes r) "security").
  destruct (optimize_list_app p s x (SystemArchitecture.components a))
    as (before & after & _ & Hb & Hlist & Ha).
  exists (before ++ after). split.
  - unfold optimized. rewrite Hlist, <- app_assoc. f_equal. f_equal.
    unfold optimize_patterns.
    destruct s; [|rewrite app_nil_r; reflexivity].
    destruct (ArchitectureService.mem "microservices" _);
      [rewrite app_nil_r|]; reflexivity.
  - apply (sublist_app _
             [ ArchitectureService.cache_component;
               ArchitectureService.lb_component;
               ArchitectureService.queue_component ] _
             [ ArchitectureService.auth_component;
               ArchitectureService.gateway_component ]); assumption.
Qed.

(** X6: with a truthy security flag, optimizing an architecture that has no
    component of type api_gateway leaves exactly one such component, the
    canonical "APIGateway", and a component whose name contains "auth". *)
Theorem optimize_security_adds_one_gateway
    (r : SystemRequirements.t) (a : SystemArchitecture.t) :
  flag (SystemRequirements.quality_attributes r) "security" = true ->
  SystemArchitecture.get_components_by_type a "api_gateway" = [] ->
  let a' := exec (ArchitectureService._optimize_architecture r) a in
  SystemArchitecture.get_components_by_type a' "api_gateway"
  = [ArchitectureService.gateway_component]
  /\ existsb ArchitectureService.has_auth_name
       (SystemArchitecture.components a') = true.
Proof.
  intros Hsec Hnone a'. subst a'. rewrite exec_optimize, Hsec.
  set (p := flag (SystemRequirements.quality_attributes r) "performance").
  set (s := flag (SystemRequirements.quality_attributes r) "scalability").
  unfold SystemArchitecture.get_components_by_type in *.
  cbn [optimized SystemArchitecture.components].
  change (fun c => bool_decide (SystemComponent.component_type c = "api_gateway"))
    with (ArchitectureService.has_type "api_gateway") in *.
  destruct (optimize_list_app p s true (SystemArchitecture.components a))
    as (before & after & Hbefore & Hb & _ & _).
  unfold optimize_list. rewrite Hbefore.
  assert (Hgw : List.filter (ArchitectureService.has_type "api_gateway")
                  (SystemArchitecture.components a ++ before) = []).
  { rewrite List.filter_app, Hnone.
    apply (filter_none_of_sublist _ _ _ Hb).
    repeat constructor. }
  split.
  - unfold security_list, ensure_list at 1.
    assert (Hgw' : existsb (ArchitectureService.has_type "api_gateway")
                     (ensure_list ArchitectureService.has_auth_name
                        ArchitectureService.auth_component
                        (SystemArchitecture.components a ++ before)) = false).
    { apply existsb_of_filter_nil. unfold ensure_list.
      destruct (existsb ArchitectureService.has_auth_name _); [exact Hgw|].
      rewrite List.filter_app, Hgw. reflexivity. }
    rewrite Hgw'. rewrite List.filter_app.
    rewrite (filter_none_of_existsb _ _ Hgw'). reflexivity.
  - apply security_has_auth.
Qed.

Lemma optimize_security_adds_one_gateway_witness :
  let a' := exec (ArchitectureService._optimize_architecture
                    secure_requirements) single_service_architecture in
  SystemArchitecture.get_components_by_type a' "api_gateway"
  = [ArchitectureService.gateway_component]
  /\ existsb ArchitectureService.has_auth_name
       (SystemArchitecture.components a') = true.
Proof.
  apply (optimize_security_adds_one_gateway secure_requirements
           single_service_architecture); vm_compute; reflexivity.
Defined.

(** ** Auto-fix never raises *)

Section TokenFacts.

Lemma prefix_inv (n s : string) :
  String.prefix n s = true -> exists post, s = n +:+ post.
Proof.
  revert s. induction n as [|a n IH]; intros s H.
  - exists s. reflexivity.
  - destruct s as [|b s]; [discriminate H|]. cbn in H.
    destruct (ascii_dec a b) as [->|]; [|discriminate H].
    destruct (IH s H) as [post ->]. exists post. reflexivity.
Qed.

Lemma contains_inv (needle s : string) :
  PyStr.contains needle s = true ->
  exists pre post, s = pre +:+ needle +:+ post.
Proof.
  induction s as [|a s IH]; rewrite contains_unfold; intros H.
  - rewrite orb_false_r in H. apply prefix_inv in H as [post ->].
    exists "", post. reflexivity.
  - apply orb_true_iff in H as [H|H].
    + apply prefix_inv in H as [post ->]. exists "", post. reflexivity.
    + destruct (IH H) as (pre & post & ->).
      exists (String a pre), post. reflexivity.
Qed.

(** The number of words does not depend on which word is being read. *)
Lemma split_go_length_cur (s c1 c2 : string) :
  PyStr.truthy c1 = PyStr.truthy c2 ->
  length (PyStr.split_go c1 s) = length (PyStr.split_go c2 s).
Proof.
  revert c1 c2. induction s as [|a s IH]; intros c1 c2 H;
    cbn [PyStr.split_go].
  - rewrite H. destruct (PyStr.truthy c2); reflexivity.
  - destruct (PyStr.is_space a).
    + rewrite H. destruct (PyStr.truthy c2); reflexivity.
    + apply IH. reflexivity.
Qed.

Lemma split_go_length_le (s cur : string) :
  length (PyStr.split_go "" s) <= length (PyStr.split_go cur s).
Proof.
  destruct s as [|a s]; cbn [PyStr.split_go].
  - cbn. lia.
  - destruct (PyStr.is_space a).
    + destruct (PyStr.truthy cur); cbn; lia.
    + rewrite (split_go_length_cur s (String a "") (String a cur));
        [lia | reflexivity].
Qed.

(** Text in front of a string cannot reduce its number of words. *)
Lemma split_go_length_app (pre s cur : string) :
  length (PyStr.split_go "" s) <= length (PyStr.split_go cur (pre +:+ s)).
Proof.
  revert cur. induction pre as [|a pre IH]; intros cur.
  - rewrite append_nil. apply split_go_length_le.
  - rewrite append_cons. cbn [PyStr.split_go].
    destruct (PyStr.is_space a).
    + destruct (PyStr.truthy cur); cbn [length];
        specialize (IH ""); lia.
    + apply IH.
Qed.

End TokenFacts.

Section AutoFixTotal.

Import ArchitectureService.

(** An issue that auto-fix reacts to has a second word. *)
Lemma second_token_of_fixable (issue : string) :
  PyStr.contains "has no responsibilities" issue = true
  \/ PyStr.contains "has no type" issue = true ->
  exists w, second_token issue = Ok w.
Proof.
  intros H.
  assert (Hlen : 2 <= length (PyStr.split issue)).
  { destruct H as [H|H]; apply contains_inv in H as (pre & post & ->);
      unfold PyStr.split.
    - etransitivity; [|apply split_go_length_app].
      change (PyStr.split_go "" ("has no responsibilities" +:+ post))
        with ("has" :: "no"
              :: PyStr.split_go "seitilibisnopser" post).
      cbn. lia.
    - etransitivity; [|apply split_go_length_app].
      change (PyStr.split_go "" ("has no type" +:+ post))
        with ("has" :: "no" :: PyStr.split_go "epyt" post).
      cbn. lia. }
  unfold second_token.
  destruct (PyStr.split issue !! 1) as [w|] eqn:Hlook; [eauto|].
  apply lookup_ge_None in Hlook. lia.
Qed.

Lemma update_first_identity (w : string) (cs : list SystemComponent.t) :
  update_first w (fun c => c) cs = cs.
Proof.
  induction cs as [|c cs IH]; [reflexivity|]. cbn.
  rewrite IH. destruct (bool_decide _); reflexivity.
Qed.

(** One iteration of auto-fix returns, whatever the issue. *)
Lemma fix_issue_returns (issue : string) (a : SystemArchitecture.t) :
  exists w,
    fix_issue issue a
    = (Ok tt,
       SystemArchitecture.set_components
         (update_first w (repair_of issue) (SystemArchitecture.components a))
         a).
Proof.
  destruct (PyStr.contains "has no responsibilities" issue) eqn:Hr.
  - destruct (second_token_of_fixable issue (or_introl Hr)) as [w Hw].
    exists w. apply fix_issue_exec, Hw.
  - destruct (PyStr.contains "has no type" issue) eqn:Ht.
    + destruct (second_token_of_fixable issue (or_intror Ht)) as [w Hw].
      exists w. apply fix_issue_exec, Hw.
    + exists "". unfold fix_issue, repair_of. rewrite Hr, Ht.
      rewrite update_first_identity, set_components_same. reflexivity.
Qed.

Lemma update_first_map {B} (g : SystemComponent.t -> B) (w : string)
    (f : SystemComponent.t -> SystemComponent.t)
    (cs : list SystemComponent.t) :
  (forall c, g (f c) = g c) ->
  map g (update_first w f cs) = map g cs.
Proof.
  intros Hg. induction cs as [|c cs IH]; [reflexivity|]. cbn.
  destruct (bool_decide _); cbn; [rewrite Hg | rewrite IH]; reflexivity.
Qed.

Lemma repair_keeps_interfaces (issue : string) (c : SystemComponent.t) :
  SystemComponent.interfaces (repair_of issue c) = SystemComponent.interfaces c.
Proof.
  unfold repair_of.
  destruct (PyStr.contains "has no responsibilities" issue); [reflexivity|].
  destruct (PyStr.contains "has no type" issue); reflexivity.
Qed.

Lemma repair_keeps_dependencies (issue : string) (c : SystemComponent.t) :
  SystemComponent.dependencies (repair_of issue c)
  = SystemComponent.dependencies c.
Proof.
  unfold repair_of.
  destruct (PyStr.contains "has no responsibilities" issue); [reflexivity|].
  destruct (PyStr.contains "has no type" issue); reflexivity.
Qed.

Lemma same_shape_refl (s : SystemArchitecture.t) : same_shape s s.
Proof. unfold same_shape. tauto. Qed.

Lemma same_shape_trans (s1 s2 s3 : SystemArchitecture.t) :
  same_shape s1 s2 -> same_shape s2 s3 -> same_shape s1 s3.
Proof.
  unfold same_shape.
  intros (A1 & A2 & A3 & A4 & A5 & A6 & A7 & A8 & A9)
         (B1 & B2 & B3 & B4 & B5 & B6 & B7 & B8 & B9).
  rewrite B1, B2, B3, B4, B5, B6, B7, B8, B9. tauto.
Qed.

Lemma fix_issue_same_shape (issue w : string) (a : SystemArchitecture.t) :
  same_shape a
    (SystemArchitecture.set_components
       (update_first w (repair_of issue) (SystemArchitecture.components a)) a).
Proof.
  unfold same_shape. cbn.
  rewrite !update_first_map;
    [tauto | apply repair_keeps_dependencies | apply repair_keeps_interfaces
     | apply repair_keeps_name].
Qed.

End AutoFixTotal.

Lemma auto_fix_shape (issues : list string) (a : SystemArchitecture.t) :
  exists a',
    ArchitectureService._auto_fix_architecture_issues issues a = (Ok tt, a')
    /\ same_shape a a'.
Proof.
  unfold ArchitectureService._auto_fix_architecture_issues.
  revert a. induction issues as [|issue issues IH]; intros a.
  - exists a. split; [reflexivity | apply same_shape_refl].
  - cbn [for_each]. unfold mbind, ArchM_bind.
    destruct (fix_issue_returns issue a) as [w ->].
    destruct (IH (SystemArchitecture.set_components
                    (update_first w (repair_of issue)
                       (SystemArchitecture.components a)) a))
      as (a' & Ha' & Hshape).
    exists a'. split; [exact Ha'|].
    eapply same_shape_trans; [apply fix_issue_same_shape | exact Hshape].
Qed.

(** X7: auto-fix never raises, whatever the list of issues (an issue it
    reacts to always has a second word), and it changes nothing but the
    responsibilities and types of components: the components keep their
    number, order, names, interfaces and dependencies, and relationships,
    patterns, quality attributes, technology stack and deployment model are
    left as they were. *)
Theorem auto_fix_never_raises
    (issues : list string) (a : SystemArchitecture.t) :
  exists a',
    ArchitectureService._auto_fix_architecture_issues issues a = (Ok tt, a')
    /\ same_shape a a'.
Proof. apply auto_fix_shape. Qed.

(** ** The service entry point never raises *)

Section Returns.

Context (R : SystemArchitecture.t -> SystemArchitecture.t -> Prop).
Hypothesis R_refl : forall s, R s s.
Hypothesis R_trans : forall s1 s2 s3, R s1 s2 -> R s2 s3 -> R s1 s3.

(** A loop whose body always returns, returns. *)
Lemma for_each_returns {A} (xs : list A) (body : A -> ArchM unit) :
  (forall x s, exists s', body x s = (Ok tt, s') /\ R s s') ->
  forall s, exists s', for_each xs body s = (Ok tt, s') /\ R s s'.
Proof.
  intros Hbody. induction xs as [|x xs IH]; intros s.
  - exists s. split; [reflexivity | apply R_refl].
  - cbn [for_each]. unfold mbind, ArchM_bind.
    destruct (Hbody x s) as (s1 & -> & H1).
    destruct (IH s1) as (s2 & -> & H2).
    exists s2. split; [reflexivity | eapply R_trans; eassumption].
Qed.

End Returns.

Section EntryPoint.

Import ArchitectureService.

Lemma not_shrinking_refl (s : SystemArchitecture.t) : not_shrinking s s.
Proof. unfold not_shrinking. lia. Qed.

Lemma not_shrinking_trans (s1 s2 s3 : SystemArchitecture.t) :
  not_shrinking s1 s2 -> not_shrinking s2 s3 -> not_shrinking s1 s3.
Proof. unfold not_shrinking. lia. Qed.

Lemma apply_architectural_patterns_returns (r : SystemRequirements.t)
    (a : SystemArchitecture.t) :
  exists a',
    _apply_architectural_patterns _load_pattern_library r a = (Ok tt, a')
    /\ not_shrinking a a'.
Proof.
  unfold _apply_architectural_patterns.
  apply (for_each_returns _ not_shrinking_refl not_shrinking_trans).
  intros pattern s. case_bool_decide as Hsome.
  - destruct Hsome as [config Hlook].
    rewrite (apply_pattern_run _ pattern config s Hlook
               (library_configs_valid pattern config Hlook)).
    eexists. split; [reflexivity|].
    unfold not_shrinking, with_pattern. cbn.
    destruct (add_missing_app (pattern_components config)
                (SystemArchitecture.components s)) as (added & -> & _).
    rewrite !length_app. lia.
  - exists s. split; [reflexivity | apply not_shrinking_refl].
Qed.

Lemma same_shape_not_shrinking (s s' : SystemArchitecture.t) :
  same_shape s s' -> not_shrinking s s'.
Proof.
  intros (Hnames & _ & _ & _ & Hpat & _). unfold not_shrinking.
  rewrite Hpat. apply (f_equal length) in Hnames.
  rewrite !length_map in Hnames. lia.
Qed.

Lemma optimize_not_shrinking (r : SystemRequirements.t)
    (a : SystemArchitecture.t) :
  exists a', _optimize_architecture r a = (Ok tt, a') /\ not_shrinking a a'.
Proof.
  rewrite optimize_run. eexists. split; [reflexivity|].
  unfold not_shrinking, optimized. cbn.
  destruct (optimize_list_app
              (flag (SystemRequirements.quality_attributes r) "performance")
              (flag (SystemRequirements.quality_attributes r) "scalability")
              (flag (SystemRequirements.quality_attributes r) "security")
              (SystemArchitecture.components a))
    as (before & after & _ & _ & -> & _).
  rewrite !length_app. unfold optimize_patterns.
  destruct (flag _ "scalability"); [|lia].
  destruct (mem "microservices" _); [lia|]. rewrite length_app. lia.
Qed.

Lemma validate_run (library : gmap string PatternConfig)
    (a : SystemArchitecture.t) :
  exists issues,
    validate_architecture_comprehensive library a = (Ok issues, a).
Proof.
  cbv [validate_architecture_comprehensive mbind ArchM_bind reads mret
         ArchM_ret].
  eexists. reflexivity.
Qed.

Lemma refine_architecture_returns (r : SystemRequirements.t)
    (a : SystemArchitecture.t) :
  exists a',
    refine_architecture _load_pattern_library r a = (Ok tt, a')
    /\ not_shrinking a a'.
Proof.
  unfold refine_architecture. unfold mbind, ArchM_bind.
  destruct (apply_architectural_patterns_returns r a) as (a1 & -> & H1).
  destruct (validate_run _load_pattern_library a1) as (issues & ->).
  assert (Hfix : exists a2,
             match issues with
             | [] => mret tt
             | _ :: _ => _auto_fix_architecture_issues issues
             end a1 = (Ok tt, a2) /\ not_shrinking a1 a2).
  { destruct issues as [|i issues].
    - exists a1. split; [reflexivity | apply not_shrinking_refl].
    - destruct (auto_fix_shape (i :: issues) a1) as (a2 & Ha2 & Hshape).
      exists a2. split; [exact Ha2 | apply same_shape_not_shrinking, Hshape]. }
  destruct Hfix as (a2 & -> & H2).
  destruct (optimize_not_shrinking r a2) as (a3 & -> & H3).
  exists a3. split; [reflexivity|].
  eapply not_shrinking_trans; [exact H1|].
  eapply not_shrinking_trans; eassumption.
Qed.

Lemma suggest_patterns_nonempty (r : SystemRequirements.t) :
  EnhancedArchitecturalInference.suggest_patterns r <> [].
Proof.
  unfold EnhancedArchitecturalInference.suggest_patterns.
  assert (Hin : exists p,
             p ∈ EnhancedArchitecturalInference.suggested_list r).
  { unfold EnhancedArchitecturalInference.suggested_list.
    match goal with
    | |- exists p, p ∈ match ?l with [] => _ | _ :: _ => _ end =>
        destruct l as [|p l']; [exists "layered" | exists p]; left
    end. }
  destruct Hin as [p Hp]. intros Hnil.
  assert (Hel : p ∈ elements (list_to_set
                  (EnhancedArchitecturalInference.suggested_list r)
                  : gset string))
    by (apply elem_of_elements, elem_of_list_to_set, Hp).
  rewrite Hnil in Hel. inversion Hel.
Qed.

End EntryPoint.

(** X8: the entry point of the architecture service never raises: for every
    requirements value it returns an architecture, and that architecture has
    at least one component and at least one pattern. *)
Theorem infer_and_validate_architecture_returns
    (now : string) (r : SystemRequirements.t) :
  exists a,
    ArchitectureService.infer_and_validate_architecture now r = Ok a
    /\ SystemArchitecture.components a <> []
    /\ SystemArchitecture.patterns a <> [].
Proof.
  unfold ArchitectureService.infer_and_validate_architecture.
  destruct (infer_architecture_returns now r) as (a0 & -> & Hpat & Hcs).
  cbn [mbind result_bind].
  destruct (refine_architecture_returns r a0) as (a & -> & Hlen1 & Hlen2).
  exists a. split; [reflexivity|].
  assert (Hp0 : SystemArchitecture.patterns a0 <> [])
    by (rewrite Hpat; apply suggest_patterns_nonempty).
  split.
  - destruct (SystemArchitecture.components a0); [contradiction|].
    destruct (SystemArchitecture.components a); [cbn in Hlen1; lia|].
    discriminate.
  - destruct (SystemArchitecture.patterns a0); [contradiction|].
    destruct (SystemArchitecture.patterns a); [cbn in Hlen2; lia|].
    discriminate.
Qed.

(** ** Validation of inferred architectures *)

Section InferredStack.

Import EnhancedArchitecturalInference.

(** The inferred stack has four categories, with one of three backends,
    frontends and databases. *)
Lemma technology_stack_shape (r : SystemRequirements.t) :
  exists b f d,
    _determine_technology_stack r
    = [ ("backend", b); ("frontend", f); ("database", d);
        ("infrastructure", ["Docker"; "Kubernetes"]) ]
    /\ b ∈ [ ["Python"; "FastAPI"]; ["Node.js"; "Express"];
             ["Java"; "Spring Boot"] ]
    /\ f ∈ [ ["React"]; ["Vue.js"]; ["Angular"] ]
    /\ d ∈ [ ["PostgreSQL"]; ["MySQL"]; ["MongoDB"] ].
Proof.
  unfold _determine_technology_stack.
  eexists _, _, _. split; [reflexivity|]. split; [|split].
  - destruct (_ || _ || _); [left|].
    destruct (_ || _); [right; left|].
    destruct (_ || _); [right; right; left | left].
  - destruct (PyStr.contains "react" _); [left|].
    destruct (PyStr.contains "vue" _); [right; left|].
    destruct (PyStr.contains "angular" _); [right; right; left | left].
  - destruct (_ || _); [left|].
    destruct (PyStr.contains "mysql" _); [right; left|].
    destruct (_ || _); [right; right; left | left].
Qed.

Lemma deployment_model_shape (r : SystemRequirements.t) :
  _determine_deployment_model r ∈ ["cloud"; "containerized"; "serverless"].
Proof.
  unfold _determine_deployment_model.
  destruct (_ || _ || _); [left|].
  destruct (_ || _); [right; left|].
  destruct (PyStr.contains "serverless" _); [right; right; left | left].
Qed.

End InferredStack.

(** X9: on the technology stack that inference picks, the conflict check
    never reports anything, while the dependency check reports "Technology
    react requires nodejs" whenever the frontend is React (the default) and
    "Technology express requires nodejs" whenever the backend is
    Node.js/Express: the backend name "Node.js" lower-cases to "node.js",
    which is not the "nodejs" the rules ask for. *)
Theorem inferred_stack_validation (r : SystemRequirements.t) :
  let stack := EnhancedArchitecturalInference._determine_technology_stack r in
  ArchitectureService._check_technology_conflicts stack = []
  /\ ArchitectureService._check_missing_dependencies stack
     = (if bool_decide (stack_get "frontend" stack = ["React"])
        then ["Technology react requires nodejs"] else [])
       ++ (if bool_decide (stack_get "backend" stack = ["Node.js"; "Express"])
           then ["Technology express requires nodejs"] else []).
Proof.
  intros stack. subst stack.
  destruct (technology_stack_shape r) as (b & f & d & -> & Hb & Hf & Hd).
  repeat (apply elem_of_cons in Hb as [->|Hb]);
    [| | |apply elem_of_nil in Hb; destruct Hb];
    (repeat (apply elem_of_cons in Hf as [->|Hf]);
     [| | |apply elem_of_nil in Hf; destruct Hf]);
    (repeat (apply elem_of_cons in Hd as [->|Hd]);
     [| | |apply elem_of_nil in Hd; destruct Hd]);
    split; vm_compute; reflexivity.
Qed.

(** X10: an inferred architecture never meets the distributed_deployment
    requirement of the microservices pattern (its deployment model is
    "cloud", "containerized" or "serverless", none of which contains
    "microservices"): whenever "microservices" is among the suggested
    patterns, comprehensive validation reports
    "Pattern microservices requirement not met: distributed_deployment". *)
Theorem microservices_never_distributed
    (now : string) (r : SystemRequirements.t) :
  "microservices" ∈ EnhancedArchitecturalInference.suggest_patterns r ->
  exists a issues,
    EnhancedArchitecturalInference.infer_architecture now r = Ok a
    /\ eval (ArchitectureService.validate_architecture_comprehensive
               ArchitectureService._load_pattern_library) a = Ok issues
    /\ "Pattern microservices requirement not met: distributed_deployment"
       ∈ issues.
Proof.
  intros Hin.
  assert (Hret : exists a,
             EnhancedArchitecturalInference.infer_architecture now r = Ok a
             /\ SystemArchitecture.patterns a
                = EnhancedArchitecturalInference.suggest_patterns r
             /\ SystemArchitecture.deployment_model a
                = EnhancedArchitecturalInference._determine_deployment_model r).
  { unfold EnhancedArchitecturalInference.infer_architecture.
    destruct (generate_components_returns r) as (c & cs & ->).
    cbn [mbind result_bind]. eexists. split; [reflexivity|].
    split; reflexivity. }
  destruct Hret as (a & Ha & Hpat & Hdm).
  exists a. eexists. split; [exact Ha|]. split; [apply validate_eval|].
  rewrite !elem_of_app. right. right. right. left.
  unfold ArchitectureService._validate_patterns.
  apply list_elem_of_In, in_flat_map. exists "microservices".
  split; [apply list_elem_of_In; rewrite Hpat; exact Hin|].
  unfold ArchitectureService.pattern_issues.
  change (ArchitectureService._load_pattern_library !! "microservices")
    with (Some (ArchitectureService.mkPattern
                  "Microservices architecture pattern"
                  [ ArchitectureService.mkConfig "APIGateway" "api_gateway"
                      (Some ["Request routing"]) None None;
                    ArchitectureService.mkConfig "ServiceRegistry" "registry"
                      (Some ["Service discovery"]) None None ]
                  []
                  ["service_independence"; "distributed_deployment"])).
  cbn [ArchitectureService.requirements flat_map].
  apply in_or_app. right. apply in_or_app. left.
  assert (Hdist : ArchitectureService._check_pattern_requirement a
                    "distributed_deployment" = false).
  { unfold ArchitectureService._check_pattern_requirement.
    rewrite bool_decide_false by discriminate.
    rewrite bool_decide_false by discriminate.
    rewrite bool_decide_true by reflexivity.
    rewrite Hdm.
    pose proof (deployment_model_shape r) as Hshape.
    repeat (apply elem_of_cons in Hshape as [->|Hshape];
            [vm_compute; reflexivity|]).
    apply elem_of_nil in Hshape. destruct Hshape. }
  rewrite Hdist. left. reflexivity.
Qed.

Lemma microservices_never_distributed_witness :
  exists a issues,
    EnhancedArchitecturalInference.infer_architecture "2024-01-01T00:00:00"
      performance_requirements = Ok a
    /\ eval (ArchitectureService.validate_architecture_comprehensive
               ArchitectureService._load_pattern_library) a = Ok issues
    /\ "Pattern microservices requirement not met: distributed_deployment"
       ∈ issues.
Proof.
  apply (microservices_never_distributed "2024-01-01T00:00:00"
           performance_requirements).
  apply (bool_decide_unpack _). vm_compute. exact I.
Defined.

(** ** Inferred components and relationships pass validation *)

Section GeneratedRelationships.

Import EnhancedArchitecturalInference.

Lemma generate_relationships_eq (cs : list SystemComponent.t)
    (r : SystemRequirements.t) :
  _generate_relationships cs r = cross_product cs.
Proof.
  unfold _generate_relationships, cross_product.
  rewrite !nested_loops_cross. reflexivity.
Qed.

Lemma cross_Forall {A B C} (P : C -> Prop) (edge : A -> B -> C)
    (xs : list A) (ys : list B) :
  (forall x y, x ∈ xs -> y ∈ ys -> P (edge x y)) ->
  Forall P (cross edge xs ys).
Proof.
  intros H. unfold cross. apply Forall_forall. intros e He.
  apply list_elem_of_In, in_flat_map in He as (x & Hx & He).
  apply in_map_iff in He as (y & <- & Hy).
  apply H; apply list_elem_of_In; assumption.
Qed.

Lemma filter_elem_of (f : SystemComponent.t -> bool)
    (cs : list SystemComponent.t) (c : SystemComponent.t) :
  c ∈ List.filter f cs -> c ∈ cs.
Proof.
  rewrite !list_elem_of_In, filter_In. tauto.
Qed.

Lemma edge_well_connected (names : list string) (s t ty d : string) :
  s <> "" -> t <> "" -> s ∈ names -> t ∈ names ->
  well_connected names (relationship s t ty d).
Proof.
  intros Hs Ht Hsin Htin. exists s, t.
  split; [vm_compute; reflexivity|]. split; [vm_compute; reflexivity|].
  split; [exact Hs|]. split; [exact Ht|]. split; assumption.
Qed.

End GeneratedRelationships.

Lemma generated_relationships_clean
    (cs : list SystemComponent.t) (r : SystemRequirements.t)
    (ps : list string) (qa : gmap string bool)
    (stack : list (string * list string)) (dm : string)
    (md : option SystemArchitecture.Metadata) :
  Forall (fun c => SystemComponent.name c <> "") cs ->
  ArchitectureService._validate_relationships
    (SystemArchitecture.mk cs
       (EnhancedArchitecturalInference._generate_relationships cs r)
       ps qa stack dm md)
  = [].
Proof.
  intros Hnames.
  assert (Hall : Forall (well_connected (map SystemComponent.name cs))
                   (EnhancedArchitecturalInference._generate_relationships
                      cs r)).
  { rewrite generate_relationships_eq. unfold cross_product.
    rewrite Forall_forall in Hnames.
    apply Forall_app. split; apply cross_Forall; intros x y Hx Hy;
      apply filter_elem_of in Hx; apply filter_elem_of in Hy;
      (apply edge_well_connected;
       [ apply Hnames, Hx | apply Hnames, Hy
       | apply list_elem_of_fmap; exists x; split; [reflexivity | exact Hx]
       | apply list_elem_of_fmap; exists y; split; [reflexivity | exact Hy] ]). }
  clear Hnames.
  unfold ArchitectureService._validate_relationships.
  cbn [SystemArchitecture.components SystemArchitecture.relationships].
  induction Hall as [|e es He _ IH]; [reflexivity|].
  cbn [flat_map]. rewrite IH, app_nil_r.
  apply relationship_issues_nil.
  destruct He as (s & t & Hs & Ht & Hsne & Htne & Hsin & Htin).
  exists s, t. rewrite !elem_of_list_to_set.
  split; [exact Hs|]. split; [exact Ht|]. split; [exact Hsne|].
  split; [exact Htne|]. split; assumption.
Qed.

(** X11: the relationships generated for a list of components with
    non-empty names only connect components of that list: relationship
    validation of an architecture made of the components and their
    generated relationships reports nothing. *)
Theorem generated_relationships_validate
    (cs : list SystemComponent.t) (r : SystemRequirements.t)
    (ps : list string) (qa : gmap string bool)
    (stack : list (string * list string)) (dm : string)
    (md : option SystemArchitecture.Metadata) :
  Forall (fun c => SystemComponent.name c <> "") cs ->
  ArchitectureService._validate_relationships
    (SystemArchitecture.mk cs
       (EnhancedArchitecturalInference._generate_relationships cs r)
       ps qa stack dm md)
  = [].
Proof.
  apply generated_relationships_clean.
Qed.

Lemma generated_relationships_validate_witness :
  ArchitectureService._validate_relationships
    (SystemArchitecture.mk
       EnhancedArchitecturalInference._get_default_components
       (EnhancedArchitecturalInference._generate_relationships
          EnhancedArchitecturalInference._get_default_components
          performance_requirements)
       ["layered"] ∅ [] "cloud" None)
  = [].
Proof.
  apply (generated_relationships_validate
           EnhancedArchitecturalInference._get_default_components
           performance_requirements ["layered"] ∅ [] "cloud" None).
  repeat constructor; discriminate.
Defined.

Section GeneratedComponents.

Import EnhancedArchitecturalInference.

Lemma make_ok (c : SystemComponent.t) :
  is_ok (SystemComponent.make c) = true -> SystemComponent.make c = Ok c.
Proof.
  unfold SystemComponent.make. cbn [mbind result_bind].
  destruct (SystemComponent.post_init c); [reflexivity | discriminate].
Qed.

Lemma component_step_eq (acc : list SystemComponent.t) (e : string) :
  component_step (Ok acc) e
  = Ok (match template_component e with
        | Some c => acc ++ [c]
        | None => acc
        end).
Proof.
  unfold component_step, template_component.
  cbn [mbind result_bind].
  destruct (_load_component_templates !! e) as [template|] eqn:Hlook.
  - rewrite (make_ok _ (template_component_ok e template Hlook)).
    reflexivity.
  - reflexivity.
Qed.

(** The loop over the entities collects the template components. *)
Lemma component_loop_omap (entities : list string)
    (acc : list SystemComponent.t) :
  fold_left component_step entities (Ok acc)
  = Ok (acc ++ omap template_component entities).
Proof.
  revert acc. induction entities as [|e entities IH]; intros acc.
  - cbn. rewrite app_nil_r. reflexivity.
  - cbn [fold_left]. rewrite component_step_eq.
    change (omap template_component (e :: entities))
      with (match template_component e with
            | Some c => c :: omap template_component entities
            | None => omap template_component entities
            end).
    destruct (template_component e) as [c|].
    + rewrite IH, <- app_assoc. reflexivity.
    + apply IH.
Qed.

Lemma generate_components_eq (r : SystemRequirements.t) :
  _generate_components r
  = Ok (match omap template_component
                (SystemRequirements.extracted_entities r) with
        | [] => _get_default_components
        | c :: cs => c :: cs
        end).
Proof.
  unfold _generate_components. rewrite component_loop_omap.
  cbn [mbind result_bind app].
  destruct (omap _ _); reflexivity.
Qed.

(** The templates, as a list of entity and component. *)
Lemma template_component_cases (e : string) (c : SystemComponent.t) :
  template_component e = Some c ->
  (e, SystemComponent.name c)
  ∈ [ ("api", "APIService"); ("database", "DatabaseService");
      ("user", "UserService"); ("authentication", "AuthenticationService");
      ("payment", "PaymentService");
      ("notification", "NotificationService") ]
  /\ complete c /\ SystemComponent.name c <> "".
Proof.
  unfold template_component.
  destruct (_load_component_templates !! e) as [template|] eqn:Hlook;
    [|discriminate].
  cbn. intros [= <-].
  unfold _load_component_templates in Hlook.
  apply elem_of_list_to_map_2 in Hlook.
  repeat (apply elem_of_cons in Hlook as [Heq|Hlook];
          [injection Heq as -> ->;
           split; [apply (bool_decide_unpack _); vm_compute; exact I|];
           split; [split; discriminate | discriminate]|]).
  apply elem_of_nil in Hlook. destruct Hlook.
Qed.

Lemma template_names_injective (e1 e2 : string) (c1 c2 : SystemComponent.t) :
  template_component e1 = Some c1 -> template_component e2 = Some c2 ->
  SystemComponent.name c1 = SystemComponent.name c2 -> e1 = e2.
Proof.
  intros H1 H2 Hname.
  apply template_component_cases in H1 as [H1 _].
  apply template_component_cases in H2 as [H2 _].
  rewrite <- Hname in H2. clear Hname.
  repeat (apply elem_of_cons in H1 as [H1|H1];
          [injection H1 as -> Hn; rewrite Hn in H2;
           repeat (apply elem_of_cons in H2 as [H2|H2];
                   [first [discriminate H2 | congruence]|]);
           apply elem_of_nil in H2; destruct H2|]).
  apply elem_of_nil in H1. destruct H1.
Qed.

Lemma template_components_nodup (entities : list string) :
  NoDup entities ->
  NoDup (map SystemComponent.name (omap template_component entities)).
Proof.
  induction 1 as [|e entities Hnotin Hnd IH]; [constructor|].
  change (omap template_component (e :: entities))
    with (match template_component e with
          | Some c => c :: omap template_component entities
          | None => omap template_component entities
          end).
  destruct (template_component e) as [c|] eqn:Hc; [|exact IH].
  cbn [map]. constructor; [|exact IH].
  intros Hin. apply list_elem_of_fmap in Hin as (c' & Hname & Hc').
  apply list_elem_of_omap in Hc' as (e' & He' & Hc'e).
  assert (e = e') by (eapply template_names_injective; eassumption).
  subst e'. contradiction.
Qed.

Lemma template_components_complete (entities : list string) :
  Forall (fun c => complete c /\ SystemComponent.name c <> "")
    (omap template_component entities).
Proof.
  apply Forall_forall. intros c Hc.
  apply list_elem_of_omap in Hc as (e & _ & Hc).
  apply template_component_cases in Hc as (_ & H1 & H2). split; assumption.
Qed.

(** Whatever the entities, the generated components are complete, and
    without duplicate entities their names are distinct. *)
Lemma generate_components_valid (r : SystemRequirements.t) :
  NoDup (SystemRequirements.extracted_entities r) ->
  exists c cs,
    _generate_components r = Ok (c :: cs)
    /\ NoDup (map SystemComponent.name (c :: cs))
    /\ Forall (fun c => complete c /\ SystemComponent.name c <> "") (c :: cs).
Proof.
  intros Hnd. rewrite generate_components_eq.
  pose proof (template_components_nodup _ Hnd) as Hnames.
  pose proof (template_components_complete
                (SystemRequirements.extracted_entities r)) as Hall.
  destruct (omap template_component _) as [|c cs].
  - eexists _, _. split; [reflexivity|]. split.
    + apply (bool_decide_unpack _). vm_compute. exact I.
    + repeat constructor; discriminate.
  - exists c, cs. split; [reflexivity|]. split; assumption.
Qed.

End GeneratedComponents.

(** X12: for requirements whose entity list has no duplicates (as the
    parser produces it), the inferred architecture passes the basic, the
    component and the relationship validation: there is a component and a
    pattern, component names are distinct, every component has
    responsibilities and a type, and every relationship connects existing
    components.  Only pattern and technology issues can be reported. *)
Theorem inferred_architecture_structure_valid
    (now : string) (r : SystemRequirements.t) :
  NoDup (SystemRequirements.extracted_entities r) ->
  exists a,
    EnhancedArchitecturalInference.infer_architecture now r = Ok a
    /\ EnhancedArchitecturalInference.validate_architecture a = []
    /\ ArchitectureService._validate_components
         (SystemArchitecture.components a) = []
    /\ ArchitectureService._validate_relationships a = [].
Proof.
  intros Hnd.
  destruct (generate_components_valid r Hnd)
    as (c & cs & Hgen & Hnames & Hall).
  unfold EnhancedArchitecturalInference.infer_architecture.
  rewrite Hgen. cbn [mbind result_bind].
  eexists. split; [reflexivity|]. split; [|split].
  - unfold EnhancedArchitecturalInference.validate_architecture.
    cbn [SystemArchitecture.components SystemArchitecture.patterns].
    pose proof (suggest_patterns_nonempty r) as Hp.
    destruct (EnhancedArchitecturalInference.suggest_patterns r);
      [contradiction|].
    cbn [app]. apply responsibility_issues_nil.
    eapply Forall_impl; [exact Hall|]. intros x [Hx _]. exact Hx.
  - cbn [SystemArchitecture.components].
    apply validate_components_clean. split; [discriminate|].
    split; [exact Hnames|].
    eapply Forall_impl; [exact Hall|]. intros x [Hx _]. exact Hx.
  - apply generated_relationships_clean.
    eapply Forall_impl; [exact Hall|]. intros x [_ Hx]. exact Hx.
Qed.

Lemma inferred_architecture_structure_valid_witness :
  exists a,
    EnhancedArchitecturalInference.infer_architecture
      "2024-01-01T00:00:00" api_user_requirements = Ok a
    /\ EnhancedArchitecturalInference.validate_architecture a = []
    /\ ArchitectureService._validate_components
         (SystemArchitecture.components a) = []
    /\ ArchitectureService._validate_relationships a = [].
Proof.
  apply (inferred_architecture_structure_valid
           "2024-01-01T00:00:00" api_user_requirements).
  apply (bool_decide_unpack _). vm_compute. exact I.
Defined.

(** ** Conversation processing *)

Section ProcessingFacts.

Import ConversationService.

Lemma parse_step_fields (st : ParseState) (s : Statement.t) :
  parse_step st s
  = mkParseState
      (functional_reqs (extract_by_type st s))
      (non_functional_reqs (extract_by_type st s))
      (constraints (extract_by_type st s))
      (business_rules (extract_by_type st s))
      (entities st
       ∪ list_to_set
           (fst (extract_entities (Statement.content s) (entity_cache st))))
      (snd (extract_entities (Statement.content s) (entity_cache st))).
Proof.
  unfold parse_step.
  destruct (extract_by_type_frame st s) as [He Hc]. rewrite Hc, He.
  destruct (extract_entities (Statement.content s) (entity_cache st));
    reflexivity.
Qed.

Lemma concept_step_fields (concepts : gset string)
    (cache : gmap string (list string)) (s : Statement.t) :
  concept_step (concepts, cache) s
  = (concepts
     ∪ list_to_set (fst (extract_entities (Statement.content s) cache)),
     snd (extract_entities (Statement.content s) cache)).
Proof.
  unfold concept_step.
  destruct (extract_entities (Statement.content s) cache); reflexivity.
Qed.

(** The loop of [extract_key_concepts] and the loop of [parse_statements]
    collect the same entities and leave the same cache. *)
Lemma concept_fold_parse_fold (l : list Statement.t) (st : ParseState) :
  fold_left concept_step l (entities st, entity_cache st)
  = (entities (fold_left parse_step l st),
     entity_cache (fold_left parse_step l st)).
Proof.
  revert st. induction l as [|s l IH]; intros st; [reflexivity|].
  cbn [fold_left]. rewrite concept_step_fields, <- IH.
  rewrite parse_step_fields. reflexivity.
Qed.

Lemma or_content_length (found : list string) (content : string) :
  1 <= length (or_content found content).
Proof. destruct found; cbn; lia. Qed.

Lemma extract_constraints_content (s : Statement.t) :
  _extract_constraints s = [Statement.content s].
Proof.
  unfold _extract_constraints. destruct (PyStr.any_in _ _); reflexivity.
Qed.

Lemma extract_business_rules_content (s : Statement.t) :
  _extract_business_rules s = [Statement.content s].
Proof.
  unfold _extract_business_rules. destruct (PyStr.any_in _ _); reflexivity.
Qed.

Lemma extract_by_type_lists (st : ParseState) (s : Statement.t) :
  functional_reqs (extract_by_type st s)
  = functional_reqs st
    ++ (if has_type FUNCTIONAL s
        then _extract_functional_requirements s else [])
  /\ non_functional_reqs (extract_by_type st s)
     = non_functional_reqs st
       ++ (if has_type NON_FUNCTIONAL s
           then _extract_non_functional_requirements s else [])
  /\ constraints (extract_by_type st s)
     = constraints st
       ++ (if has_type CONSTRAINT s then [Statement.content s] else [])
  /\ business_rules (extract_by_type st s)
     = business_rules st
       ++ (if has_type BUSINESS_RULE s then [Statement.content s] else []).
Proof.
  unfold extract_by_type, has_type.
  destruct (Statement.statement_type s) as [[]|];
    cbn [functional_reqs non_functional_reqs constraints business_rules];
    rewrite ?extract_constraints_content, ?extract_business_rules_content;
    repeat (rewrite bool_decide_false by discriminate);
    repeat (rewrite bool_decide_true by reflexivity);
    rewrite ?app_nil_r; repeat split; reflexivity.
Qed.

Lemma parse_fold_lists (l : list Statement.t) (st : ParseState) :
  functional_reqs (fold_left parse_step l st)
  = functional_reqs st
    ++ flat_map (fun s => if has_type FUNCTIONAL s
                          then _extract_functional_requirements s else []) l
  /\ non_functional_reqs (fold_left parse_step l st)
     = non_functional_reqs st
       ++ flat_map (fun s => if has_type NON_FUNCTIONAL s
                             then _extract_non_functional_requirements s
                             else []) l
  /\ constraints (fold_left parse_step l st)
     = constraints st
       ++ map Statement.content (List.filter (has_type CONSTRAINT) l)
  /\ business_rules (fold_left parse_step l st)
     = business_rules st
       ++ map Statement.content (List.filter (has_type BUSINESS_RULE) l).
Proof.
  revert st. induction l as [|s l IH]; intros st.
  - cbn. rewrite !app_nil_r. repeat split; reflexivity.
  - cbn [fold_left flat_map List.filter].
    destruct (IH (parse_step st s)) as (H1 & H2 & H3 & H4).
    rewrite H1, H2, H3, H4. rewrite parse_step_fields.
    cbn [functional_reqs non_functional_reqs constraints business_rules].
    destruct (extract_by_type_lists st s) as (E1 & E2 & E3 & E4).
    rewrite E1, E2, E3, E4, <- !app_assoc.
    destruct (has_type CONSTRAINT s), (has_type BUSINESS_RULE s);
      repeat split; reflexivity.
Qed.

Lemma typed_requirements_length (ty : StatementType)
    (f : Statement.t -> list string) (l : list Statement.t) :
  (forall s, 1 <= length (f s)) ->
  length (List.filter (has_type ty) l)
  <= length (flat_map (fun s => if has_type ty s then f s else []) l)
  /\ (List.filter (has_type ty) l = [] ->
      flat_map (fun s => if has_type ty s then f s else []) l = []).
Proof.
  intros Hf. induction l as [|s l [IHlen IHnil]]; [split; [cbn; lia | reflexivity]|].
  cbn [List.filter flat_map]. destruct (has_type ty s).
  - split; [|discriminate].
    rewrite length_app. cbn [length]. specialize (Hf s). lia.
  - split; [exact IHlen | exact IHnil].
Qed.

(** Along the loop the cache only gains entries. *)
Lemma extract_entities_cache (text : string)
    (cache : gmap string (list string)) :
  cache ⊆ snd (extract_entities text cache)
  /\ snd (extract_entities text cache) !! text
     = Some (fst (extract_entities text cache)).
Proof.
  unfold extract_entities.
  destruct (cache !! text) as [es|] eqn:Hlook; cbn [fst snd].
  - split; [reflexivity | exact Hlook].
  - split; [apply insert_subseteq; exact Hlook | apply lookup_insert_eq].
Qed.

Lemma extract_entities_hit (text : string) (es : list string)
    (cache : gmap string (list string)) :
  cache !! text = Some es -> extract_entities text cache = (es, cache).
Proof. intros H. unfold extract_entities. rewrite H. reflexivity. Qed.

Lemma parse_fold_cache_grows (l : list Statement.t) (st : ParseState) :
  entity_cache st ⊆ entity_cache (fold_left parse_step l st).
Proof.
  revert st. induction l as [|s l IH]; intros st; [reflexivity|].
  cbn [fold_left]. etransitivity; [|apply IH].
  rewrite parse_step_fields. cbn [entity_cache].
  apply extract_entities_cache.
Qed.

(** Running the loop again from the cache it left gives the same state. *)
Lemma parse_fold_again (l : list Statement.t) (st : ParseState) :
  forall final, entity_cache (fold_left parse_step l st) ⊆ final ->
  fold_left parse_step l
    (mkParseState (functional_reqs st) (non_functional_reqs st)
       (constraints st) (business_rules st) (entities st) final)
  = mkParseState
      (functional_reqs (fold_left parse_step l st))
      (non_functional_reqs (fold_left parse_step l st))
      (constraints (fold_left parse_step l st))
      (business_rules (fold_left parse_step l st))
      (entities (fold_left parse_step l st)) final.
Proof.
  revert st. induction l as [|s l IH]; intros st final Hfinal; [reflexivity|].
  cbn [fold_left]. rewrite <- (IH (parse_step st s) final Hfinal).
  f_equal.
  destruct (extract_entities_cache (Statement.content s) (entity_cache st))
    as [_ Hstored].
  assert (Hhit : final !! Statement.content s
                 = Some (fst (extract_entities (Statement.content s)
                                (entity_cache st)))).
  { eapply lookup_weaken; [|exact Hfinal].
    eapply lookup_weaken;
      [|apply (parse_fold_cache_grows l (parse_step st s))].
    rewrite parse_step_fields. cbn [entity_cache]. exact Hstored. }
  rewrite !parse_step_fields.
  cbn [functional_reqs non_functional_reqs constraints business_rules
       entities entity_cache].
  rewrite (extract_entities_hit _ _ _ Hhit). cbn [fst snd].
  destruct (extract_by_type_lists st s) as (E1 & E2 & E3 & E4).
  destruct (extract_by_type_lists
              (mkParseState (functional_reqs st) (non_functional_reqs st)
                 (constraints st) (business_rules st) (entities st) final) s)
    as (F1 & F2 & F3 & F4).
  rewrite E1, E2, E3, E4, F1, F2, F3, F4. reflexivity.
Qed.

End ProcessingFacts.

(** X13: [process_conversation] never raises and succeeds exactly on the
    conversations validation accepts.  On a rejected conversation the result
    carries one error starting with "Conversation processing failed: ", the
    empty initial requirements and no metadata, and the parser's cache is
    untouched; on an accepted one it carries no error, the requirements of
    [parse_statements] and the number of statements. *)
Theorem process_conversation_outcome (elapsed : Q) (c : Conversation.t)
    (cache : gmap string (list string)) :
  let out := ConversationService.process_conversation elapsed c cache in
  ProcessingResult.success (fst out) = negb (rejected c)
  /\ ProcessingResult.has_errors (fst out) = rejected c
  /\ ProcessingResult.conversation (fst out) = c
  /\ (if rejected c then
        (exists msg,
           ProcessingResult.errors (fst out)
           = ["Conversation processing failed: " +:+ msg])
        /\ ProcessingResult.requirements (fst out)
           = ConversationService.initial_requirements
        /\ ProcessingResult.metadata (fst out) = None
        /\ snd out = cache
      else
        ProcessingResult.errors (fst out) = []
        /\ (Ok (ProcessingResult.requirements (fst out)), snd out)
           = ConversationService.parse_statements c cache
        /\ exists md,
             ProcessingResult.metadata (fst out) = Some md
             /\ ProcessingResult.statement_count md
                = length (Conversation.statements c)).
Proof.
  cbv zeta. unfold ConversationService.process_conversation.
  destruct (rejected c) eqn:Hrej.
  - destruct (validate_conversation_rejects c Hrej) as [msg Hmsg].
    rewrite Hmsg. cbn.
    split; [reflexivity|]. split; [reflexivity|]. split; [reflexivity|].
    split; [exists msg; reflexivity|]. repeat split; reflexivity.
  - rewrite (validate_conversation_accepts c Hrej).
    destruct (parse_statements_returns c cache) as (req & Hreq & _).
    destruct (ConversationService.parse_statements c cache)
      as [res cache'] eqn:Hparse.
    cbn [fst] in Hreq. subst res. cbn.
    split; [reflexivity|]. split; [reflexivity|]. split; [reflexivity|].
    split; [reflexivity|]. split; [reflexivity|].
    eexists. split; reflexivity.
Qed.

(** X14: [extract_key_concepts] returns exactly the entity list that
    [parse_statements] puts into the requirements, and both leave the
    parser's cache in the same state, whatever the cache held before. *)
Theorem key_concepts_are_parsed_entities (c : Conversation.t)
    (cache : gmap string (list string)) :
  exists req,
    fst (ConversationService.parse_statements c cache) = Ok req
    /\ ConversationService.extract_key_concepts c cache
       = (SystemRequirements.extracted_entities req,
          snd (ConversationService.parse_statements c cache)).
Proof.
  destruct (parse_statements_returns c cache) as (req & Hreq & _ & _ & Hent).
  exists req. split; [exact Hreq|].
  unfold ConversationService.extract_key_concepts.
  pose proof (concept_fold_parse_fold (Conversation.statements c)
                (ConversationService.mkParseState [] [] [] [] ∅ cache)) as H.
  change (fold_left ConversationService.concept_step
            (Conversation.statements c) (∅, cache)
          = (ConversationService.entities
               (fold_left ConversationService.parse_step
                  (Conversation.statements c)
                  (ConversationService.mkParseState [] [] [] [] ∅ cache)),
             ConversationService.entity_cache
               (fold_left ConversationService.parse_step
                  (Conversation.statements c)
                  (ConversationService.mkParseState [] [] [] [] ∅ cache))))
    in H.
  rewrite H, Hent. reflexivity.
Qed.

(** X15: the constraints of the parsed requirements are exactly the contents
    of the statements of type CONSTRAINT, in order, and the business rules
    exactly the contents of the statements of type BUSINESS_RULE: the keyword
    patterns of the two extractors never change the outcome. *)
Theorem parsed_constraints_and_rules (c : Conversation.t)
    (cache : gmap string (list string)) :
  exists req,
    fst (ConversationService.parse_statements c cache) = Ok req
    /\ SystemRequirements.constraints req
       = map Statement.content
           (Conversation.get_statements_by_type CONSTRAINT c)
    /\ SystemRequirements.business_rules req
       = map Statement.content
           (Conversation.get_statements_by_type BUSINESS_RULE c).
Proof.
  destruct (parse_statements_returns c cache) as (req & Hreq & _).
  exists req. split; [exact Hreq|].
  unfold ConversationService.parse_statements in Hreq. cbn [fst] in Hreq.
  unfold SystemRequirements.make in Hreq.
  destruct (SystemRequirements.post_init _); [|discriminate Hreq].
  cbn in Hreq. injection Hreq as <-.
  cbn [SystemRequirements.constraints SystemRequirements.business_rules].
  destruct (parse_fold_lists (Conversation.statements c)
              (ConversationService.mkParseState [] [] [] [] ∅ cache))
    as (_ & _ & H3 & H4).
  rewrite H3, H4. split; reflexivity.
Qed.

(** X16: no statement of type FUNCTIONAL or NON_FUNCTIONAL is dropped: the
    parsed requirements hold at least one functional requirement per
    FUNCTIONAL statement and one non-functional requirement per
    NON_FUNCTIONAL statement, and none when there is no such statement. *)
Theorem parsed_requirements_per_statement (c : Conversation.t)
    (cache : gmap string (list string)) :
  exists req,
    fst (ConversationService.parse_statements c cache) = Ok req
    /\ length (Conversation.get_statements_by_type FUNCTIONAL c)
       <= length (SystemRequirements.functional_requirements req)
    /\ length (Conversation.get_statements_by_type NON_FUNCTIONAL c)
       <= length (SystemRequirements.non_functional_requirements req)
    /\ (SystemRequirements.functional_requirements req = []
        <-> Conversation.get_statements_by_type FUNCTIONAL c = [])
    /\ (SystemRequirements.non_functional_requirements req = []
        <-> Conversation.get_statements_by_type NON_FUNCTIONAL c = []).
Proof.
  destruct (parse_statements_returns c cache) as (req & Hreq & _).
  exists req. split; [exact Hreq|].
  unfold ConversationService.parse_statements in Hreq. cbn [fst] in Hreq.
  unfold SystemRequirements.make in Hreq.
  destruct (SystemRequirements.post_init _); [|discriminate Hreq].
  cbn in Hreq. injection Hreq as <-.
  cbn [SystemRequirements.functional_requirements
       SystemRequirements.non_functional_requirements].
  destruct (parse_fold_lists (Conversation.statements c)
              (ConversationService.mkParseState [] [] [] [] ∅ cache))
    as (H1 & H2 & _).
  rewrite H1, H2. cbn [ConversationService.functional_reqs
                       ConversationService.non_functional_reqs app].
  destruct (typed_requirements_length FUNCTIONAL
              ConversationService._extract_functional_requirements
              (Conversation.statements c)) as [Flen Fnil].
  { intros s. apply or_content_length. }
  destruct (typed_requirements_length NON_FUNCTIONAL
              ConversationService._extract_non_functional_requirements
              (Conversation.statements c)) as [Nlen Nnil].
  { intros s. apply or_content_length. }
  unfold Conversation.get_statements_by_type.
  change (fun s => bool_decide (Statement.statement_type s = Some FUNCTIONAL))
    with (has_type FUNCTIONAL).
  change (fun s =>
            bool_decide (Statement.statement_type s = Some NON_FUNCTIONAL))
    with (has_type NON_FUNCTIONAL).
  split; [exact Flen|]. split; [exact Nlen|]. split.
  - split; [|exact Fnil]. intros H. rewrite H in Flen.
    destruct (List.filter (has_type FUNCTIONAL) _);
      [reflexivity | cbn in Flen; lia].
  - split; [|exact Nnil]. intros H. rewrite H in Nlen.
    destruct (List.filter (has_type NON_FUNCTIONAL) _);
      [reflexivity | cbn in Nlen; lia].
Qed.

(** X17: parsing the same conversation again with the cache the first run
    left returns the same requirements and leaves that cache as it is,
    whatever the cache held before the first run. *)
Theorem parse_statements_again (c : Conversation.t)
    (cache : gmap string (list string)) :
  ConversationService.parse_statements c
    (snd (ConversationService.parse_statements c cache))
  = ConversationService.parse_statements c cache.
Proof.
  unfold ConversationService.parse_statements. cbn [snd].
  pose proof (parse_fold_again (Conversation.statements c)
                (ConversationService.mkParseState [] [] [] [] ∅ cache)
                _ (reflexivity _)) as H.
  cbn [ConversationService.functional_reqs
       ConversationService.non_functional_reqs
       ConversationService.constraints ConversationService.business_rules
       ConversationService.entities] in H.
  rewrite H. reflexivity.
Qed.

(** ** Quality attributes *)

Section QualityAttributeFacts.

Import ConversationService.

Lemma prefix_nil (s : string) : String.prefix "" s = true.
Proof. destruct s; reflexivity. Qed.

(** A word without a space starts a text that continues after a space
    exactly when it starts the part before the space. *)
Lemma prefix_before_space (k a b : string) :
  no_space k = true ->
  String.prefix k (a +:+ " " +:+ b) = String.prefix k a.
Proof.
  revert k. induction a as [|y a IH]; intros k Hk.
  - rewrite append_nil. destruct k as [|x k]; [reflexivity|].
    cbn [no_space] in Hk. apply andb_true_iff in Hk as [Hx _].
    rewrite append_cons. cbn [String.prefix].
    destruct (ascii_dec x " ") as [->|]; [discriminate Hx | reflexivity].
  - rewrite append_cons. destruct k as [|x k]; [reflexivity|].
    cbn [no_space] in Hk. apply andb_true_iff in Hk as [_ Hk].
    cbn [String.prefix]. destruct (ascii_dec x y); [apply IH, Hk | reflexivity].
Qed.

Lemma contains_around_space (k a b : string) :
  no_space k = true ->
  PyStr.contains k (a +:+ " " +:+ b)
  = PyStr.contains k a || PyStr.contains k b.
Proof.
  intros Hk. induction a as [|y a IH].
  - rewrite append_nil, append_cons, append_nil.
    rewrite (contains_unfold k (String " " b)), (contains_unfold k "").
    rewrite <- (append_nil b) at 1.
    change (String " " ("" +:+ b)) with ("" +:+ " " +:+ b).
    rewrite (prefix_before_space k "" b Hk), orb_false_r. reflexivity.
  - rewrite (contains_unfold k (String y a)).
    rewrite append_cons, contains_unfold.
    change (String y (a +:+ " " +:+ b)) with (String y a +:+ " " +:+ b).
    rewrite (prefix_before_space k (String y a) b Hk), IH, orb_assoc.
    reflexivity.
Qed.

Lemma contains_join_space (k : string) (parts : list string) :
  no_space k = true -> PyStr.truthy k = true ->
  PyStr.contains k (PyStr.join " " parts)
  = existsb (PyStr.contains k) parts.
Proof.
  intros Hk Hne. induction parts as [|p parts IH].
  - destruct k; [discriminate Hne | reflexivity].
  - destruct parts as [|q parts].
    + cbn [PyStr.join existsb]. rewrite orb_false_r. reflexivity.
    + change (PyStr.join " " (p :: q :: parts))
        with (p +:+ " " +:+ PyStr.join " " (q :: parts)).
      rewrite (contains_around_space k p _ Hk), IH. reflexivity.
Qed.

Lemma lookup_tabulate {A} (f : string -> A) (keys : list string)
    (k : string) :
  (list_to_map (map (fun key => (key, f key)) keys) : gmap string A) !! k
  = if bool_decide (k ∈ keys) then Some (f k) else None.
Proof.
  induction keys as [|a keys IH].
  - cbn. rewrite lookup_empty, bool_decide_false; [reflexivity|].
    apply not_elem_of_nil.
  - cbn [map list_to_map foldr]. destruct (decide (a = k)) as [->|Hne].
    + rewrite lookup_insert_eq, bool_decide_true; [reflexivity|].
      apply elem_of_cons. left. reflexivity.
    + rewrite lookup_insert_ne by exact Hne. rewrite IH.
      apply (f_equal (fun b : bool => if b then Some (f k) else None)).
      apply bool_decide_ext. rewrite elem_of_cons. split; [tauto|].
      intros [->|H]; [contradiction | exact H].
Qed.

Lemma existsb_map {A B} (f : A -> B) (p : B -> bool) (l : list A) :
  existsb p (map f l) = existsb (fun x => p (f x)) l.
Proof.
  induction l as [|x l IH]; [reflexivity|]. cbn. rewrite IH. reflexivity.
Qed.

End QualityAttributeFacts.

(** X18: the quality attributes of a conversation have exactly the five keys
    performance, scalability, security, reliability and usability, and the
    flag of a key is true exactly when the lower-cased content of some single
    statement contains the key: joining the statements with a space creates
    no match across two statements. *)
Theorem quality_attribute_flags (c : Conversation.t) (attribute : string) :
  ConversationService._extract_quality_attributes c !! attribute
  = if bool_decide
         (attribute ∈ ConversationService.quality_attribute_names)
    then Some (mentions attribute c)
    else None.
Proof.
  unfold ConversationService._extract_quality_attributes.
  rewrite (lookup_tabulate
             (fun attribute =>
                PyStr.contains attribute
                  (PyStr.join " "
                     (map (fun stmt => PyStr.lower (Statement.content stmt))
                        (Conversation.statements c))))).
  case_bool_decide as Hin; [|reflexivity].
  f_equal. unfold mentions.
  rewrite <- (existsb_map (fun stmt => PyStr.lower (Statement.content stmt))
                (PyStr.contains attribute)).
  unfold ConversationService.quality_attribute_names in Hin.
  repeat (apply elem_of_cons in Hin as [->|Hin];
          [apply contains_join_space; reflexivity|]).
  apply elem_of_nil in Hin. destruct Hin.
Qed.

(** ** Code generation *)

Section GenerationFacts.

Import EnhancedMultiLanguageGenerator.

Lemma make_inv (g g' : GeneratedCode.t) :
  GeneratedCode.make g = Ok g' -> g' = g.
Proof.
  unfold GeneratedCode.make. cbn [mbind result_bind].
  destruct (GeneratedCode.post_init g); [intros [= <-]; reflexivity|].
  discriminate.
Qed.

Lemma make_is_ok (g : GeneratedCode.t) :
  PyStr.truthy (PyStr.strip (GeneratedCode.language g)) = true ->
  is_ok (GeneratedCode.make g)
  = bool_decide
      (is_Some (GeneratedCode.files g !! GeneratedCode.entry_point g)).
Proof.
  intros Hl. unfold GeneratedCode.make, GeneratedCode.post_init.
  rewrite Hl. cbn [negb mbind result_bind].
  case_bool_decide as Hempty.
  - rewrite Hempty, lookup_empty, bool_decide_false; [reflexivity|].
    intros [x Hx]. discriminate Hx.
  - destruct (bool_decide (is_Some _)); reflexivity.
Qed.

Lemma make_raises (g : GeneratedCode.t) :
  GeneratedCode.files g = ∅ -> is_ok (GeneratedCode.make g) = false.
Proof.
  intros Hempty. unfold GeneratedCode.make, GeneratedCode.post_init.
  destruct (negb _); [reflexivity|].
  rewrite bool_decide_true by exact Hempty. reflexivity.
Qed.

Lemma template_lookup (language framework : string) :
  default ∅ (_load_templates !! language) !! framework
  = if bool_decide (language = "python" /\ framework = "fastapi")
    then Some fastapi_template
    else if bool_decide (language = "rust" /\ framework = "axum")
         then Some axum_template
         else None.
Proof.
  unfold _load_templates. rewrite !list_to_map_cons, !list_to_map_nil.
  destruct (decide (language = "python")) as [->|Hpy].
  - rewrite lookup_insert_eq. cbn [default from_option id].
    destruct (decide (framework = "fastapi")) as [->|Hfw].
    + rewrite lookup_insert_eq, bool_decide_true by (split; reflexivity).
      reflexivity.
    + rewrite lookup_insert_ne by congruence. rewrite lookup_empty.
      rewrite bool_decide_false by (intros [_ H]; contradiction).
      rewrite bool_decide_false by (intros [H _]; discriminate H).
      reflexivity.
  - rewrite lookup_insert_ne by congruence.
    rewrite bool_decide_false by (intros [H _]; contradiction).
    destruct (decide (language = "rust")) as [->|Hrs].
    + rewrite lookup_insert_eq. cbn [default from_option id].
      destruct (decide (framework = "axum")) as [->|Hfw].
      * rewrite lookup_insert_eq, bool_decide_true by (split; reflexivity).
        reflexivity.
      * rewrite lookup_insert_ne by congruence. rewrite lookup_empty.
        rewrite bool_decide_false by (intros [_ H]; contradiction).
        reflexivity.
    + rewrite lookup_insert_ne by congruence. rewrite lookup_empty.
      cbn [default from_option id]. rewrite lookup_empty.
      rewrite bool_decide_false by (intros [H _]; contradiction).
      reflexivity.
Qed.

Lemma add_component_file_python (framework : string)
    (files : gmap string string) (c : SystemComponent.t) :
  add_component_file "python" framework files c
  = <[component_filename c := component_file_content c]> files.
Proof.
  unfold add_component_file, _generate_component_file.
  rewrite bool_decide_true by reflexivity. reflexivity.
Qed.

Lemma python_files_keys (framework : string) (cs : list SystemComponent.t)
    (files : gmap string string) (k : string) :
  is_Some (fold_left (add_component_file "python" framework) cs files !! k)
  <-> is_Some (files !! k) \/ Exists (fun c => component_filename c = k) cs.
Proof.
  revert files. induction cs as [|c cs IH]; intros files.
  - cbn. rewrite Exists_nil. tauto.
  - cbn [fold_left]. rewrite IH, add_component_file_python.
    rewrite lookup_insert_is_Some, Exists_cons.
    destruct (decide (component_filename c = k)); tauto.
Qed.

Lemma find_snoc {A} (p : A -> bool) (l : list A) (x : A) :
  find p (l ++ [x])
  = match find p l with
    | Some y => Some y
    | None => if p x then Some x else None
    end.
Proof.
  induction l as [|y l IH]; [reflexivity|].
  cbn. destruct (p y); [reflexivity | exact IH].
Qed.

(** Each file holds what the last component of that file name wrote. *)
Lemma python_files_lookup (framework : string) (cs : list SystemComponent.t)
    (files : gmap string string) (k : string) :
  fold_left (add_component_file "python" framework) cs files !! k
  = match last_writer k cs with
    | Some c => Some (component_file_content c)
    | None => files !! k
    end.
Proof.
  unfold last_writer. revert files.
  induction cs as [|c cs IH]; intros files; [reflexivity|].
  cbn [fold_left rev]. rewrite IH, find_snoc, add_component_file_python.
  destruct (find _ (rev cs)); [reflexivity|].
  case_bool_decide as Hk.
  - rewrite Hk, lookup_insert_eq. reflexivity.
  - rewrite lookup_insert_ne by exact Hk. reflexivity.
Qed.

Lemma main_filename (s : string) : s +:+ ".py" = "main.py" <-> s = "main".
Proof.
  split; [|intros ->; reflexivity].
  intros H.
  destruct s as [|a0 s]; [discriminate H|].
  rewrite append_cons in H. injection H as -> H.
  destruct s as [|a1 s]; [discriminate H|].
  rewrite append_cons in H. injection H as -> H.
  destruct s as [|a2 s]; [discriminate H|].
  rewrite append_cons in H. injection H as -> H.
  destruct s as [|a3 s]; [discriminate H|].
  rewrite append_cons in H. injection H as -> H.
  destruct s as [|a4 s]; [reflexivity|].
  rewrite append_cons in H. injection H as -> H.
  destruct s as [|a5 s]; [discriminate H|].
  rewrite append_cons in H. injection H as -> H.
  destruct s as [|a6 s]; [discriminate H|].
  rewrite append_cons in H. injection H as -> H.
  destruct s as [|a7 s]; [discriminate H|].
  rewrite append_cons in H. discriminate H.
Qed.

Lemma python_base_main (framework : string) :
  is_Some
    ((match default ∅ (_load_templates !! "python") !! framework with
      | Some format =>
          <[_get_main_filename "python" := format "generated_app"]>
            (∅ : gmap string string)
      | None => ∅
      end) !! "main.py")
  <-> framework = "fastapi".
Proof.
  rewrite template_lookup.
  case_bool_decide as Hpy.
  - destruct Hpy as [_ ->].
    change (_get_main_filename "python") with "main.py".
    rewrite lookup_insert_eq. split; [reflexivity | eexists; reflexivity].
  - rewrite bool_decide_false by (intros [H _]; discriminate H).
    rewrite lookup_empty. split.
    + intros [x Hx]. discriminate Hx.
    + intros ->. exfalso. apply Hpy. split; reflexivity.
Qed.

(** When [generate_code] returns: only for Python and Rust, and then the
    entry file must have been written. *)
Lemma generate_code_ok_iff (a : SystemArchitecture.t) (language : string)
    (framework : option string) :
  is_ok (generate_code a language framework) = true
  <-> (language = "python"
       /\ (chosen_framework language framework = "fastapi"
           \/ Exists (fun c => PyStr.lower (SystemComponent.name c) = "main")
                (SystemArchitecture.components a)))
      \/ (language = "rust"
          /\ chosen_framework language framework = "axum").
Proof.
  unfold generate_code.
  change (match framework with
          | Some f =>
              if PyStr.truthy f then f else _get_default_framework language
          | None => _get_default_framework language
          end) with (chosen_framework language framework).
  generalize (chosen_framework language framework). intros fw.
  destruct (decide (language = "python")) as [->|Hpy].
  - change (mem "python" supported_languages) with true. cbn [negb].
    rewrite make_is_ok by reflexivity.
    cbn [GeneratedCode.files GeneratedCode.entry_point].
    change (_get_entry_point "python" fw) with "main.py".
    rewrite bool_decide_eq_true. unfold _generate_files.
    rewrite python_files_keys, python_base_main.
    assert (Hmain : Exists (fun c => component_filename c = "main.py")
                      (SystemArchitecture.components a)
                    <-> Exists (fun c =>
                                  PyStr.lower (SystemComponent.name c) = "main")
                          (SystemArchitecture.components a)).
    { rewrite !Exists_exists. split; intros (c & Hc & Hn); exists c;
        (split; [exact Hc|]); apply main_filename; exact Hn. }
    rewrite Hmain. split.
    + intros H. left. split; [reflexivity | exact H].
    + intros [[_ H]|[H _]]; [exact H | discriminate H].
  - destruct (decide (language = "rust")) as [->|Hrs].
    + change (mem "rust" supported_languages) with true. cbn [negb].
      rewrite make_is_ok by reflexivity.
      cbn [GeneratedCode.files GeneratedCode.entry_point].
      change (_get_entry_point "rust" fw) with "main.rs".
      rewrite bool_decide_eq_true. unfold _generate_files.
      rewrite component_files_only_python by discriminate.
      rewrite template_lookup.
      rewrite bool_decide_false by (intros [H _]; discriminate H).
      case_bool_decide as Hax.
      * destruct Hax as [_ ->].
        change (_get_main_filename "rust") with "main.rs".
        rewrite lookup_insert_eq. split.
        -- intros _. right. split; reflexivity.
        -- intros _. eexists. reflexivity.
      * rewrite lookup_empty. split.
        -- intros [x Hx]. discriminate Hx.
        -- intros [[H _]|[_ H]]; [discriminate H|].
           exfalso. apply Hax. split; [reflexivity | exact H].
    + assert (Hfalse : is_ok
                (if negb (mem language supported_languages)
                 then Raise (UnsupportedLanguageError
                               ("Language " +:+ language +:+ " not supported"))
                 else GeneratedCode.make
                        (GeneratedCode.mk language fw
                           (_generate_files a language fw)
                           (_extract_dependencies language fw)
                           (_get_entry_point language fw)
                           (_get_build_commands language fw)
                           (_get_run_commands language fw))) = false).
      { destruct (negb (mem language supported_languages)); [reflexivity|].
        apply make_raises. cbn [GeneratedCode.files]. unfold _generate_files.
        rewrite component_files_only_python by exact Hpy.
        rewrite template_lookup.
        rewrite bool_decide_false by (intros [H _]; contradiction).
        rewrite bool_decide_false by (intros [H _]; contradiction).
        reflexivity. }
      rewrite Hfalse. split; [discriminate|].
      intros [[H _]|[H _]]; contradiction.
Qed.

Lemma generated_for_some (a : SystemArchitecture.t) (language : string)
    (code : GeneratedCode.t) :
  generated_for a language = Some code
  <-> generate_code a language None = Ok code.
Proof.
  unfold generated_for. split.
  - destruct (mem language supported_languages); [|discriminate].
    destruct (generate_code a language None); [|discriminate].
    intros [= ->]. reflexivity.
  - intros H. rewrite H.
    destruct (mem language supported_languages) eqn:Hsup; [reflexivity|].
    unfold generate_code in H. rewrite Hsup in H. discriminate H.
Qed.

Lemma generation_step_eq (a : SystemArchitecture.t)
    (results : gmap string GeneratedCode.t) (language : string) :
  CodeGenerationService.generation_step a results language
  = match generated_for a language with
    | Some code => <[language := code]> results
    | None => results
    end.
Proof.
  unfold CodeGenerationService.generation_step, generated_for.
  destruct (mem language supported_languages); [|reflexivity].
  destruct (generate_code a language None); reflexivity.
Qed.

Lemma generation_fold_lookup (a : SystemArchitecture.t)
    (languages : list string) (results : gmap string GeneratedCode.t)
    (l : string) :
  fold_left (CodeGenerationService.generation_step a) languages results !! l
  = if mem l languages
    then match generated_for a l with
         | Some code => Some code
         | None => results !! l
         end
    else results !! l.
Proof.
  revert results. induction languages as [|x languages IH]; intros results;
    [reflexivity|].
  cbn [fold_left mem existsb]. rewrite IH, generation_step_eq.
  fold (mem l languages).
  destruct (decide (x = l)) as [->|Hne].
  - rewrite bool_decide_true by reflexivity. cbn [orb].
    destruct (generated_for a l) as [code|] eqn:Hgen.
    + rewrite lookup_insert_eq. destruct (mem l languages); reflexivity.
    + destruct (mem l languages); reflexivity.
  - rewrite bool_decide_false by exact Hne. cbn [orb].
    destruct (generated_for a x) as [code|];
      [rewrite lookup_insert_ne by exact Hne|]; reflexivity.
Qed.

Lemma mem_elem_of (x : string) (l : list string) :
  mem x l = true <-> x ∈ l.
Proof.
  unfold mem. rewrite existsb_exists. split.
  - intros (y & Hy & Heq). apply bool_decide_eq_true in Heq as <-.
    apply list_elem_of_In. exact Hy.
  - intros H. exists x. split; [apply list_elem_of_In; exact H|].
    apply bool_decide_eq_true. reflexivity.
Qed.

End GenerationFacts.

(** X19: [generate_code] returns a [GeneratedCode] in exactly two
    situations: the language is python and either the framework in effect is
    fastapi or some component's lower-cased name is main (its file then is
    the entry file main.py), or the language is rust and the framework in
    effect is axum.  In every other case, among them the frameworks flask,
    django, warp and actix that [get_supported_frameworks] lists, it
    raises. *)
Theorem generate_code_succeeds_iff (a : SystemArchitecture.t)
    (language : string) (framework : option string) :
  is_ok (EnhancedMultiLanguageGenerator.generate_code a language framework)
  = true
  <-> (language = "python"
       /\ (chosen_framework language framework = "fastapi"
           \/ Exists (fun c => PyStr.lower (SystemComponent.name c) = "main")
                (SystemArchitecture.components a)))
      \/ (language = "rust"
          /\ chosen_framework language framework = "axum").
Proof.
  apply generate_code_ok_iff.
Qed.

(** X20: whatever [generate_code] returns passes [validate_code]: the
    constructor of [GeneratedCode] has already refused an empty file set and
    a missing entry file. *)
Theorem generated_code_validates (a : SystemArchitecture.t)
    (language : string) (framework : option string)
    (code : GeneratedCode.t) :
  EnhancedMultiLanguageGenerator.generate_code a language framework = Ok code ->
  EnhancedMultiLanguageGenerator.validate_code code = [].
Proof.
  unfold EnhancedMultiLanguageGenerator.generate_code.
  destruct (negb _); [discriminate|].
  intros H. pose proof (make_inv _ _ H) as Hcode.
  rewrite <- Hcode in H. clear Hcode.
  unfold GeneratedCode.make in H. cbn [mbind result_bind] in H.
  destruct (GeneratedCode.post_init code) eqn:Hpost; [|discriminate H].
  clear H. unfold GeneratedCode.post_init in Hpost.
  unfold EnhancedMultiLanguageGenerator.validate_code.
  destruct (negb (PyStr.truthy _)); [discriminate Hpost|].
  destruct (bool_decide (GeneratedCode.files code = ∅));
    [discriminate Hpost|].
  destruct (bool_decide (is_Some _)); [reflexivity | discriminate Hpost].
Qed.

Lemma generated_code_validates_witness :
  exists code,
    EnhancedMultiLanguageGenerator.generate_code
      single_service_architecture "rust" None = Ok code
    /\ EnhancedMultiLanguageGenerator.validate_code code = [].
Proof.
  eexists. split; [vm_compute; reflexivity|].
  apply (generated_code_validates single_service_architecture "rust" None).
  vm_compute. reflexivity.
Defined.

(** X21: Python generation with the default framework always returns; a
    file of the result holds what the last component with that file name
    (its lower-cased name followed by .py) wrote, and main.py holds the
    FastAPI application only if no component is written to main.py: a
    component named Main replaces the entry file, and of two components
    whose names differ only in case the first leaves no file. *)
Theorem python_files_last_writer (a : SystemArchitecture.t) :
  exists code,
    EnhancedMultiLanguageGenerator.generate_code a "python" None = Ok code
    /\ forall k,
         GeneratedCode.files code !! k
         = match last_writer k (SystemArchitecture.components a) with
           | Some c =>
               Some (EnhancedMultiLanguageGenerator.component_file_content c)
           | None =>
               if bool_decide (k = "main.py")
               then Some (EnhancedMultiLanguageGenerator.fastapi_template
                            "generated_app")
               else None
           end.
Proof.
  destruct (generate_code_python_entry_point a) as (code & Hcode & _).
  exists code. split; [exact Hcode|].
  intros k. apply make_inv in Hcode. subst code.
  cbn [GeneratedCode.files].
  change (EnhancedMultiLanguageGenerator._get_default_framework "python")
    with "fastapi".
  unfold EnhancedMultiLanguageGenerator._generate_files.
  rewrite python_files_lookup, template_lookup.
  rewrite bool_decide_true by (split; reflexivity).
  destruct (last_writer k (SystemArchitecture.components a));
    [reflexivity|].
  change (EnhancedMultiLanguageGenerator._get_main_filename "python")
    with "main.py".
  case_bool_decide as Hk.
  - rewrite Hk, lookup_insert_eq. reflexivity.
  - rewrite lookup_insert_ne by congruence. apply lookup_empty.
Qed.

(** X22: [generate_multi_language_code] returns an entry for a language
    exactly when the language was requested and is python or rust, and the
    entry is what [generate_code] returns for it with the default framework;
    go, typescript, java and cpp are dropped although they are supported
    languages, and an unsupported language is skipped. *)
Theorem multi_language_result (a : SystemArchitecture.t)
    (languages : list string) (l : string) :
  match CodeGenerationService.generate_multi_language_code a languages !! l
  with
  | Some code =>
      l ∈ languages /\ (l = "python" \/ l = "rust")
      /\ EnhancedMultiLanguageGenerator.generate_code a l None = Ok code
  | None => l ∉ languages \/ (l <> "python" /\ l <> "rust")
  end.
Proof.
  unfold CodeGenerationService.generate_multi_language_code.
  rewrite generation_fold_lookup, lookup_empty.
  destruct (EnhancedMultiLanguageGenerator.mem l languages) eqn:Hmem.
  - apply mem_elem_of in Hmem.
    destruct (generated_for a l) as [code|] eqn:Hgen.
    + apply generated_for_some in Hgen.
      split; [exact Hmem|]. split; [|exact Hgen].
      assert (Hok : is_ok (EnhancedMultiLanguageGenerator.generate_code
                             a l None) = true)
        by (rewrite Hgen; reflexivity).
      apply generate_code_ok_iff in Hok as [[H _]|[H _]]; [left | right];
        exact H.
    + right. split; intros ->.
      * destruct (generate_code_python_entry_point a) as (g & Hg & _).
        apply generated_for_some in Hg. congruence.
      * destruct (generate_code_rust_entry_point a) as (g & Hg & _).
        apply generated_for_some in Hg. congruence.
  - left. intros Hin. apply mem_elem_of in Hin. congruence.
Qed.

(** ** Cloud deployment *)

(** X23: [deploy_application] never raises, whatever the package preparation
    and the provider functions do: an exception of either becomes a failed
    result carrying its message.  A successful result is always the result
    the function of the configured provider returned on the prepared package;
    and if the preparation raises, no provider function runs: the world stays
    as the preparation left it. *)
Theorem deploy_application_outcome (World Package : Type)
    (prepare : gmap string string -> Deployment.DeploymentConfig
               -> IO World Package)
    (aws gcp azure vercel netlify railway render :
       Package -> Deployment.DeploymentConfig
       -> IO World Deployment.DeploymentResult)
    (files : gmap string string) (config : Deployment.DeploymentConfig)
    (w : World) :
  exists r w',
    deploy_application World Package prepare
      aws gcp azure vercel netlify railway render files config w
    = (Ok r, w')
    /\ (Deployment.success r = true ->
        exists f pkg w1,
          providers World Package aws gcp azure vercel netlify railway render
            !! Deployment.provider config = Some f
          /\ prepare files config w = (Ok pkg, w1)
          /\ f pkg config w1 = (Ok r, w'))
    /\ (forall e w1,
          Deployment.provider config ∈ supported_providers ->
          prepare files config w = (Raise e, w1) ->
          r = deployment_failed e /\ w' = w1)
    /\ (forall f pkg w1 e w2,
          providers World Package aws gcp azure vercel netlify railway render
            !! Deployment.provider config = Some f ->
          prepare files config w = (Ok pkg, w1) ->
          f pkg config w1 = (Raise e, w2) ->
          r = deployment_failed e /\ w' = w2).
Proof.
  unfold deploy_application. unfold IO in *.
  destruct (_ !! Deployment.provider config) as [f|] eqn:Hlook.
  - destruct (prepare files config w) as [[pkg|e] w1] eqn:Hprep.
    + destruct (f pkg config w1) as [[r|e] w2] eqn:Hrun.
      * exists r, w2. split; [reflexivity|]. split; [|split].
        -- intros _. exists f, pkg, w1.
           split; [reflexivity|]. split; [reflexivity | exact Hrun].
        -- intros e w1' _ H. discriminate H.
        -- intros f' pkg' w1' e w2' [= <-] [= <- <-] H.
           rewrite Hrun in H. discriminate H.
      * exists (deployment_failed e), w2. split; [reflexivity|].
        split; [|split].
        -- intros H. discriminate H.
        -- intros e' w1' _ H. discriminate H.
        -- intros f' pkg' w1' e' w2' [= <-] [= <- <-] H.
           rewrite Hrun in H. injection H as <- <-. split; reflexivity.
    + exists (deployment_failed e), w1. split; [reflexivity|].
      split; [|split].
      * intros H. discriminate H.
      * intros e' w1' _ [= <- <-]. split; reflexivity.
      * intros f' pkg' w1' e' w2' _ H. discriminate H.
  - eexists _, w. split; [reflexivity|]. split; [|split].
    + intros H. discriminate H.
    + intros e w1 Hin _. exfalso.
      unfold providers in Hlook.
      apply not_elem_of_list_to_map in Hlook. apply Hlook. exact Hin.
    + intros f pkg w1 e w2 H. discriminate H.
Qed.

(** ** Auto-fix on objects and on values *)

Section ObjectsAndValues.

Lemma omap_cons_eq {A B} (f : A -> option B) (x : A) (l : list A) :
  omap f (x :: l)
  = match f x with
    | Some y => y :: omap f l
    | None => omap f l
    end.
Proof. reflexivity. Qed.

(** Looking a name up in the listed values finds the object that the lookup
    by reference finds. *)
Lemma listed_find (h : gmap nat SystemComponent.t) (refs : list nat)
    (w : string) :
  find (fun c => bool_decide (SystemComponent.name c = w))
    (omap (fun r => h !! r) refs)
  = find (fun r => bool_decide (SystemComponent.name <$> h !! r = Some w))
      refs
    ≫= (fun r => h !! r).
Proof.
  induction refs as [|r refs IH]; [reflexivity|].
  rewrite omap_cons_eq. cbn [find].
  destruct (h !! r) as [c|] eqn:Hr.
  - cbn [find fmap option_fmap option_map].
    rewrite (bool_decide_ext (Some (SystemComponent.name c) = Some w)
               (SystemComponent.name c = w)) by (split; congruence).
    destruct (bool_decide (SystemComponent.name c = w));
      [cbn; rewrite Hr; reflexivity | exact IH].
  - cbn [fmap option_fmap option_map].
    rewrite bool_decide_false by discriminate. exact IH.
Qed.

Lemma omap_alter_fresh (h : gmap nat SystemComponent.t) (refs : list nat)
    (f : SystemComponent.t -> SystemComponent.t) (rd : nat) :
  rd ∉ refs ->
  omap (fun r => alter f rd h !! r) refs = omap (fun r => h !! r) refs.
Proof.
  induction refs as [|r refs IH]; [reflexivity|].
  intros Hnotin. apply not_elem_of_cons in Hnotin as [Hne Hnotin].
  rewrite !omap_cons_eq, lookup_alter_ne by exact Hne.
  rewrite (IH Hnotin). reflexivity.
Qed.

(** With distinct references, assigning to the object found by name is
    updating the first listed value of that name. *)
Lemma listed_assign (h : gmap nat SystemComponent.t) (refs : list nat)
    (w : string) (f : SystemComponent.t -> SystemComponent.t) (rd : nat) :
  NoDup refs ->
  find (fun r => bool_decide (SystemComponent.name <$> h !! r = Some w)) refs
  = Some rd ->
  update_first w f (omap (fun r => h !! r) refs)
  = omap (fun r => alter f rd h !! r) refs.
Proof.
  induction refs as [|r refs IH]; [discriminate|].
  intros Hnd Hfind. apply NoDup_cons in Hnd as [Hnotin Hnd].
  cbn [find] in Hfind. rewrite !omap_cons_eq.
  destruct (h !! r) as [c|] eqn:Hr.
  - cbn [fmap option_fmap option_map] in Hfind.
    destruct (bool_decide (Some (SystemComponent.name c) = Some w))
      eqn:Hname.
    + injection Hfind as <-. apply bool_decide_eq_true in Hname.
      rewrite lookup_alter_eq, Hr. cbn [fmap option_fmap option_map].
      cbn [update_first]. rewrite bool_decide_true by congruence.
      rewrite (omap_alter_fresh h refs f r Hnotin). reflexivity.
    + apply bool_decide_eq_false in Hname.
      assert (Hne : rd <> r).
      { intros ->. apply find_some in Hfind as [Hin _].
        apply Hnotin, list_elem_of_In. exact Hin. }
      rewrite lookup_alter_ne by exact Hne. rewrite Hr.
      cbn [update_first]. rewrite bool_decide_false by congruence.
      rewrite (IH Hnd Hfind). reflexivity.
  - cbn [fmap option_fmap option_map] in Hfind.
    rewrite bool_decide_false in Hfind by discriminate.
    assert (Hne : rd <> r).
    { intros ->. apply find_some in Hfind as [Hin _].
      apply Hnotin, list_elem_of_In. exact Hin. }
    rewrite lookup_alter_ne by exact Hne. rewrite Hr.
    apply IH; assumption.
Qed.

(** One iteration on the objects and on the values. *)
Lemma fix_issue_agrees (issue : string) (o : Objects.t)
    (a : SystemArchitecture.t) :
  NoDup (Objects.components o) ->
  SystemArchitecture.components a = Objects.listed o ->
  exists o' a',
    Objects.fix_issue issue o = (Ok tt, o')
    /\ ArchitectureService.fix_issue issue a = (Ok tt, a')
    /\ SystemArchitecture.components a' = Objects.listed o'
    /\ Objects.components o' = Objects.components o.
Proof.
  intros Hnd Hview.
  destruct (PyStr.contains "has no responsibilities" issue) eqn:Hr;
    [|destruct (PyStr.contains "has no type" issue) eqn:Ht].
  3: { exists o, a. unfold Objects.fix_issue, ArchitectureService.fix_issue.
       rewrite Hr, Ht. repeat split; [exact Hview]. }
  all: assert (Hphrase : PyStr.contains "has no responsibilities" issue = true
                         \/ PyStr.contains "has no type" issue = true)
         by (rewrite ?Hr, ?Ht; tauto);
       destruct (second_token_of_fixable issue Hphrase) as [w Htok];
       rewrite (objects_fix_issue_exec issue w o Htok Hphrase);
       rewrite (fix_issue_exec issue w a Htok);
       eexists _, _; (split; [reflexivity|]); (split; [reflexivity|]);
       cbn [SystemArchitecture.set_components SystemArchitecture.components];
       rewrite Hview; unfold Objects.listed;
       pose proof (listed_find (Objects.heap o) (Objects.components o) w)
         as Hfind;
       fold (Objects.get_component_by_name o w) in Hfind;
       destruct (Objects.get_component_by_name o w) as [rd|] eqn:Hget;
       [ cbn [Objects.assign Objects.heap Objects.components];
         split; [|reflexivity];
         apply listed_assign; [exact Hnd | exact Hget]
       | split; [|reflexivity];
         apply update_first_none; exact Hfind ].
Qed.

Lemma auto_fix_agrees (issues : list string) (o : Objects.t)
    (a : SystemArchitecture.t) :
  NoDup (Objects.components o) ->
  SystemArchitecture.components a = Objects.listed o ->
  exists o' a',
    Objects._auto_fix_architecture_issues issues o = (Ok tt, o')
    /\ ArchitectureService._auto_fix_architecture_issues issues a
       = (Ok tt, a')
    /\ SystemArchitecture.components a' = Objects.listed o'
    /\ Objects.components o' = Objects.components o.
Proof.
  revert o a. induction issues as [|issue issues IH]; intros o a Hnd Hview.
  - exists o, a. repeat split; exact Hview.
  - destruct (fix_issue_agrees issue o a Hnd Hview)
      as (o1 & a1 & Ho1 & Ha1 & Hview1 & Hrefs1).
    rewrite <- Hrefs1 in Hnd.
    destruct (IH o1 a1 Hnd Hview1) as (o' & a' & Ho' & Ha' & Hview' & Hrefs').
    exists o', a'.
    cbn [Objects._auto_fix_architecture_issues]. rewrite Ho1.
    split; [exact Ho'|]. split.
    + unfold ArchitectureService._auto_fix_architecture_issues in *.
      cbn [for_each]. cbv [mbind ArchM_bind]. rewrite Ha1. exact Ha'.
    + split; [exact Hview' | congruence].
Qed.

End ObjectsAndValues.

(** X24: on an architecture whose listed component objects are distinct,
    auto-fix on the objects and auto-fix on the list of component values
    agree: neither raises, and the values listed after the one are the
    components after the other.  (With an object listed twice they differ:
    the assignment shows at both places.) *)
Theorem auto_fix_on_distinct_objects (issues : list string) (o : Objects.t)
    (a : SystemArchitecture.t) :
  NoDup (Objects.components o) ->
  SystemArchitecture.components a = Objects.listed o ->
  exists o' a',
    Objects._auto_fix_architecture_issues issues o = (Ok tt, o')
    /\ ArchitectureService._auto_fix_architecture_issues issues a
       = (Ok tt, a')
    /\ SystemArchitecture.components a' = Objects.listed o'
    /\ Objects.components o' = Objects.components o.
Proof. apply auto_fix_agrees. Qed.

Lemma auto_fix_on_distinct_objects_witness :
  exists o' a',
    Objects._auto_fix_architecture_issues
      [no_type_issue "User"; no_responsibilities_issue "User Service"]
      two_users_objects = (Ok tt, o')
    /\ ArchitectureService._auto_fix_architecture_issues
         [no_type_issue "User"; no_responsibilities_issue "User Service"]
         two_users_architecture = (Ok tt, a')
    /\ SystemArchitecture.components a' = Objects.listed o'
    /\ Objects.components o' = Objects.components two_users_objects.
Proof.
  apply (auto_fix_on_distinct_objects
           [no_type_issue "User"; no_responsibilities_issue "User Service"]
           two_users_objects two_users_architecture).
  - apply (bool_decide_unpack _). vm_compute. exact I.
  - reflexivity.
Defined.

(** An object listed twice shows the repair at both places, the value list
    only at the first. *)
Example auto_fix_shared_object :
  Objects.listed
    (snd (Objects._auto_fix_architecture_issues
            [no_type_issue "User"] shared_user_objects))
  = [ user_service;
      SystemComponent.mk "User" "service" ["Hold user data"] [] [];
      SystemComponent.mk "User" "service" ["Hold user data"] [] [] ]
  /\ update_first "User" (SystemComponent.set_component_type "service")
       (Objects.listed shared_user_objects)
     = [ user_service;
         SystemComponent.mk "User" "service" ["Hold user data"] [] [];
         user_component ].
Proof. split; vm_compute; reflexivity. Qed.
